(** * Stripe webhook relay: signature verification and forwarding

    Shallow embedding of [src/app/api/stripe/webhook/route.ts].  The source
    holds two variants of the route: the first (lines 1-301) forwards with the
    service-role key and answers every forwarding failure with 500; the second
    (lines 302-706) validates the destination URL, has a ping mode and answers
    connection failures with 502.  [parseStripeSignatureHeader] and
    [verifyStripeSignature] are textually identical in both and are embedded
    once; the forwarder and the handler are embedded per variant in the modules
    [V1] and [V2]. *)

From Stdlib Require Import ZArith NArith List Bool Ascii String Lia.
From Stdlib Require Import Init.Byte.
Import ListNotations.

Local Open Scope string_scope.
Local Open Scope list_scope.
Local Open Scope Z_scope.

(** ** JavaScript values used by the route *)

(** A header value, an environment variable used as URL or credential and every
    string literal of the source is a sequence of code units below 256 (header
    values are byte strings); these are [string].  The request body and the
    signing secret are arbitrary JavaScript strings: sequences of UTF-16 code
    units, [jsstring]. *)
Definition jsstring := list N.

Definition code_units (s : string) : jsstring :=
  map N_of_ascii (list_ascii_of_string s).

(** The value of [parseInt]: [NaN] or an integer.  The integer is exact; the
    double that JavaScript holds differs from it only beyond 2^53, where both
    are further than the tolerance from any clock value. *)
Inductive number : Type :=
| NaN
| Int (z : Z).

(** A thrown error, with the fields of its [cause] that the second variant
    reads. *)
Record CauseLike : Type := mkCause {
  cause_code : option string;
  cause_errno : option Z;
  cause_syscall : option string
}.

Record JsError : Type := mkError {
  err_name : string;
  err_message : string;
  err_cause : option CauseLike
}.

(** Completion of a JavaScript call: a value, or a thrown error. *)
Inductive Completion (A : Type) : Type :=
| Normal (a : A)
| Throw (e : JsError).
Arguments Normal {A} a.
Arguments Throw {A} e.

Definition bindC {A B} (m : Completion A) (k : A -> Completion B) : Completion B :=
  match m with
  | Normal a => k a
  | Throw e => Throw e
  end.

(** [try { body } catch (error) { handler }] *)
Definition try_catch {A} (body : Completion A) (handler : JsError -> Completion A)
  : Completion A :=
  match body with
  | Normal a => Normal a
  | Throw e => handler e
  end.

(** [!x] on a string that may be [undefined] or [null]: only a non-empty string
    is truthy. *)
Definition truthy (x : option string) : bool :=
  match x with
  | Some (String _ _) => true
  | _ => false
  end.

Definition truthy_js (x : option jsstring) : bool :=
  match x with
  | Some (_ :: _) => true
  | _ => false
  end.

(** A value that [JSON.parse] builds, or [undefined].  A number is given by the
    text [String(x)] renders for it, which determines the double (negative
    zero apart, which renders [0] like zero).  An object lists its own
    properties; its prototype is [Object.prototype], as [JSON.parse] leaves
    it. *)
#[warnings="-register-all"]
Inductive JsValue : Type :=
| JsUndefined
| JsNull
| JsBoolean (b : bool)
| JsNumber (text : string)
| JsString (s : jsstring)
| JsArray (items : list JsValue)
| JsObject (props : list (jsstring * JsValue)).

Module Js.

(** White space and line terminators below 256: TAB, LF, VT, FF, CR, SP, NBSP. *)
Definition isWhiteSpace (c : ascii) : bool :=
  let n := N_of_ascii c in
  ((9 <=? n) && (n <=? 13) || (n =? 32) || (n =? 160))%N.

(** [s.split(sep)] for a one-character separator: never the empty list. *)
Fixpoint split (sep : ascii) (s : string) : list string :=
  match s with
  | EmptyString => [EmptyString]
  | String c s' =>
      if Ascii.eqb c sep then EmptyString :: split sep s'
      else match split sep s' with
           | [] => [String c EmptyString]
           | p :: ps => String c p :: ps
           end
  end.

Fixpoint trimStart (s : string) : string :=
  match s with
  | EmptyString => EmptyString
  | String c s' => if isWhiteSpace c then trimStart s' else s
  end.

Fixpoint trimEnd (s : string) : string :=
  match s with
  | EmptyString => EmptyString
  | String c s' =>
      match trimEnd s' with
      | EmptyString => if isWhiteSpace c then EmptyString else String c EmptyString
      | t => String c t
      end
  end.

Definition trim (s : string) : string := trimEnd (trimStart s).

Definition startsWith (s p : string) : bool := String.prefix p s.

(** Decimal digits. *)
Definition digit_value (c : ascii) : option Z :=
  let n := N_of_ascii c in
  if ((48 <=? n) && (n <=? 57))%N then Some (Z.of_N n - 48) else None.

(** Value of the longest prefix of decimal digits, with the number of digits
    read; [acc] is the value read so far. *)
Fixpoint read_digits (s : string) (acc : Z) (count : nat) : Z * nat :=
  match s with
  | EmptyString => (acc, count)
  | String c s' =>
      match digit_value c with
      | Some d => read_digits s' (10 * acc + d) (S count)
      | None => (acc, count)
      end
  end.

(** [parseInt(s, 10)]: skip leading white space, read an optional sign, then the
    longest run of decimal digits; no digit gives [NaN]. *)
Definition parseInt (s : string) : number :=
  let t := trimStart s in
  let sign :=
    match t with
    | String c _ => if Ascii.eqb c "-" then -1 else 1
    | EmptyString => 1
    end in
  let r :=
    match t with
    | String c r => if Ascii.eqb c "-" || Ascii.eqb c "+" then r else t
    | EmptyString => t
    end in
  match read_digits r 0 0 with
  | (_, O) => NaN
  | (v, S _) => Int (sign * v)
  end.

(** Decimal rendering of a non-negative integer, most significant digit
    first. *)
Definition digit_char (d : Z) : ascii := ascii_of_N (Z.to_N (48 + d)).

Fixpoint digits_of (fuel : nat) (n : Z) (acc : string) : string :=
  let acc' := String (digit_char (n mod 10)) acc in
  match fuel with
  | O => acc'
  | S f => if n <? 10 then acc' else digits_of f (n / 10) acc'
  end.

Definition decimal (n : Z) : string :=
  digits_of (Z.to_nat (Z.log2 n)) n EmptyString.

(** [String(x)] as the template literal applies it: ["NaN"], or the decimal
    digits with a leading minus sign for a negative integer. *)
Definition Number_toString (x : number) : string :=
  match x with
  | NaN => "NaN"
  | Int z => if z <? 0 then String "-" (decimal (- z)) else decimal z
  end.

Fixpoint code_units_eqb (a b : jsstring) : bool :=
  match a, b with
  | [], [] => true
  | x :: a', y :: b' => N.eqb x y && code_units_eqb a' b'
  | _, _ => false
  end.

(** [Object.hasOwn(obj, key)] on the properties of a parsed object. *)
Definition hasOwn (props : list (jsstring * JsValue)) (key : string) : bool :=
  existsb (fun p => code_units_eqb (fst p) (code_units key)) props.

(** [ToBoolean], as [&&] and [if] apply it. *)
Definition ToBoolean (v : JsValue) : bool :=
  match v with
  | JsUndefined | JsNull => false
  | JsBoolean b => b
  | JsNumber text => negb (String.eqb text "0" || String.eqb text "NaN")
  | JsString s => match s with [] => false | _ :: _ => true end
  | JsArray _ | JsObject _ => true
  end.

(** [ToString], as a template literal applies it to a substitution.  An array
    joins the strings of its elements with commas, [null] and [undefined]
    giving the empty string.  An object goes through [toString], then
    [valueOf]: without an own [toString] it inherits the one of
    [Object.prototype]; an own [toString] is a parsed value, never a function,
    and [valueOf], own or inherited, gives no primitive, so the conversion
    raises a TypeError. *)
Fixpoint ToString (v : JsValue) : Completion jsstring :=
  match v with
  | JsUndefined => Normal (code_units "undefined")
  | JsNull => Normal (code_units "null")
  | JsBoolean b => Normal (code_units (if b then "true" else "false"))
  | JsNumber text => Normal (code_units text)
  | JsString s => Normal s
  | JsArray items =>
      (fix join (items : list JsValue) : Completion jsstring :=
         match items with
         | [] => Normal []
         | item :: rest =>
             bindC (match item with
                    | JsUndefined | JsNull => Normal []
                    | _ => ToString item
                    end)
               (fun first =>
                  match rest with
                  | [] => Normal first
                  | _ :: _ =>
                      bindC (join rest)
                        (fun others => Normal (first ++ code_units "," ++ others))
                  end)
         end) items
  | JsObject props =>
      if hasOwn props "toString"
      then Throw (mkError "TypeError" "Cannot convert object to primitive value" None)
      else Normal (code_units "[object Object]")
  end.

(** [Math.abs(a - b) > tol]; any comparison with [NaN] is false. *)
Definition abs_diff_gt (a : Z) (b : number) (tol : Z) : bool :=
  match b with
  | NaN => false
  | Int z => Z.abs (a - z) >? tol
  end.

End Js.

(** ** Buffers *)

Module Buffer.

Definition byte_of_N (n : N) : byte :=
  match Byte.of_N (n mod 256) with
  | Some b => b
  | None => Byte.x00
  end.

Definition is_lead_surrogate (c : N) : bool := ((0xD800 <=? c) && (c <=? 0xDBFF))%N.
Definition is_trail_surrogate (c : N) : bool := ((0xDC00 <=? c) && (c <=? 0xDFFF))%N.

(** UTF-8 bytes of one code point. *)
Definition utf8_of_code_point (cp : N) : list byte :=
  (if cp <? 0x80 then [byte_of_N cp]
   else if cp <? 0x800 then
     [byte_of_N (N.lor 0xC0 (N.shiftr cp 6));
      byte_of_N (N.lor 0x80 (N.land cp 0x3F))]
   else if cp <? 0x10000 then
     [byte_of_N (N.lor 0xE0 (N.shiftr cp 12));
      byte_of_N (N.lor 0x80 (N.land (N.shiftr cp 6) 0x3F));
      byte_of_N (N.lor 0x80 (N.land cp 0x3F))]
   else
     [byte_of_N (N.lor 0xF0 (N.shiftr cp 18));
      byte_of_N (N.lor 0x80 (N.land (N.shiftr cp 12) 0x3F));
      byte_of_N (N.lor 0x80 (N.land (N.shiftr cp 6) 0x3F));
      byte_of_N (N.lor 0x80 (N.land cp 0x3F))])%N.

(** [Buffer.from(s, "utf8")], also the encoding [hmac.update(s)] applies to a
    string: a surrogate pair is one code point, a lone surrogate is encoded as
    U+FFFD. *)
Fixpoint from_utf8 (s : jsstring) : list byte :=
  match s with
  | [] => []
  | c :: rest =>
      if is_lead_surrogate c then
        match rest with
        | d :: rest' =>
            if is_trail_surrogate d
            then utf8_of_code_point
                   (0x10000 + (c - 0xD800) * 0x400 + (d - 0xDC00))%N
                 ++ from_utf8 rest'
            else utf8_of_code_point 0xFFFD%N ++ from_utf8 rest
        | [] => utf8_of_code_point 0xFFFD%N
        end
      else if is_trail_surrogate c then utf8_of_code_point 0xFFFD%N ++ from_utf8 rest
      else utf8_of_code_point c ++ from_utf8 rest
  end.

Definition hex_digit (n : N) : ascii :=
  (if n <? 10 then ascii_of_N (48 + n) else ascii_of_N (87 + n))%N.

(** [buf.toString("hex")] / [hmac.digest("hex")]: two lower-case digits per
    byte. *)
Fixpoint to_hex (bs : list byte) : string :=
  match bs with
  | [] => EmptyString
  | b :: bs' =>
      let n := Byte.to_N b in
      String (hex_digit (n / 16)%N) (String (hex_digit (n mod 16)%N) (to_hex bs'))
  end.

Definition unhex (c : ascii) : option N :=
  let n := N_of_ascii c in
  (if (48 <=? n) && (n <=? 57) then Some (n - 48)
   else if (97 <=? n) && (n <=? 102) then Some (n - 87)
   else if (65 <=? n) && (n <=? 70) then Some (n - 55)
   else None)%N.

(** [Buffer.from(s, "hex")]: decodes pairs of hex digits of either case and
    stops, without raising, at the first pair that is not two hex digits or at
    a single trailing character. *)
Fixpoint from_hex (s : string) : list byte :=
  match s with
  | String a (String b s') =>
      match unhex a, unhex b with
      | Some x, Some y => byte_of_N (16 * x + y)%N :: from_hex s'
      | _, _ => []
      end
  | _ => []
  end.

Definition byte_eqb (a b : byte) : bool := Byte.eqb a b.

Fixpoint bytes_eqb (a b : list byte) : bool :=
  match a, b with
  | [], [] => true
  | x :: a', y :: b' => byte_eqb x y && bytes_eqb a' b'
  | _, _ => false
  end.

(** [crypto.timingSafeEqual(a, b)]: raises a RangeError when the lengths differ,
    otherwise tells whether the contents are equal. *)
Definition timingSafeEqual (a b : list byte) : Completion bool :=
  if Nat.eqb (List.length a) (List.length b)
  then Normal (bytes_eqb a b)
  else Throw (mkError "RangeError"
                "Input buffers must have the same byte length" None).

End Buffer.

(** ** Decoding the request body

    [request.text()] decodes the bytes of the body as UTF-8, as the Encoding
    standard defines it: a byte order mark at the start is dropped, and every
    maximal ill-formed part is replaced by U+FFFD. *)

Module TextDecoder.

Record State : Type := mkState {
  code_point : N;
  bytes_seen : nat;
  bytes_needed : nat;
  lower_boundary : N;
  upper_boundary : N
}.

Definition start : State := mkState 0 0 0 0x80 0xBF.

(** A byte met when no sequence is open. *)
Definition lead (n : N) : list N * State :=
  (if n <=? 0x7F then ([n], start)
   else if (0xC2 <=? n) && (n <=? 0xDF) then
     ([], mkState (N.land n 0x1F) 0 1 0x80 0xBF)
   else if (0xE0 <=? n) && (n <=? 0xEF) then
     ([], mkState (N.land n 0xF) 0 2
            (if n =? 0xE0 then 0xA0 else 0x80) (if n =? 0xED then 0x9F else 0xBF))
   else if (0xF0 <=? n) && (n <=? 0xF4) then
     ([], mkState (N.land n 0x7) 0 3
            (if n =? 0xF0 then 0x90 else 0x80) (if n =? 0xF4 then 0x8F else 0xBF))
   else ([0xFFFD], start))%N.

(** One byte: the code points emitted and the next state.  A byte outside the
    boundaries of an open sequence ends it with U+FFFD and is read again as a
    first byte. *)
Definition step (st : State) (b : byte) : list N * State :=
  let n := Byte.to_N b in
  match bytes_needed st with
  | O => lead n
  | S _ =>
      if ((n <? lower_boundary st) || (upper_boundary st <? n))%N then
        let '(out, st') := lead n in (0xFFFD%N :: out, st')
      else
        let cp := N.lor (N.shiftl (code_point st) 6) (N.land n 0x3F) in
        if Nat.eqb (S (bytes_seen st)) (bytes_needed st) then ([cp], start)
        else ([], mkState cp (S (bytes_seen st)) (bytes_needed st) 0x80 0xBF)
  end.

(** The code points of a byte sequence; a sequence left open at the end gives
    U+FFFD. *)
Fixpoint run (st : State) (bs : list byte) : list N :=
  match bs with
  | [] => match bytes_needed st with O => [] | S _ => [0xFFFD%N] end
  | b :: rest => let '(out, st') := step st b in out ++ run st' rest
  end.

(** The code units of a code point in a JavaScript string. *)
Definition utf16_of_code_point (cp : N) : jsstring :=
  (if cp <? 0x10000 then [cp]
   else [0xD800 + (cp - 0x10000) / 0x400; 0xDC00 + (cp - 0x10000) mod 0x400])%N.

Definition strip_BOM (bs : list byte) : list byte :=
  match bs with
  | Byte.xef :: Byte.xbb :: Byte.xbf :: rest => rest
  | _ => bs
  end.

Definition decode (bs : list byte) : jsstring :=
  flat_map utf16_of_code_point (run start (strip_BOM bs)).

End TextDecoder.

(** ** Headers of an outbound request

    [fetch] builds a [Headers] object from the record it is given: every entry
    is appended with its value stripped of HTTP white space at both ends, names
    are compared without regard to case, and the values of entries with the
    same name are combined, in order, with a comma and a space.  That combined
    value is what the receiver reads. *)

Module Headers.

Definition lower_char (c : ascii) : ascii :=
  let n := N_of_ascii c in
  if ((65 <=? n) && (n <=? 90))%N then ascii_of_N (n + 32) else c.

Fixpoint lower (s : string) : string :=
  match s with
  | EmptyString => EmptyString
  | String c s' => String (lower_char c) (lower s')
  end.

(** HTTP white space: TAB, LF, CR, SP. *)
Definition isHttpWhitespace (c : ascii) : bool :=
  let n := N_of_ascii c in
  ((n =? 9) || (n =? 10) || (n =? 13) || (n =? 32))%N.

Fixpoint strip_start (s : string) : string :=
  match s with
  | EmptyString => EmptyString
  | String c s' => if isHttpWhitespace c then strip_start s' else s
  end.

Fixpoint strip_end (s : string) : string :=
  match s with
  | EmptyString => EmptyString
  | String c s' =>
      match strip_end s' with
      | EmptyString => if isHttpWhitespace c then EmptyString else String c EmptyString
      | t => String c t
      end
  end.

Definition normalize (value : string) : string := strip_end (strip_start value).

(** [new Headers(record).get(name)] *)
Definition get (record : list (string * string)) (name : string) : option string :=
  match filter (fun entry => String.eqb (lower (fst entry)) (lower name)) record with
  | [] => None
  | entry :: entries =>
      Some (String.concat ", " (map (fun e => normalize (snd e)) (entry :: entries)))
  end.

End Headers.

(** ** Signature header parser (route.ts, lines 15-54) *)

Record SignatureEntry : Type := mkEntry {
  entry_timestamp : string;
  entry_signature : string
}.

(** [const [, value] = trimmed.split("=")] *)
Definition second_field (trimmed : string) : option string :=
  nth_error (Js.split "=" trimmed) 1.

(** First loop: the value of the first segment that starts with [t=] and has a
    non-empty value; the loop breaks there. *)
Fixpoint find_timestamp (parts : list string) : option string :=
  match parts with
  | [] => None
  | part :: rest =>
      let trimmed := Js.trim part in
      if Js.startsWith trimmed "t=" then
        match second_field trimmed with
        | Some (String c v) => Some (String c v)
        | _ => find_timestamp rest
        end
      else find_timestamp rest
  end.

(** Second loop: one entry per segment that starts with [v1=] and has a
    non-empty value, in the order of the header. *)
Fixpoint collect_v1 (timestamp : string) (parts : list string) : list SignatureEntry :=
  match parts with
  | [] => []
  | part :: rest =>
      let trimmed := Js.trim part in
      if Js.startsWith trimmed "v1=" then
        match second_field trimmed with
        | Some (String c v) =>
            mkEntry timestamp (String c v) :: collect_v1 timestamp rest
        | _ => collect_v1 timestamp rest
        end
      else collect_v1 timestamp rest
  end.

Definition parseStripeSignatureHeader (signatureHeader : string) : list SignatureEntry :=
  let parts := Js.split "," signatureHeader in
  match find_timestamp parts with
  | None => []
  | Some timestamp =>
      let entries := collect_v1 timestamp parts in
      (* hasV1 is true exactly when an entry was pushed *)
      match entries with
      | [] => []
      | _ :: _ => entries
      end
  end.

(** ** Signature verifier (route.ts, lines 59-112) *)

Record VerificationOutcome : Type := mkOutcome {
  valid : bool;
  timestamp : option number
}.

Definition TOLERANCE : Z := 300.

(** The argument of [fetch]: the URL and the init object. *)
Record FetchInit : Type := mkFetchInit {
  fetch_url : string;
  fetch_method : string;
  fetch_headers : list (string * string);
  fetch_body : jsstring
}.

(** Of the downstream response only the status decides anything: its body is
    read, inside a try of its own, for the log alone. *)
Record FetchResponse : Type := mkFetchResponse {
  response_status : Z
}.

(** [response.ok] *)
Definition response_ok (r : FetchResponse) : bool :=
  (200 <=? response_status r) && (response_status r <=? 299).

(** What [safeJsonParseForLog] reads from the parsed body: the values of
    [event.type] and [event.id], whatever they are. *)
Record EventInfo : Type := mkEventInfo {
  event_type : JsValue;
  event_id : JsValue
}.

Record URL : Type := mkURL {
  url_protocol : string;
  url_hostname : string;
  url_pathname : string
}.

(** What the route takes from its platform, each call with the completion the
    platform gives it.  [createHmac_sha256 key msg] is
    [createHmac("sha256", key).update(msg).digest()]; [Date_now] is the clock in
    milliseconds, an integer within the range of [Date] (at most 8.64e15 in
    magnitude), and [Date_toISOString] its ISO rendering; [JSON_parse_event]
    is [JSON.parse] followed by the reads of [type] and [id]; [randomUUID],
    [URL_new] and [fetch] are the calls of these names. *)
Record Platform : Type := mkPlatform {
  createHmac_sha256 : list byte -> list byte -> Completion (list byte);
  Date_now : Z;
  Date_toISOString : string;
  randomUUID : Completion string;
  URL_new : string -> Completion URL;
  JSON_parse_event : jsstring -> Completion EventInfo;
  fetch : FetchInit -> Completion FetchResponse
}.

(** [Math.floor(Date.now() / 1000)] *)
Definition currentTimestamp (pf : Platform) : Z := Date_now pf / 1000.

(** The body of the [for (const entry of entries)] loop, entry by entry. *)
Fixpoint verify_entries (pf : Platform) (rawBody : jsstring) (secret : jsstring)
    (entries : list SignatureEntry) : Completion VerificationOutcome :=
  match entries with
  | [] => Normal (mkOutcome false None)
  | entry :: rest =>
      let timestamp := Js.parseInt (entry_timestamp entry) in
      let signature := entry_signature entry in
      if Js.abs_diff_gt (currentTimestamp pf) timestamp TOLERANCE then
        verify_entries pf rawBody secret rest
      else
        let signedPayload :=
          code_units (Js.Number_toString timestamp ++ ".") ++ rawBody in
        let secretBuffer := Buffer.from_utf8 secret in
        bindC (createHmac_sha256 pf secretBuffer (Buffer.from_utf8 signedPayload))
          (fun digest =>
             let expectedSignature := Buffer.to_hex digest in
             let expectedBuffer := Buffer.from_hex expectedSignature in
             let receivedBuffer := Buffer.from_hex signature in
             if negb (Nat.eqb (List.length expectedBuffer) (List.length receivedBuffer))
             then verify_entries pf rawBody secret rest
             else
               bindC (Buffer.timingSafeEqual expectedBuffer receivedBuffer)
                 (fun equal =>
                    if equal then Normal (mkOutcome true (Some timestamp))
                    else verify_entries pf rawBody secret rest))
  end.

Definition verifyStripeSignature (pf : Platform) (rawBody : jsstring)
    (signatureHeader : string) (secret : jsstring) : Completion VerificationOutcome :=
  try_catch
    (let entries := parseStripeSignatureHeader signatureHeader in
     match entries with
     | [] => Normal (mkOutcome false None)
     | _ :: _ => verify_entries pf rawBody secret entries
     end)
    (fun _ => Normal (mkOutcome false None)).

(** ** HMAC-SHA256

    The keyed hash Node's [crypto] module computes, for running the verifier on
    concrete requests.  Words are 32-bit integers in [Z]; the round constants
    and the initial state are derived from the cube and square roots of the
    first primes as FIPS 180-4 defines them. *)

Module Crypto.

Definition w32 (x : Z) : Z := x mod 2 ^ 32.
Definition add32 (x y : Z) : Z := w32 (x + y).
Definition rotr (n x : Z) : Z := Z.lor (Z.shiftr x n) (w32 (Z.shiftl x (32 - n))).
Definition not32 (x : Z) : Z := Z.lxor x (2 ^ 32 - 1).

Definition Ch (x y z : Z) : Z := Z.lxor (Z.land x y) (Z.land (not32 x) z).
Definition Maj (x y z : Z) : Z :=
  Z.lxor (Z.lxor (Z.land x y) (Z.land x z)) (Z.land y z).
Definition bsig0 (x : Z) : Z := Z.lxor (Z.lxor (rotr 2 x) (rotr 13 x)) (rotr 22 x).
Definition bsig1 (x : Z) : Z := Z.lxor (Z.lxor (rotr 6 x) (rotr 11 x)) (rotr 25 x).
Definition ssig0 (x : Z) : Z := Z.lxor (Z.lxor (rotr 7 x) (rotr 18 x)) (Z.shiftr x 3).
Definition ssig1 (x : Z) : Z := Z.lxor (Z.lxor (rotr 17 x) (rotr 19 x)) (Z.shiftr x 10).

Definition primes64 : list Z :=
  [2; 3; 5; 7; 11; 13; 17; 19; 23; 29; 31; 37; 41; 43; 47; 53;
   59; 61; 67; 71; 73; 79; 83; 89; 97; 101; 103; 107; 109; 113; 127; 131;
   137; 139; 149; 151; 157; 163; 167; 173; 179; 181; 191; 193; 197; 199; 211; 223;
   227; 229; 233; 239; 241; 251; 257; 263; 269; 271; 277; 281; 283; 293; 307; 311].

(** Integer cube root, one bit at a time from bit [bits - 1] down. *)
Fixpoint cbrt_bits (bits : nat) (n r : Z) : Z :=
  match bits with
  | O => r
  | S b =>
      let r' := r + 2 ^ Z.of_nat b in
      if r' * r' * r' <=? n then cbrt_bits b n r' else cbrt_bits b n r
  end.

Definition round_constants : list Z :=
  Eval vm_compute in map (fun p => w32 (cbrt_bits 36 (p * 2 ^ 96) 0)) primes64.

Definition initial_state : list Z :=
  Eval vm_compute in map (fun p => w32 (Z.sqrt (p * 2 ^ 64))) (firstn 8 primes64).

Definition Z_of_byte (b : byte) : Z := Z.of_N (Byte.to_N b).
Definition byte_of_Z (z : Z) : byte := Buffer.byte_of_N (Z.to_N (z mod 256)).

(** Big-endian bytes of a word of [n] bytes. *)
Fixpoint be_bytes (n : nat) (x : Z) : list byte :=
  match n with
  | O => []
  | S n' => byte_of_Z (Z.shiftr x (8 * Z.of_nat n')) :: be_bytes n' x
  end.

Definition pad (msg : list byte) : list byte :=
  let len := Z.of_nat (List.length msg) in
  let zeros := Z.to_nat ((55 - len) mod 64) in
  msg ++ [Byte.x80] ++ repeat Byte.x00 zeros ++ be_bytes 8 (8 * len).

(** The 32-bit big-endian words of a byte string. *)
Fixpoint words (bs : list byte) : list Z :=
  match bs with
  | a :: b :: c :: d :: rest =>
      (Z_of_byte a * 2 ^ 24 + Z_of_byte b * 2 ^ 16 + Z_of_byte c * 2 ^ 8 + Z_of_byte d)
      :: words rest
  | _ => []
  end.

(** Message schedule: [schedule n window] lists the next [n] words, [window]
    holding the sixteen words W(t) .. W(t+15). *)
Fixpoint schedule (n : nat) (window : list Z) : list Z :=
  match n with
  | O => []
  | S n' =>
      match window with
      | [] => []
      | w0 :: tl =>
          let next :=
            add32 (add32 (ssig1 (nth 14 window 0)) (nth 9 window 0))
                  (add32 (ssig0 (nth 1 window 0)) w0) in
          w0 :: schedule n' (tl ++ [next])
      end
  end.

Definition round (st : list Z) (kw : Z * Z) : list Z :=
  match st with
  | [a; b; c; d; e; f; g; h] =>
      let t1 := add32 (add32 (add32 (add32 h (bsig1 e)) (Ch e f g)) (fst kw)) (snd kw) in
      let t2 := add32 (bsig0 a) (Maj a b c) in
      [add32 t1 t2; a; b; c; add32 d t1; e; f; g]
  | _ => st
  end.

Definition compress (st : list Z) (block : list Z) : list Z :=
  let st' := fold_left round (combine round_constants (schedule 64 block)) st in
  map (fun p => add32 (fst p) (snd p)) (combine st st').

Fixpoint blocks (fuel : nat) (ws : list Z) (st : list Z) : list Z :=
  match fuel with
  | O => st
  | S f =>
      match ws with
      | [] => st
      | _ => blocks f (skipn 16 ws) (compress st (firstn 16 ws))
      end
  end.

Definition SHA256 (msg : list byte) : list byte :=
  let ws := words (pad msg) in
  flat_map (be_bytes 4) (blocks (List.length ws) ws initial_state).

Definition xor_bytes (k : list byte) (c : Z) : list byte :=
  map (fun b => byte_of_Z (Z.lxor (Z_of_byte b) c)) k.

Definition HMAC_SHA256 (key msg : list byte) : list byte :=
  let k0 := if Nat.ltb 64 (List.length key) then SHA256 key else key in
  let k := k0 ++ repeat Byte.x00 (64 - List.length k0) in
  SHA256 (xor_bytes k 0x5c ++ SHA256 (xor_bytes k 0x36 ++ msg)).

End Crypto.

(** ** Effects of the forwarder and the handler

    A computation ends normally or by a throw, and issues network calls: the
    second component lists the [fetch] calls in the order they were made.
    Console output is not modelled; what is modelled of a log call is the
    evaluation of its arguments, which may raise. *)

Definition Eff (A : Type) : Type := Completion A * list FetchInit.

Definition ret {A} (a : A) : Eff A := (Normal a, []).

Definition liftC {A} (c : Completion A) : Eff A := (c, []).

Definition bindE {A B} (m : Eff A) (k : A -> Eff B) : Eff B :=
  match m with
  | (Normal a, calls) => let '(r, calls') := k a in (r, calls ++ calls')
  | (Throw e, calls) => (Throw e, calls)
  end.

Definition try_catchE {A} (body : Eff A) (handler : JsError -> Eff A) : Eff A :=
  match body with
  | (Normal a, calls) => (Normal a, calls)
  | (Throw e, calls) => let '(r, calls') := handler e in (r, calls ++ calls')
  end.

Definition do_fetch (pf : Platform) (init : FetchInit) : Eff FetchResponse :=
  (fetch pf init, [init]).

Definition result {A} (m : Eff A) : Completion A := fst m.
Definition network_calls {A} (m : Eff A) : list FetchInit := snd m.

Notation "x <- m ;; k" := (bindE m (fun x => k))
  (at level 61, m at next level, right associativity).

(** ** Requests, configuration, responses *)

Record Request : Type := mkRequest {
  request_text : Completion jsstring;
  request_headers_get : string -> option string
}.

(** [process.env] *)
Record ProcessEnv : Type := mkEnv {
  STRIPE_WEBHOOK_SECRET : option jsstring;
  SUPABASE_INTERNAL_WEBHOOK_URL : option string;
  SUPABASE_SERVICE_ROLE_KEY : option string;
  INTERNAL_WEBHOOK_SHARED_SECRET : option string;
  INTERNAL_EDGE_AUTH_TOKEN : option string;
  SUPABASE_PING_MODE : option string
}.

Record GatewayError : Type := mkGatewayError {
  gateway_name : string;
  gateway_message : string;
  gateway_causeCode : option string
}.

Record ForwardResult : Type := mkForwardResult {
  success : bool;
  status : option Z;
  forwardError : option string;
  gatewayError : option GatewayError
}.

(** The object handed to [JSON.stringify] for the response body. *)
Inductive JsonBody : Type :=
| Body_ok                                     (* { ok: true } *)
| Body_error (message : string)               (* { error } *)
| Body_error_details (message : string) (details : GatewayError).

Record Response : Type := mkResponse {
  response_code : Z;
  response_headers : list (string * string);
  response_body : JsonBody
}.

Definition json_response (code : Z) (body : JsonBody) : Response :=
  mkResponse code [("Content-Type", "application/json")] body.

(** The string of a value known to be a string. *)
Definition the (x : option string) : string :=
  match x with
  | Some s => s
  | None => EmptyString
  end.

Definition the_js (x : option jsstring) : jsstring :=
  match x with
  | Some s => s
  | None => []
  end.

(** [obj[key] = value] on an object used as a record of headers: replaces the
    value of an own key, else adds the key last. *)
Fixpoint obj_set (obj : list (string * string)) (key value : string)
  : list (string * string) :=
  match obj with
  | [] => [(key, value)]
  | (k, v) :: rest =>
      if String.eqb k key then (k, value) :: rest
      else (k, v) :: obj_set rest key value
  end.

Fixpoint obj_get (obj : list (string * string)) (key : string) : option string :=
  match obj with
  | [] => None
  | (k, v) :: rest => if String.eqb k key then Some v else obj_get rest key
  end.

(** [safeJsonParseForLog] (lines 117-130) *)
Definition safeJsonParseForLog (pf : Platform) (rawBody : jsstring) : Completion EventInfo :=
  try_catch (JSON_parse_event pf rawBody)
    (fun _ => Normal (mkEventInfo JsUndefined JsUndefined)).

(** [GET] (lines 294-301 and 699-706) *)
Definition GET : Eff Response :=
  ret (json_response 405 (Body_error "Method not allowed")).

(** ** First variant of the route (lines 1-301) *)

Module V1.

(** [forwardToSupabase] (lines 135-197) *)
Definition forwardToSupabase (pf : Platform) (env : ProcessEnv)
    (rawBody : jsstring) (stripeSignature : string) : Eff ForwardResult :=
  let supabaseUrl := SUPABASE_INTERNAL_WEBHOOK_URL env in
  let serviceRoleKey := SUPABASE_SERVICE_ROLE_KEY env in
  let internalSecret := INTERNAL_WEBHOOK_SHARED_SECRET env in
  if negb (truthy supabaseUrl) || negb (truthy serviceRoleKey) then
    ret (mkForwardResult false None None None)
  else
    let headers :=
      [("Content-Type", "application/json");
       ("Authorization", ("Bearer " ++ the serviceRoleKey)%string)] in
    let headers :=
      if truthy internalSecret
      then obj_set headers "x-internal-webhook-secret" (the internalSecret)
      else headers in
    let headers := obj_set headers "stripe-signature" stripeSignature in
    try_catchE
      (response <- do_fetch pf (mkFetchInit (the supabaseUrl) "POST" headers rawBody) ;;
       if negb (response_ok response) then
         ret (mkForwardResult false (Some (response_status response)) None None)
       else
         ret (mkForwardResult true (Some (response_status response)) None None))
      (fun error => ret (mkForwardResult false None None None)).

(** The log line of lines 250-252:
    [if (eventInfo.type && eventInfo.id) console.log(`Stripe webhook: ${eventInfo.type} (${eventInfo.id})`)].
    The template converts both values to strings, [type] first; the result is
    the line written, if one is. *)
Definition received_log (eventInfo : EventInfo) : Completion (option jsstring) :=
  if Js.ToBoolean (event_type eventInfo) && Js.ToBoolean (event_id eventInfo) then
    bindC (Js.ToString (event_type eventInfo))
      (fun type =>
         bindC (Js.ToString (event_id eventInfo))
           (fun id =>
              Normal (Some (code_units "Stripe webhook: " ++ type ++ code_units " ("
                              ++ id ++ code_units ")"))))
  else Normal None.

(** [POST] (lines 199-291): the whole body is inside the [try]. *)
Definition POST (pf : Platform) (env : ProcessEnv) (request : Request) : Eff Response :=
  try_catchE
    (rawBody <- liftC (request_text request) ;;
     let stripeSignature := request_headers_get request "stripe-signature" in
     if negb (truthy stripeSignature) then
       ret (json_response 400 (Body_error "Missing stripe-signature header"))
     else
       let webhookSecret := STRIPE_WEBHOOK_SECRET env in
       if negb (truthy_js webhookSecret) then
         ret (json_response 500 (Body_error "Server configuration error"))
       else
         verification <- liftC (verifyStripeSignature pf rawBody (the stripeSignature)
                                  (the_js webhookSecret)) ;;
         if negb (valid verification) then
           ret (json_response 400 (Body_error "Invalid signature"))
         else
           eventInfo <- liftC (safeJsonParseForLog pf rawBody) ;;
           logged <- liftC (received_log eventInfo) ;;
           forwardResult <- forwardToSupabase pf env rawBody (the stripeSignature) ;;
           if negb (success forwardResult) then
             ret (json_response 500 (Body_error "Failed to forward webhook"))
           else
             ret (json_response 200 Body_ok))
    (fun error => ret (json_response 500 (Body_error "Internal server error"))).

End V1.

(** ** Second variant of the route (lines 302-706) *)

Module V2.

(** [c?.code ?? c?.errno?.toString() ?? c?.syscall ?? undefined] *)
Definition causeCode_of (c : option CauseLike) : option string :=
  match c with
  | None => None
  | Some c =>
      match cause_code c with
      | Some code => Some code
      | None =>
          match cause_errno c with
          | Some errno => Some (Js.Number_toString (Int errno))
          | None => cause_syscall c
          end
      end
  end.

Definition quote : string := String "034"%char EmptyString.

(** [JSON.stringify({ ping: true, ts })] for a [ts] without characters to
    escape, as an ISO date is. *)
Definition ping_body (ts : string) : string :=
  ("{" ++ quote ++ "ping" ++ quote ++ ":true," ++ quote ++ "ts" ++ quote ++ ":"
       ++ quote ++ ts ++ quote ++ "}")%string.

(** [forwardToSupabase] (lines 445-560) *)
Definition forwardToSupabase (pf : Platform) (env : ProcessEnv)
    (rawBody : jsstring) (stripeSignature : string) (contentType : string)
    (pingMode : bool) : Eff ForwardResult :=
  let rawUrl := SUPABASE_INTERNAL_WEBHOOK_URL env in
  let supabaseUrl :=
    match rawUrl with
    | Some s => Js.trim s
    | None => EmptyString
    end in
  let internalSecret := INTERNAL_WEBHOOK_SHARED_SECRET env in
  let internalEdgeToken := option_map Js.trim (INTERNAL_EDGE_AUTH_TOKEN env) in
  if negb (truthy internalEdgeToken) then
    ret (mkForwardResult false None (Some "INTERNAL_EDGE_AUTH_TOKEN missing") None)
  else if negb (truthy (Some supabaseUrl)) then
    ret (mkForwardResult false None (Some "Server configuration error") None)
  else
    match URL_new pf supabaseUrl with
    | Throw e =>
        ret (mkForwardResult false None (Some "Invalid SUPABASE_INTERNAL_WEBHOOK_URL") None)
    | Normal parsedUrl =>
        if negb (String.eqb (url_protocol parsedUrl) "https:") then
          ret (mkForwardResult false None
                 (Some "SUPABASE_INTERNAL_WEBHOOK_URL must use https protocol") None)
        else
          let headers :=
            [("Content-Type",
              if truthy (Some contentType) then contentType else "application/json");
             ("stripe-signature", stripeSignature);
             ("Stripe-Signature", stripeSignature);
             ("authorization", ("Bearer " ++ the internalEdgeToken)%string)] in
          let headers :=
            if truthy internalSecret
            then obj_set headers "x-internal-webhook-secret" (the internalSecret)
            else headers in
          let body :=
            if pingMode then code_units (ping_body (Date_toISOString pf))
            else rawBody in
          try_catchE
            (response <- do_fetch pf (mkFetchInit supabaseUrl "POST" headers body) ;;
             if negb (response_ok response) then
               ret (mkForwardResult false (Some (response_status response)) None None)
             else
               ret (mkForwardResult true (Some (response_status response)) None None))
            (fun err =>
               let c := err_cause err in
               let causeCode := causeCode_of c in
               ret (mkForwardResult false (Some 502) None
                      (Some (mkGatewayError (err_name err) (err_message err)
                               (match causeCode with
                                | Some x => Some x
                                | None => match c with
                                          | Some c' => cause_code c'
                                          | None => None
                                          end
                                end)))))
    end.

(** [POST] (lines 562-696): the call of [randomUUID] and the entry log (lines
    563-570) come before the [try] of line 572.  The log call of lines 613-618
    is handed [eventInfo.type] and [eventInfo.id] as values, inside an object,
    and converts neither to a string. *)
Definition POST (pf : Platform) (env : ProcessEnv) (request : Request) : Eff Response :=
  requestId <- liftC (randomUUID pf) ;;
  try_catchE
    (rawBody <- liftC (request_text request) ;;
     let stripeSignature := request_headers_get request "stripe-signature" in
     if negb (truthy stripeSignature) then
       ret (json_response 400 (Body_error "Missing stripe-signature header"))
     else
       let webhookSecret := STRIPE_WEBHOOK_SECRET env in
       if negb (truthy_js webhookSecret) then
         ret (json_response 500 (Body_error "Server configuration error"))
       else
         verification <- liftC (verifyStripeSignature pf rawBody (the stripeSignature)
                                  (the_js webhookSecret)) ;;
         if negb (valid verification) then
           ret (json_response 400 (Body_error "Invalid signature"))
         else
           eventInfo <- liftC (safeJsonParseForLog pf rawBody) ;;
           let contentType :=
             if truthy (request_headers_get request "content-type")
             then the (request_headers_get request "content-type")
             else "application/json" in
           let pingMode :=
             match SUPABASE_PING_MODE env with
             | Some v => String.eqb v "true"
             | None => false
             end in
           forwardResult <- forwardToSupabase pf env rawBody (the stripeSignature)
                              contentType pingMode ;;
           if negb (success forwardResult) then
             match gatewayError forwardResult with
             | Some g =>
                 ret (json_response 502
                        (Body_error_details "Failed to forward to Supabase" g))
             | None =>
                 if truthy (forwardError forwardResult) then
                   ret (json_response 500 (Body_error (the (forwardError forwardResult))))
                 else
                   ret (json_response 500 (Body_error "Failed to forward webhook"))
             end
           else
             ret (json_response 200 Body_ok))
    (fun error => ret (json_response 500 (Body_error "Internal server error"))).

End V2.

(** ** Readings of a header and of a run, used to state the properties *)

(** The timestamp the parser extracts: the value of the first usable [t=]
    segment. *)
Definition header_timestamp (signatureHeader : string) : option string :=
  find_timestamp (Js.split "," signatureHeader).

(** A header has a segment with the given prefix. *)
Definition has_segment (prefix signatureHeader : string) : Prop :=
  exists part, In part (Js.split "," signatureHeader)
               /\ Js.startsWith (Js.trim part) prefix = true.

(** The bytes the verifier signs for a parsed timestamp. *)
Definition signed_payload (timestamp : number) (rawBody : jsstring) : list byte :=
  Buffer.from_utf8 (code_units (Js.Number_toString timestamp ++ ".") ++ rawBody).

Definition within_tolerance (pf : Platform) (ts : Z) : Prop :=
  Z.abs (currentTimestamp pf - ts) <= TOLERANCE.

(** The body the handler read, when the read completed. *)
Definition request_body (request : Request) : jsstring :=
  match request_text request with
  | Normal rawBody => rawBody
  | Throw _ => []
  end.

(** The handler read the body, found the signature header and the secret, and
    the signature verified. *)
Definition verified (pf : Platform) (env : ProcessEnv) (request : Request) : bool :=
  match request_text request with
  | Normal rawBody =>
      truthy (request_headers_get request "stripe-signature")
      && truthy_js (STRIPE_WEBHOOK_SECRET env)
      && match verifyStripeSignature pf rawBody
                 (the (request_headers_get request "stripe-signature"))
                 (the_js (STRIPE_WEBHOOK_SECRET env)) with
         | Normal outcome => valid outcome
         | Throw _ => false
         end
  | Throw _ => false
  end.

(** The first variant's log line for a request: the parse for the log, then
    the line of lines 250-252. *)
Definition V1_logged (pf : Platform) (request : Request) : Completion (option jsstring) :=
  bindC (safeJsonParseForLog pf (request_body request)) V1.received_log.

(** What the first variant does with a verified request: the log line, then
    the forwarder. *)
Definition V1_forwarding (pf : Platform) (env : ProcessEnv) (request : Request)
  : Eff ForwardResult :=
  logged <- liftC (V1_logged pf request) ;;
  V1.forwardToSupabase pf env (request_body request)
    (the (request_headers_get request "stripe-signature")).

(** The run issued exactly one outbound call and the platform answered it with
    the given completion. *)
Definition forwarded {A} (pf : Platform) (run : Eff A) (init : FetchInit)
    (answer : Completion FetchResponse) : Prop :=
  network_calls run = [init] /\ fetch pf init = answer.

Definition is_2xx (code : Z) : Prop := 200 <= code <= 299.

(** The outbound request each variant builds once the configuration passed its
    checks. *)
Definition V1_outbound (env : ProcessEnv) (rawBody : jsstring) (stripeSignature : string)
  : FetchInit :=
  let headers :=
    [("Content-Type", "application/json");
     ("Authorization", ("Bearer " ++ the (SUPABASE_SERVICE_ROLE_KEY env))%string)] in
  let headers :=
    if truthy (INTERNAL_WEBHOOK_SHARED_SECRET env)
    then obj_set headers "x-internal-webhook-secret" (the (INTERNAL_WEBHOOK_SHARED_SECRET env))
    else headers in
  mkFetchInit (the (SUPABASE_INTERNAL_WEBHOOK_URL env)) "POST"
    (obj_set headers "stripe-signature" stripeSignature) rawBody.

Definition V2_outbound (pf : Platform) (env : ProcessEnv) (rawBody : jsstring)
    (stripeSignature contentType : string) (pingMode : bool) : FetchInit :=
  let headers :=
    [("Content-Type",
      if truthy (Some contentType) then contentType else "application/json");
     ("stripe-signature", stripeSignature);
     ("Stripe-Signature", stripeSignature);
     ("authorization",
      ("Bearer " ++ the (option_map Js.trim (INTERNAL_EDGE_AUTH_TOKEN env)))%string)] in
  mkFetchInit (Js.trim (the (SUPABASE_INTERNAL_WEBHOOK_URL env))) "POST"
    (if truthy (INTERNAL_WEBHOOK_SHARED_SECRET env)
     then obj_set headers "x-internal-webhook-secret" (the (INTERNAL_WEBHOOK_SHARED_SECRET env))
     else headers)
    (if pingMode then code_units (V2.ping_body (Date_toISOString pf)) else rawBody).

(** The gateway error the second variant builds from a failed [fetch]. *)
Definition V2_gateway (err : JsError) : GatewayError :=
  mkGatewayError (err_name err) (err_message err)
    (match V2.causeCode_of (err_cause err) with
     | Some x => Some x
     | None => match err_cause err with
               | Some c => cause_code c
               | None => None
               end
     end).

(** How both variants read the downstream's answer. *)
Definition classify (answer : FetchResponse) : ForwardResult :=
  mkForwardResult (response_ok answer) (Some (response_status answer)) None None.

(** The answer of the handler's own [catch]. *)
Definition internal_error : Response :=
  json_response 500 (Body_error "Internal server error").

(** The first variant's answer to what the forwarder reports. *)
Definition V1_answer (forwardResult : ForwardResult) : Response :=
  if success forwardResult then json_response 200 Body_ok
  else json_response 500 (Body_error "Failed to forward webhook").

(** The second variant's answer to what the forwarder reports. *)
Definition V2_answer (forwardResult : ForwardResult) : Response :=
  if success forwardResult then json_response 200 Body_ok
  else match gatewayError forwardResult with
       | Some g => json_response 502 (Body_error_details "Failed to forward to Supabase" g)
       | None =>
           if truthy (forwardError forwardResult)
           then json_response 500 (Body_error (the (forwardError forwardResult)))
           else json_response 500 (Body_error "Failed to forward webhook")
       end.

(** The two ways a forwarder run ends: no call was made and the result is a
    failure, or one call was made and the result reads its completion. *)
Inductive forward_run (pf : Platform) : Eff ForwardResult -> Prop :=
| not_attempted (failure : ForwardResult) :
    success failure = false ->
    forward_run pf (Normal failure, [])
| attempted (init : FetchInit) (on_throw : JsError -> ForwardResult) :
    (forall e, success (on_throw e) = false) ->
    forward_run pf
      (Normal (match fetch pf init with
               | Normal answer => classify answer
               | Throw e => on_throw e
               end), [init]).

(** A handler answers 200 with [{ ok: true }] exactly on a verified request
    whose one outbound call returned a status in 200-299, and answers outside
    2xx when that status is outside 200-299. *)
Definition relays_downstream_status
    (POST : Platform -> ProcessEnv -> Request -> Eff Response) : Prop :=
  forall pf env request,
    (result (POST pf env request) = Normal (json_response 200 Body_ok)
     <-> verified pf env request = true
         /\ exists init answer,
              forwarded pf (POST pf env request) init (Normal answer)
              /\ is_2xx (response_status answer))
    /\ (forall init answer,
          forwarded pf (POST pf env request) init (Normal answer) ->
          ~ is_2xx (response_status answer) ->
          exists response,
            result (POST pf env request) = Normal response
            /\ ~ is_2xx (response_code response)).

(** A handler never lets an exception out: every run ends with a response. *)
Definition never_throws (POST : Platform -> ProcessEnv -> Request -> Eff Response) : Prop :=
  forall pf env request, exists response, result (POST pf env request) = Normal response.

(** A handler answers 502 whenever the one outbound call of a verified request
    raised. *)
Definition answers_502_when_unreachable
    (POST : Platform -> ProcessEnv -> Request -> Eff Response) : Prop :=
  forall pf env request init e,
    verified pf env request = true ->
    forwarded pf (POST pf env request) init (Throw e) ->
    exists response,
      result (POST pf env request) = Normal response /\ response_code response = 502.

(** The bytes [fetch] sends for a body given as a string: its UTF-8
    encoding. *)
Definition wire_body (init : FetchInit) : list byte :=
  Buffer.from_utf8 (fetch_body init).

(** A handler forwards the inbound payload byte for byte, and the signature
    header and the content type of the inbound request unchanged: for the
    payload [raw], whose decoding is the text the handler reads, every
    outbound request carries [raw] as its body, and the receiver reads the
    inbound values of the two headers. *)
Definition forwards_verbatim
    (POST : Platform -> ProcessEnv -> Request -> Eff Response) : Prop :=
  forall pf env request raw init,
    request_text request = Normal (TextDecoder.decode raw) ->
    In init (network_calls (POST pf env request)) ->
    wire_body init = raw
    /\ Headers.get (fetch_headers init) "stripe-signature"
       = request_headers_get request "stripe-signature"
    /\ Headers.get (fetch_headers init) "content-type"
       = request_headers_get request "content-type".

(** A JavaScript string without a lone surrogate: a sequence of code points. *)
Fixpoint well_formed (s : jsstring) : bool :=
  match s with
  | [] => true
  | c :: rest =>
      if Buffer.is_lead_surrogate c then
        match rest with
        | d :: rest' => Buffer.is_trail_surrogate d && well_formed rest'
        | [] => false
        end
      else negb (Buffer.is_trail_surrogate c) && (c <? 0x10000)%N && well_formed rest
  end.

(** A payload that is well-formed UTF-8 and does not start with a byte order
    mark. *)
Definition well_formed_utf8 (raw : list byte) : Prop :=
  TextDecoder.strip_BOM raw = raw
  /\ exists s, well_formed s = true /\ raw = Buffer.from_utf8 s.

(** A test holds of every number below a bound. *)
Fixpoint below (n : nat) (P : N -> bool) : bool :=
  match n with
  | O => true
  | S k => P (N.of_nat k) && below k P
  end.

(** What the second variant checks of the destination before any call. *)
Definition destination_defect (pf : Platform) (env : ProcessEnv) : Prop :=
  let url := Js.trim (the (SUPABASE_INTERNAL_WEBHOOK_URL env)) in
  url = EmptyString
  \/ (exists e, URL_new pf url = Throw e)
  \/ (exists u, URL_new pf url = Normal u /\ url_protocol u <> "https:").

(** A forwarder makes no call when the destination has a defect. *)
Definition no_call_on_defect
    (calls : Platform -> ProcessEnv -> list FetchInit) : Prop :=
  forall pf env, destination_defect pf env -> calls pf env = [].

(** When the first variant hands a request to the forwarder and the forwarder
    makes its call: the request verified, the log line did not raise, and the
    URL and the key are set. *)
Definition V1_reaches_forwarder (pf : Platform) (env : ProcessEnv) (request : Request)
  : Prop :=
  verified pf env request = true
  /\ (exists line, V1_logged pf request = Normal line)
  /\ truthy (SUPABASE_INTERNAL_WEBHOOK_URL env) = true
  /\ truthy (SUPABASE_SERVICE_ROLE_KEY env) = true.

(** The same for the second variant: [randomUUID] returned, the request
    verified, the token is set and the destination has no defect. *)
Definition V2_reaches_forwarder (pf : Platform) (env : ProcessEnv) (request : Request)
  : Prop :=
  (exists requestId, randomUUID pf = Normal requestId)
  /\ verified pf env request = true
  /\ truthy (option_map Js.trim (INTERNAL_EDGE_AUTH_TOKEN env)) = true
  /\ ~ destination_defect pf env.

(** A run makes the outbound call [init], and no other, exactly under the
    condition [reaches], and then answers the status the downstream returns:
    200 with [{ ok: true }] for a status in 200-299, else 500. *)
Definition forwards_and_answers (post : Eff Response) (pf : Platform) (reaches : Prop)
    (init : FetchInit) : Prop :=
  (reaches <-> network_calls post = [init])
  /\ (reaches ->
      forall answer,
        fetch pf init = Normal answer ->
        result post
        = Normal (if response_ok answer then json_response 200 Body_ok
                  else json_response 500 (Body_error "Failed to forward webhook"))).

(** [SUPABASE_PING_MODE === "true"] *)
Definition ping_mode (env : ProcessEnv) : bool :=
  match SUPABASE_PING_MODE env with
  | Some v => String.eqb v "true"
  | None => false
  end.

(** The content type the second variant's handler passes on. *)
Definition inbound_content_type (request : Request) : string :=
  if truthy (request_headers_get request "content-type")
  then the (request_headers_get request "content-type")
  else "application/json".

(** Every character of a string satisfies a test. *)
Fixpoint string_forall (test : ascii -> bool) (s : string) : bool :=
  match s with
  | EmptyString => true
  | String c s' => test c && string_forall test s'
  end.

(** A character that is not white space, a comma or an equals sign. *)
Definition plain (c : ascii) : bool :=
  negb (Js.isWhiteSpace c) && negb (Ascii.eqb c ",") && negb (Ascii.eqb c "=").

(** The header a sender builds from a timestamp and signature values:
    [t=<ts>,v1=<s1>,v1=<s2>...]. *)
Fixpoint v1_segments (signatures : list string) : string :=
  match signatures with
  | [] => EmptyString
  | v :: rest => ",v1=" ++ v ++ v1_segments rest
  end.

Definition built_header (t : string) (signatures : list string) : string :=
  "t=" ++ t ++ v1_segments signatures.

Definition stripe_header (ts : Z) (signatures : list string) : string :=
  built_header (Js.Number_toString (Int ts)) signatures.

(** A candidate's signature decodes to the given digest. *)
Definition decodes_to (digest : list byte) (entry : SignatureEntry) : bool :=
  Buffer.bytes_eqb digest (Buffer.from_hex (entry_signature entry)).

Definition invalid_outcome : VerificationOutcome := mkOutcome false None.

(** A candidate passes both checks of the loop: its timestamp is not rejected
    by the tolerance test and its signature decodes to the digest computed for
    that timestamp. *)
Definition candidate_passes (pf : Platform) (rawBody secret : jsstring)
    (entry : SignatureEntry) : bool :=
  let ts := Js.parseInt (entry_timestamp entry) in
  negb (Js.abs_diff_gt (currentTimestamp pf) ts TOLERANCE)
  && match createHmac_sha256 pf (Buffer.from_utf8 secret) (signed_payload ts rawBody) with
     | Normal digest => decodes_to digest entry
     | Throw _ => false
     end.

Definition hmac_completes (pf : Platform) : Prop :=
  forall key msg, exists digest, createHmac_sha256 pf key msg = Normal digest.

(** ** A concrete platform and request, for running the route *)

Module Sample.

Fixpoint cut (stop : ascii) (s : string) : string * option string :=
  match s with
  | EmptyString => (EmptyString, None)
  | String c s' =>
      if Ascii.eqb c stop then (EmptyString, Some s')
      else let '(before, after) := cut stop s' in (String c before, after)
  end.

Definition invalid_url : JsError := mkError "TypeError" "Invalid URL" None.

(** A URL constructor for inputs of the form [scheme://host/path]; anything
    else is refused. *)
Definition URL_basic (s : string) : Completion URL :=
  match cut ":" s with
  | (String c scheme, Some (String "/" (String "/" hostpath))) =>
      match cut "/" hostpath with
      | (String h host, after) =>
          Normal (mkURL (String c scheme ++ ":") (String h host)
                    (String "/" (the after)))
      | _ => Throw invalid_url
      end
  | _ => Throw invalid_url
  end.

Definition connection_refused : JsError :=
  mkError "TypeError" "fetch failed"
    (Some (mkCause (Some "ECONNREFUSED") (Some (-111)) (Some "connect"))).

(** A platform with the real HMAC-SHA256, the clock at 1700000000 s, the given
    completion of [randomUUID] and the given downstream. *)
Definition node (uuid : Completion string)
    (downstream : FetchInit -> Completion FetchResponse) : Platform :=
  mkPlatform
    (fun key msg => Normal (Crypto.HMAC_SHA256 key msg))
    1700000000123
    "2023-11-14T22:13:20.123Z"
    uuid
    URL_basic
    (fun _ => Normal (mkEventInfo (JsString (code_units "x"))
                        (JsString (code_units "evt_1"))))
    downstream.

(** A platform whose keyed hash raises. *)
Definition faulty : Platform :=
  mkPlatform
    (fun _ _ => Throw (mkError "Error" "Unsupported state or unable to authenticate data" None))
    1700000000123
    "2023-11-14T22:13:20.123Z"
    (Normal "3f0c2b1e-8a4d-4c57-9e21-6b7f5a0d9c11")
    URL_basic
    (fun _ => Normal (mkEventInfo JsUndefined JsUndefined))
    (fun _ => Normal (mkFetchResponse 200)).

Definition uuid_ok : Completion string :=
  Normal "3f0c2b1e-8a4d-4c57-9e21-6b7f5a0d9c11".

Definition uuid_unbound : Completion string :=
  Throw (mkError "ReferenceError" "randomUUID is not defined" None).

Definition answers (code : Z) : FetchInit -> Completion FetchResponse :=
  fun _ => Normal (mkFetchResponse code).

Definition unreachable : FetchInit -> Completion FetchResponse :=
  fun _ => Throw connection_refused.

Definition secret : jsstring := code_units "whsec_test".

(** The body [{"type":"x","id":"evt_1"}]. *)
Definition body : jsstring :=
  code_units ("{" ++ V2.quote ++ "type" ++ V2.quote ++ ":" ++ V2.quote ++ "x"
                  ++ V2.quote ++ "," ++ V2.quote ++ "id" ++ V2.quote ++ ":"
                  ++ V2.quote ++ "evt_1" ++ V2.quote ++ "}").

(** The digest and the signature the sender computes for [body] at a
    timestamp. *)
Definition digest (ts : Z) : list byte :=
  Crypto.HMAC_SHA256 (Buffer.from_utf8 secret) (signed_payload (Int ts) body).

Definition sign (ts : Z) : string := Buffer.to_hex (digest ts).

(** The header the sender builds for [body] at 1700000000 s, and the signature
    for 1700000005 s. *)
Definition signed_header : string :=
  "t=1700000000,v1=63a28881fa185c95d33531e4ca449b8a906e7181292ae13a3bafe9132c52e043".

Definition signature_5 : string :=
  "baee55f83f0b2d3e0480f70703dbd6dc8a17d7d44a586b5f2ea7b3ae44bf71f7".

(** A header with a timestamp that is not a number, signed over ["NaN."]. *)
Definition nan_digest : list byte :=
  Crypto.HMAC_SHA256 (Buffer.from_utf8 secret) (signed_payload NaN body).

Definition nan_header : string := built_header "soon" [Buffer.to_hex nan_digest].

Definition wrong_signature : string :=
  "00112233445566778899aabbccddeeff00112233445566778899aabbccddeeff".

Definition url : string := "https://proj.supabase.co/functions/v1/hook".

Definition insecure_url : string := "http://proj.supabase.co/functions/v1/hook".

Definition request (signature : option string) (contentType : option string) : Request :=
  mkRequest (Normal body)
    (fun name =>
       if String.eqb name "stripe-signature" then signature
       else if String.eqb name "content-type" then contentType
       else None).

Definition env (destination : string) (ping : option string) : ProcessEnv :=
  mkEnv (Some secret) (Some destination) (Some "service-role-key") None
        (Some "edge-token") ping.

(** The bytes of [body] on the wire, and the same after a byte order mark. *)
Definition body_bytes : list byte := Buffer.from_utf8 body.

Definition marked_bytes : list byte := Byte.xef :: Byte.xbb :: Byte.xbf :: body_bytes.

(** The body [{"type":{"toString":1},"id":"evt_1"}], whose [type] is an object
    with an own [toString]; the header the sender builds for it at
    1700000000 s; what [JSON.parse] and the reads of [type] and [id] give for
    it. *)
Definition odd_body : jsstring :=
  code_units ("{" ++ V2.quote ++ "type" ++ V2.quote ++ ":{" ++ V2.quote ++ "toString"
                  ++ V2.quote ++ ":1}," ++ V2.quote ++ "id" ++ V2.quote ++ ":"
                  ++ V2.quote ++ "evt_1" ++ V2.quote ++ "}").

Definition odd_header : string :=
  "t=1700000000,v1=7f565f89eba3357b3ac0ece7b2095c5bff444f26c0e18c4f2d48fbc3cb1d3266".

Definition odd_event : EventInfo :=
  mkEventInfo (JsObject [(code_units "toString", JsNumber "1")])
    (JsString (code_units "evt_1")).

Definition odd_request : Request :=
  mkRequest (Normal odd_body)
    (fun name => if String.eqb name "stripe-signature" then Some odd_header else None).

(** The sample platform, parsing [odd_body]. *)
Definition odd_node (downstream : FetchInit -> Completion FetchResponse) : Platform :=
  mkPlatform
    (fun key msg => Normal (Crypto.HMAC_SHA256 key msg))
    1700000000123
    "2023-11-14T22:13:20.123Z"
    uuid_ok
    URL_basic
    (fun _ => Normal odd_event)
    downstream.

End Sample.

(** ** Further readings of the source *)

(** The preview of a rejected downstream body that the forwarder writes to the
    log (lines 174-181 and 516-522):
    [text.length > 300 ? text.substring(0, 300) + "..." : text], or a fixed
    text when reading the body raised. *)
Definition errorBody (text : Completion jsstring) : jsstring :=
  match text with
  | Normal t =>
      if Nat.ltb 300 (List.length t) then firstn 300 t ++ code_units "..." else t
  | Throw _ => code_units "(unable to read response body)"
  end.

(** A platform with another [JSON.parse]. *)
Definition with_JSON_parse (pf : Platform)
    (parse : jsstring -> Completion EventInfo) : Platform :=
  mkPlatform (createHmac_sha256 pf) (Date_now pf) (Date_toISOString pf)
    (randomUUID pf) (URL_new pf) parse (fetch pf).

(** A signature value the sender can put in a header: not empty, and without
    white space, comma or equals sign. *)
Definition plain_value (v : string) : Prop :=
  string_forall plain v = true /\ v <> EmptyString.

(** The first two characters of a string are not both hex digits (or there are
    fewer than two). *)
Definition stops_hex (tail : string) : bool :=
  match tail with
  | String a (String b _) =>
      match Buffer.unhex a, Buffer.unhex b with
      | Some _, Some _ => false
      | _, _ => true
      end
  | _ => true
  end.

(** A code unit below 128: one byte in UTF-8. *)
Definition is_ascii (c : ascii) : bool := (N_of_ascii c <? 128)%N.

(** The order of the handler's checks once the body is read: the signature
    header, then the signing secret, then the signature; a verified request is
    never answered 400. *)
Definition rejects_in_order (post : Eff Response) (pf : Platform) (env : ProcessEnv)
    (request : Request) : Prop :=
  (truthy (request_headers_get request "stripe-signature") = false ->
   post = (Normal (json_response 400 (Body_error "Missing stripe-signature header")), []))
  /\ (truthy (request_headers_get request "stripe-signature") = true ->
      truthy_js (STRIPE_WEBHOOK_SECRET env) = false ->
      post = (Normal (json_response 500 (Body_error "Server configuration error")), []))
  /\ (truthy (request_headers_get request "stripe-signature") = true ->
      truthy_js (STRIPE_WEBHOOK_SECRET env) = true ->
      verified pf env request = false ->
      post = (Normal (json_response 400 (Body_error "Invalid signature")), []))
  /\ (verified pf env request = true ->
      forall response, result post = Normal response -> response_code response <> 400).

(** * Properties *)

(** ** The keyed hash agrees with the published test vectors *)

Example sha256_abc :
  Buffer.to_hex (Crypto.SHA256 (Buffer.from_utf8 (code_units "abc")))
  = "ba7816bf8f01cfea414140de5dae2223b00361a396177a9cb410ff61f20015ad".
Proof. vm_compute. reflexivity. Qed.

Example sha256_two_blocks :
  Buffer.to_hex
    (Crypto.SHA256
       (Buffer.from_utf8
          (code_units "abcdbcdecdefdefgefghfghighijhijkijkljklmklmnlmnomnopnopq")))
  = "248d6a61d20638b8e5c026930c3e6039a33ce45964ff2167f6ecedd419db06c1".
Proof. vm_compute. reflexivity. Qed.

Example hmac_sha256_fox :
  Buffer.to_hex
    (Crypto.HMAC_SHA256 (Buffer.from_utf8 (code_units "key"))
       (Buffer.from_utf8 (code_units "The quick brown fox jumps over the lazy dog")))
  = "f7bc83f430538424b13298e6aa6fb143ef4d59a14946175997479dbc2d1a3cd8".
Proof. vm_compute. reflexivity. Qed.

Example utf8_surrogates :
  Buffer.to_hex (Buffer.from_utf8 [0x41; 0xE9; 0x20AC; 0xD83D; 0xDE00; 0xD800; 0x42]%N)
  = "41c3a9e282acf09f9880efbfbd42".
Proof. vm_compute. reflexivity. Qed.

(** ** Buffers *)

Lemma hex_pair_roundtrip (b : byte) :
  let n := Byte.to_N b in
  Buffer.unhex (Buffer.hex_digit (n / 16)%N) = Some (n / 16)%N
  /\ Buffer.unhex (Buffer.hex_digit (n mod 16)%N) = Some (n mod 16)%N
  /\ Buffer.byte_of_N (16 * (n / 16) + n mod 16)%N = b.
Proof. destruct b; vm_compute; repeat split. Qed.

(** Decoding the hex digest gives the digest back. *)
Lemma from_hex_to_hex (bs : list byte) : Buffer.from_hex (Buffer.to_hex bs) = bs.
Proof.
  induction bs as [|b bs IH]; [reflexivity|].
  cbn [Buffer.to_hex Buffer.from_hex].
  destruct (hex_pair_roundtrip b) as (Hhi & Hlo & Hb).
  cbv zeta in Hhi, Hlo, Hb. rewrite Hhi, Hlo, Hb, IH. reflexivity.
Qed.

Lemma bytes_eqb_eq (a b : list byte) : Buffer.bytes_eqb a b = true <-> a = b.
Proof.
  revert b. induction a as [|x a IH]; intros [|y b]; cbn; try easy.
  rewrite andb_true_iff, IH. unfold Buffer.byte_eqb. split.
  - intros [Hxy ->]. apply Byte.byte_dec_bl in Hxy. now subst.
  - intros [= -> ->]. split; [now apply Byte.byte_dec_lb | reflexivity].
Qed.

Lemma bytes_eqb_length (a b : list byte) :
  Nat.eqb (List.length a) (List.length b) = false -> Buffer.bytes_eqb a b = false.
Proof.
  intros H. destruct (Buffer.bytes_eqb a b) eqn:E; [|reflexivity].
  apply bytes_eqb_eq in E. subst. now rewrite Nat.eqb_refl in H.
Qed.

(** The length guard of the verifier keeps [timingSafeEqual] from raising: the
    guarded comparison is the equality of the two buffers. *)
Lemma guarded_compare {A} (expected received : list byte) (hit miss : Completion A) :
  (if negb (Nat.eqb (List.length expected) (List.length received)) then miss
   else bindC (Buffer.timingSafeEqual expected received)
          (fun equal => if equal then hit else miss))
  = if Buffer.bytes_eqb expected received then hit else miss.
Proof.
  unfold Buffer.timingSafeEqual.
  destruct (Nat.eqb (List.length expected) (List.length received)) eqn:E; cbn.
  - reflexivity.
  - now rewrite bytes_eqb_length.
Qed.

(** ** The parser *)

Lemma collect_v1_timestamp (ts : string) (parts : list string) (e : SignatureEntry) :
  In e (collect_v1 ts parts) -> entry_timestamp e = ts.
Proof.
  induction parts as [|p parts IH]; cbn [collect_v1]; [easy|].
  destruct (Js.startsWith (Js.trim p) "v1="); [|exact IH].
  destruct (second_field (Js.trim p)) as [[|c v]|]; try exact IH.
  intros [<-|H]; [reflexivity | now apply IH].
Qed.

Lemma parse_unfold (h : string) :
  parseStripeSignatureHeader h
  = match header_timestamp h with
    | None => []
    | Some ts => collect_v1 ts (Js.split "," h)
    end.
Proof.
  unfold parseStripeSignatureHeader, header_timestamp.
  destruct (find_timestamp (Js.split "," h)); [|reflexivity].
  now destruct (collect_v1 s (Js.split "," h)).
Qed.

(** Every candidate carries the one timestamp extracted from the header. *)
Lemma parse_timestamp (h : string) (e : SignatureEntry) :
  In e (parseStripeSignatureHeader h) -> header_timestamp h = Some (entry_timestamp e).
Proof.
  rewrite parse_unfold. destruct (header_timestamp h) as [ts|]; [|easy].
  intros H. now rewrite (collect_v1_timestamp _ _ _ H).
Qed.

Lemma find_timestamp_none (parts : list string) :
  (forall part, In part parts -> Js.startsWith (Js.trim part) "t=" = false) ->
  find_timestamp parts = None.
Proof.
  induction parts as [|p parts IH]; intros H; cbn [find_timestamp]; [reflexivity|].
  rewrite (H p (or_introl eq_refl)). apply IH. intros q Hq. apply H. now right.
Qed.

Lemma collect_v1_nil (ts : string) (parts : list string) :
  (forall part, In part parts -> Js.startsWith (Js.trim part) "v1=" = false) ->
  collect_v1 ts parts = [].
Proof.
  induction parts as [|p parts IH]; intros H; cbn [collect_v1]; [reflexivity|].
  rewrite (H p (or_introl eq_refl)). apply IH. intros q Hq. apply H. now right.
Qed.

(** ** Strings: splitting, trimming and decimal numerals *)

Lemma append_assoc (a b c : string) : ((a ++ b) ++ c = a ++ (b ++ c))%string.
Proof. induction a as [|x a IH]; cbn; [reflexivity | now rewrite IH]. Qed.

Lemma string_forall_app (test : ascii -> bool) (a b : string) :
  string_forall test (a ++ b) = string_forall test a && string_forall test b.
Proof.
  induction a as [|x a IH]; cbn; [reflexivity|]. now rewrite IH, andb_assoc.
Qed.

Lemma string_forall_weaken (p q : ascii -> bool) (s : string) :
  (forall c, p c = true -> q c = true) ->
  string_forall p s = true -> string_forall q s = true.
Proof.
  intros Hpq. induction s as [|c s IH]; cbn; [reflexivity|].
  rewrite !andb_true_iff. intros [Hc Hs]. split; [now apply Hpq | now apply IH].
Qed.

Lemma split_nonempty (sep : ascii) (s : string) : Js.split sep s <> [].
Proof.
  destruct s as [|c s]; cbn; [discriminate|].
  destruct (Ascii.eqb c sep); [discriminate|].
  destruct (Js.split sep s); discriminate.
Qed.

(** Splitting distributes over a separator. *)
Lemma split_app (sep : ascii) (a b : string) :
  Js.split sep (a ++ String sep b) = Js.split sep a ++ Js.split sep b.
Proof.
  induction a as [|c a IH]; cbn [append Js.split].
  - now rewrite Ascii.eqb_refl.
  - destruct (Ascii.eqb c sep); [now rewrite IH|].
    rewrite IH. pose proof (split_nonempty sep a) as Hne.
    destruct (Js.split sep a); [contradiction | reflexivity].
Qed.

Lemma split_without (sep : ascii) (s : string) :
  string_forall (fun c => negb (Ascii.eqb c sep)) s = true -> Js.split sep s = [s].
Proof.
  induction s as [|c s IH]; cbn [string_forall Js.split]; [reflexivity|].
  rewrite andb_true_iff, negb_true_iff. intros [-> Hs]. now rewrite (IH Hs).
Qed.

Lemma trimStart_head (c : ascii) (s : string) :
  Js.isWhiteSpace c = false -> Js.trimStart (String c s) = String c s.
Proof. cbn. now intros ->. Qed.

Lemma trimEnd_without (s : string) :
  string_forall (fun c => negb (Js.isWhiteSpace c)) s = true -> Js.trimEnd s = s.
Proof.
  induction s as [|c s IH]; cbn [string_forall Js.trimEnd]; [reflexivity|].
  rewrite andb_true_iff, negb_true_iff. intros [Hc Hs]. rewrite (IH Hs).
  destruct s; [now rewrite Hc | reflexivity].
Qed.

Lemma trim_without (s : string) :
  string_forall (fun c => negb (Js.isWhiteSpace c)) s = true -> Js.trim s = s.
Proof.
  intros H. unfold Js.trim.
  destruct s as [|c s]; [reflexivity|].
  rewrite trimStart_head; [now apply trimEnd_without|].
  cbn in H. apply andb_true_iff in H. now apply negb_true_iff.
Qed.

Lemma plain_not_space (s : string) :
  string_forall plain s = true ->
  string_forall (fun c => negb (Js.isWhiteSpace c)) s = true.
Proof.
  apply string_forall_weaken. unfold plain. intros c.
  rewrite !andb_true_iff. tauto.
Qed.

Lemma plain_not_comma (s : string) :
  string_forall plain s = true ->
  string_forall (fun c => negb (Ascii.eqb c ",")) s = true.
Proof.
  apply string_forall_weaken. unfold plain. intros c.
  rewrite !andb_true_iff. tauto.
Qed.

Lemma plain_not_equals (s : string) :
  string_forall plain s = true ->
  string_forall (fun c => negb (Ascii.eqb c "=")) s = true.
Proof.
  apply string_forall_weaken. unfold plain. intros c.
  rewrite !andb_true_iff. tauto.
Qed.

(** A segment [key=value] with a plain value is kept whole by [trim], and its
    second field is the value. *)
Lemma trim_segment (key value : string) :
  string_forall plain key = true -> string_forall plain value = true ->
  Js.trim (key ++ String "=" value) = (key ++ String "=" value)%string.
Proof.
  intros Hk Hv. apply trim_without.
  rewrite string_forall_app. cbn [string_forall].
  rewrite (plain_not_space _ Hk), (plain_not_space _ Hv). reflexivity.
Qed.

Lemma second_field_segment (key value : string) :
  string_forall plain key = true -> string_forall plain value = true ->
  second_field (key ++ String "=" value) = Some value.
Proof.
  intros Hk Hv. unfold second_field.
  rewrite split_app, (split_without _ _ (plain_not_equals _ Hk)),
    (split_without _ _ (plain_not_equals _ Hv)).
  reflexivity.
Qed.

Lemma startsWith_segment (key value : string) :
  Js.startsWith (key ++ String "=" value) (key ++ "=") = true.
Proof.
  unfold Js.startsWith. induction key as [|c key IH]; cbn.
  - now destruct value.
  - now destruct (ascii_dec c c).
Qed.

Lemma collect_v1_app (ts : string) (a b : list string) :
  collect_v1 ts (a ++ b) = collect_v1 ts a ++ collect_v1 ts b.
Proof.
  induction a as [|p a IH]; cbn [app collect_v1]; [reflexivity|].
  destruct (Js.startsWith (Js.trim p) "v1="); [|exact IH].
  destruct (second_field (Js.trim p)) as [[|c v]|]; try exact IH.
  cbn [app]. now rewrite IH.
Qed.

(** The segments of a built header: the timestamp segment, then the segments
    of each signature value. *)
Lemma split_v1_segments (first : string) (signatures : list string) :
  Js.split "," (first ++ v1_segments signatures)
  = Js.split "," first
    ++ List.concat (map (fun v => Js.split "," ("v1=" ++ v)%string) signatures).
Proof.
  revert first. induction signatures as [|v rest IH]; intros first.
  - cbn [v1_segments map List.concat].
    replace (first ++ "")%string with first; [now rewrite app_nil_r|].
    induction first as [|c f IHf]; cbn; [reflexivity | now rewrite <- IHf].
  - cbn [v1_segments map List.concat].
    change (",v1=" ++ v ++ v1_segments rest)%string
      with (String "," ("v1=" ++ (v ++ v1_segments rest)))%string.
    rewrite split_app. f_equal.
    now rewrite <- (IH ("v1=" ++ v)%string).
Qed.

Lemma collect_v1_plain (ts v : string) :
  string_forall plain v = true -> v <> EmptyString ->
  collect_v1 ts (Js.split "," ("v1=" ++ v)) = [mkEntry ts v].
Proof.
  intros Hv Hne.
  assert (Hseg : string_forall (fun c => negb (Ascii.eqb c ",")) ("v1=" ++ v) = true)
    by (cbn; now apply plain_not_comma).
  rewrite (split_without _ _ Hseg).
  cbn [collect_v1].
  change ("v1=" ++ v)%string with ("v1" ++ String "=" v)%string.
  rewrite trim_segment, second_field_segment by (exact Hv || reflexivity).
  replace (Js.startsWith ("v1" ++ String "=" v) "v1=") with true
    by (symmetry; exact (startsWith_segment "v1" v)).
  destruct v; [contradiction | reflexivity].
Qed.

Section BuiltHeader.

Variables (T : string) (signatures : list string).

Hypothesis T_plain : string_forall plain T = true.
Hypothesis T_nonempty : T <> EmptyString.

Lemma built_header_parts :
  Js.split "," (built_header T signatures)
  = ("t=" ++ T)%string
    :: List.concat (map (fun v => Js.split "," ("v1=" ++ v)%string) signatures).
Proof.
  unfold built_header.
  change ("t=" ++ T ++ v1_segments signatures)%string
    with (("t=" ++ T) ++ v1_segments signatures)%string.
  rewrite split_v1_segments.
  assert (Hseg : string_forall (fun c => negb (Ascii.eqb c ",")) ("t=" ++ T) = true)
    by (cbn; now apply plain_not_comma).
  now rewrite (split_without _ _ Hseg).
Qed.

Lemma built_header_timestamp : header_timestamp (built_header T signatures) = Some T.
Proof.
  unfold header_timestamp. rewrite built_header_parts. cbn [find_timestamp].
  change ("t=" ++ T)%string with ("t" ++ String "=" T)%string.
  rewrite trim_segment, second_field_segment by (exact T_plain || reflexivity).
  replace (Js.startsWith ("t" ++ String "=" T) "t=") with true
    by (symmetry; exact (startsWith_segment "t" T)).
  destruct T; [now contradiction T_nonempty | reflexivity].
Qed.

Lemma built_header_candidates :
  parseStripeSignatureHeader (built_header T signatures)
  = List.concat
      (map (fun v => collect_v1 T (Js.split "," ("v1=" ++ v)%string)) signatures).
Proof.
  rewrite parse_unfold, built_header_timestamp, built_header_parts.
  cbn [collect_v1].
  change ("t=" ++ T)%string with ("t" ++ String "=" T)%string.
  rewrite trim_segment by (exact T_plain || reflexivity).
  change (Js.startsWith ("t" ++ String "=" T) "v1=") with false. cbv iota.
  induction signatures as [|v rest IH]; cbn [map List.concat]; [reflexivity|].
  now rewrite collect_v1_app, IH.
Qed.

Lemma built_header_candidate (v : string) :
  In v signatures -> string_forall plain v = true -> v <> EmptyString ->
  In (mkEntry T v) (parseStripeSignatureHeader (built_header T signatures)).
Proof.
  intros Hin Hv Hne. rewrite built_header_candidates.
  apply in_concat. exists [mkEntry T v]. split; [|now left].
  apply in_map_iff. exists v. split; [now apply collect_v1_plain | exact Hin].
Qed.

End BuiltHeader.

(** ** Decimal numerals and hex digests *)

Lemma digit_char_spec (n : Z) :
  let c := Js.digit_char (n mod 10) in
  Js.digit_value c = Some (n mod 10)
  /\ plain c = true
  /\ Js.isWhiteSpace c = false
  /\ Ascii.eqb c "-" = false
  /\ Ascii.eqb c "+" = false.
Proof.
  pose proof (Z.mod_pos_bound n 10 ltac:(lia)) as Hm.
  assert (H : n mod 10 = 0 \/ n mod 10 = 1 \/ n mod 10 = 2 \/ n mod 10 = 3
              \/ n mod 10 = 4 \/ n mod 10 = 5 \/ n mod 10 = 6 \/ n mod 10 = 7
              \/ n mod 10 = 8 \/ n mod 10 = 9) by lia.
  repeat (destruct H as [H | H]); rewrite H; vm_compute; repeat split.
Qed.

Lemma digits_of_plain (fuel : nat) (n : Z) (acc : string) :
  string_forall plain acc = true -> string_forall plain (Js.digits_of fuel n acc) = true.
Proof.
  revert n acc. induction fuel as [|f IH]; intros n acc Hacc; cbn [Js.digits_of];
    cbv zeta;
    destruct (digit_char_spec n) as (_ & Hp & _); cbv zeta in Hp.
  - cbn [string_forall]. now rewrite Hp.
  - destruct (n <? 10).
    + cbn [string_forall]. now rewrite Hp.
    + apply IH. cbn [string_forall]. now rewrite Hp.
Qed.

Lemma digits_of_head (fuel : nat) (n : Z) (acc : string) :
  exists m rest, Js.digits_of fuel n acc = String (Js.digit_char (m mod 10)) rest.
Proof.
  revert n acc. induction fuel as [|f IH]; intros n acc; cbn [Js.digits_of]; cbv zeta.
  - now exists n, acc.
  - destruct (n <? 10); [now exists n, acc | apply IH].
Qed.

(** Reading back the digits written in front of [acc]. *)
Lemma read_digits_of (fuel : nat) (n : Z) (acc : string) (a : Z) (count : nat) :
  0 <= n < 10 ^ Z.of_nat (S fuel) ->
  exists k,
    Js.read_digits (Js.digits_of fuel n acc) a count
    = Js.read_digits acc (a * 10 ^ Z.of_nat (S k) + n) (count + S k)%nat.
Proof.
  revert n acc a count.
  induction fuel as [|f IH]; intros n acc a count Hn; cbn [Js.digits_of]; cbv zeta.
  - exists O. cbn [Js.read_digits].
    destruct (digit_char_spec n) as (-> & _).
    change (Z.of_nat 1) with 1 in *. rewrite Z.pow_1_r in *.
    rewrite Z.mod_small by lia. f_equal; [lia | lia].
  - destruct (Z.ltb_spec n 10) as [Hlt | Hge].
    + exists O. cbn [Js.read_digits].
      destruct (digit_char_spec n) as (-> & _).
      change (Z.of_nat 1) with 1. rewrite Z.pow_1_r.
      rewrite Z.mod_small by lia. f_equal; [lia | lia].
    + assert (Hdiv : 0 <= n / 10 < 10 ^ Z.of_nat (S f)).
      { split; [apply Z.div_pos; lia|].
        apply Z.div_lt_upper_bound; [lia|].
        replace (10 * 10 ^ Z.of_nat (S f)) with (10 ^ Z.of_nat (S (S f))); [lia|].
        rewrite (Nat2Z.inj_succ (S f)), Z.pow_succ_r by lia. reflexivity. }
      destruct (IH (n / 10) (String (Js.digit_char (n mod 10)) acc) a count Hdiv) as [k Hk].
      exists (S k). rewrite Hk. cbn [Js.read_digits].
      destruct (digit_char_spec n) as (-> & _).
      f_equal; [|lia].
      rewrite (Nat2Z.inj_succ (S k)), Z.pow_succ_r by lia.
      pose proof (Z.div_mod n 10 ltac:(lia)). lia.
Qed.

Lemma decimal_fuel (n : Z) : 0 <= n -> 0 <= n < 10 ^ Z.of_nat (S (Z.to_nat (Z.log2 n))).
Proof.
  intros Hn. split; [exact Hn|].
  destruct (Z.eq_dec n 0) as [-> | Hz]; [cbn; lia|].
  pose proof (Z.log2_nonneg n) as Hl.
  destruct (Z.log2_spec n ltac:(lia)) as [_ Hup].
  rewrite Nat2Z.inj_succ, Z2Nat.id by lia.
  eapply Z.lt_le_trans; [exact Hup|].
  apply Z.pow_le_mono_l. lia.
Qed.

Lemma parseInt_decimal (n : Z) : 0 <= n -> Js.parseInt (Js.decimal n) = Int n.
Proof.
  intros Hn. unfold Js.parseInt, Js.decimal. cbv zeta.
  destruct (digits_of_head (Z.to_nat (Z.log2 n)) n EmptyString) as (m & rest & Hhead).
  destruct (read_digits_of (Z.to_nat (Z.log2 n)) n EmptyString 0 0 (decimal_fuel n Hn))
    as [k Hk].
  rewrite Hhead in *.
  destruct (digit_char_spec m) as (_ & _ & Hws & Hminus & Hplus). cbv zeta in *.
  rewrite trimStart_head by exact Hws.
  rewrite Hminus, Hplus. cbn [orb]. rewrite Hk. cbn [Js.read_digits Nat.add].
  f_equal. lia.
Qed.

(** [parseInt] reads back the timestamp the template literal writes. *)
Lemma parseInt_toString (ts : Z) : Js.parseInt (Js.Number_toString (Int ts)) = Int ts.
Proof.
  unfold Js.Number_toString. destruct (Z.ltb_spec ts 0) as [Hneg | Hpos].
  - pose proof (parseInt_decimal (- ts) ltac:(lia)) as H.
    unfold Js.parseInt in *. cbv zeta in *.
    destruct (digits_of_head (Z.to_nat (Z.log2 (- ts))) (- ts) EmptyString)
      as (m & rest & Hhead).
    unfold Js.decimal in *. rewrite Hhead in *.
    destruct (digit_char_spec m) as (_ & _ & Hws & Hminus & Hplus). cbv zeta in *.
    rewrite trimStart_head in H by exact Hws. rewrite Hminus, Hplus in H. cbn [orb] in H.
    rewrite trimStart_head by reflexivity.
    change (Ascii.eqb "-" "-") with true. cbn [orb]. cbv iota.
    destruct (Js.read_digits (String (Js.digit_char (m mod 10)) rest) 0 0) as [v [|c]];
      [discriminate|].
    assert (Hv : 1 * v = - ts) by congruence. f_equal. lia.
  - now apply parseInt_decimal.
Qed.

Lemma toString_plain (ts : Z) : string_forall plain (Js.Number_toString (Int ts)) = true.
Proof.
  unfold Js.Number_toString, Js.decimal.
  destruct (ts <? 0); [cbn [string_forall]|]; now rewrite digits_of_plain.
Qed.

Lemma toString_nonempty (ts : Z) : Js.Number_toString (Int ts) <> EmptyString.
Proof.
  unfold Js.Number_toString, Js.decimal. destruct (ts <? 0); [discriminate|].
  destruct (digits_of_head (Z.to_nat (Z.log2 ts)) ts EmptyString) as (m & rest & ->).
  discriminate.
Qed.

Lemma hex_pair_plain (b : byte) :
  plain (Buffer.hex_digit (Byte.to_N b / 16)%N) = true
  /\ plain (Buffer.hex_digit (Byte.to_N b mod 16)%N) = true.
Proof. destruct b; vm_compute; split; reflexivity. Qed.

Lemma to_hex_plain (bs : list byte) : string_forall plain (Buffer.to_hex bs) = true.
Proof.
  induction bs as [|b bs IH]; [reflexivity|].
  cbn [Buffer.to_hex string_forall]. cbv zeta.
  destruct (hex_pair_plain b) as [-> ->]. exact IH.
Qed.

Lemma to_hex_nonempty (bs : list byte) : bs <> [] -> Buffer.to_hex bs <> EmptyString.
Proof. destruct bs; [contradiction | discriminate]. Qed.

(** ** The verifier *)

Section Verifier.

Variable pf : Platform.
Variables (rawBody secret : jsstring).

Lemma verify_entries_step (e : SignatureEntry) (rest : list SignatureEntry) :
  verify_entries pf rawBody secret (e :: rest)
  = let ts := Js.parseInt (entry_timestamp e) in
    if Js.abs_diff_gt (currentTimestamp pf) ts TOLERANCE
    then verify_entries pf rawBody secret rest
    else bindC (createHmac_sha256 pf (Buffer.from_utf8 secret) (signed_payload ts rawBody))
           (fun digest =>
              if decodes_to digest e then Normal (mkOutcome true (Some ts))
              else verify_entries pf rawBody secret rest).
Proof.
  cbn [verify_entries]. cbv zeta.
  destruct (Js.abs_diff_gt _ _ _); [reflexivity|].
  unfold signed_payload.
  destruct (createHmac_sha256 pf _ _) as [digest|err]; cbn [bindC]; [|reflexivity].
  rewrite guarded_compare, from_hex_to_hex. reflexivity.
Qed.

(** Candidates out of tolerance are skipped. *)
Lemma verify_entries_out_of_tolerance (entries : list SignatureEntry) :
  (forall e, In e entries ->
     Js.abs_diff_gt (currentTimestamp pf) (Js.parseInt (entry_timestamp e)) TOLERANCE = true) ->
  verify_entries pf rawBody secret entries = Normal invalid_outcome.
Proof.
  induction entries as [|e rest IH]; intros H; [reflexivity|].
  rewrite verify_entries_step. cbv zeta.
  rewrite (H e (or_introl eq_refl)). apply IH. intros x Hx. apply H. now right.
Qed.

(** Candidates sharing a timestamp within tolerance: the loop answers with the
    first whose signature decodes to the digest. *)
Lemma verify_entries_shared (tstr : string) (digest : list byte)
    (entries : list SignatureEntry) :
  (forall e, In e entries -> entry_timestamp e = tstr) ->
  Js.abs_diff_gt (currentTimestamp pf) (Js.parseInt tstr) TOLERANCE = false ->
  createHmac_sha256 pf (Buffer.from_utf8 secret) (signed_payload (Js.parseInt tstr) rawBody)
  = Normal digest ->
  verify_entries pf rawBody secret entries
  = Normal (match find (decodes_to digest) entries with
            | Some _ => mkOutcome true (Some (Js.parseInt tstr))
            | None => invalid_outcome
            end).
Proof.
  intros Hts Htol Hmac.
  induction entries as [|e rest IH]; [reflexivity|].
  rewrite verify_entries_step. cbv zeta.
  rewrite (Hts e (or_introl eq_refl)), Htol, Hmac. cbn [bindC find].
  destruct (decodes_to digest e); [reflexivity|].
  apply IH. intros x Hx. apply Hts. now right.
Qed.

(** The verifier never raises. *)
Lemma verify_returns (h : string) :
  exists outcome, verifyStripeSignature pf rawBody h secret = Normal outcome.
Proof.
  unfold verifyStripeSignature, try_catch.
  destruct (parseStripeSignatureHeader h) as [|e rest]; [now eexists|].
  destruct (verify_entries pf rawBody secret (e :: rest)); now eexists.
Qed.

Lemma verify_unfold (h : string) :
  verifyStripeSignature pf rawBody h secret
  = match verify_entries pf rawBody secret (parseStripeSignatureHeader h) with
    | Normal outcome => Normal outcome
    | Throw _ => Normal invalid_outcome
    end.
Proof.
  unfold verifyStripeSignature, try_catch.
  now destruct (parseStripeSignatureHeader h).
Qed.

End Verifier.

Section VerifierOutcome.

Variable pf : Platform.
Variables (rawBody secret : jsstring).

Lemma abs_diff_gt_within (ts : Z) :
  within_tolerance pf ts ->
  Js.abs_diff_gt (currentTimestamp pf) (Int ts) TOLERANCE = false.
Proof.
  unfold within_tolerance, Js.abs_diff_gt. intros H.
  destruct (Z.gtb_spec (Z.abs (currentTimestamp pf - ts)) TOLERANCE); [lia | reflexivity].
Qed.

Lemma abs_diff_gt_outside (ts : Z) :
  Z.abs (currentTimestamp pf - ts) > TOLERANCE ->
  Js.abs_diff_gt (currentTimestamp pf) (Int ts) TOLERANCE = true.
Proof.
  unfold Js.abs_diff_gt. intros H.
  destruct (Z.gtb_spec (Z.abs (currentTimestamp pf - ts)) TOLERANCE); [reflexivity | lia].
Qed.

Lemma find_decodes_to (digest : list byte) (entries : list SignatureEntry) :
  (exists e, In e entries /\ Buffer.from_hex (entry_signature e) = digest)
  <-> find (decodes_to digest) entries <> None.
Proof.
  induction entries as [|x rest IH]; cbn [find In].
  - split; [intros (e & [] & _) | easy].
  - destruct (decodes_to digest x) eqn:E.
    + split; [easy|]. intros _. exists x. split; [now left|].
      unfold decodes_to in E. apply bytes_eqb_eq in E. now symmetry.
    + rewrite <- IH. split.
      * intros (e & [<-|He] & Hd); [|now exists e].
        unfold decodes_to in E. rewrite <- Hd in E.
        assert (Buffer.bytes_eqb (Buffer.from_hex (entry_signature x))
                  (Buffer.from_hex (entry_signature x)) = true) by now apply bytes_eqb_eq.
        congruence.
      * intros (e & He & Hd). exists e. split; [now right | exact Hd].
Qed.

(** The outcome for a header whose timestamp passes the tolerance test. *)
Lemma verify_shared (h tstr : string) (digest : list byte) :
  header_timestamp h = Some tstr ->
  Js.abs_diff_gt (currentTimestamp pf) (Js.parseInt tstr) TOLERANCE = false ->
  createHmac_sha256 pf (Buffer.from_utf8 secret) (signed_payload (Js.parseInt tstr) rawBody)
  = Normal digest ->
  verifyStripeSignature pf rawBody h secret
  = Normal (match find (decodes_to digest) (parseStripeSignatureHeader h) with
            | Some _ => mkOutcome true (Some (Js.parseInt tstr))
            | None => invalid_outcome
            end).
Proof.
  intros Hts Htol Hmac. rewrite verify_unfold.
  rewrite (verify_entries_shared pf rawBody secret tstr digest); [reflexivity | | exact Htol | exact Hmac].
  intros e He. apply parse_timestamp in He. congruence.
Qed.

End VerifierOutcome.

(** The sample platform's keyed hash of what the verifier signs. *)
Lemma sample_hmac (uuid : Completion string)
    (downstream : FetchInit -> Completion FetchResponse) (ts : Z) :
  createHmac_sha256 (Sample.node uuid downstream) (Buffer.from_utf8 Sample.secret)
    (Buffer.from_utf8 (code_units (Js.Number_toString (Int ts) ++ ".") ++ Sample.body))
  = Normal (Sample.digest ts).
Proof.
  unfold Sample.digest, signed_payload, Sample.node. cbn [createHmac_sha256]. reflexivity.
Qed.

Section VerifierOnHeaders.

Variable pf : Platform.
Variables (rawBody secret : jsstring).

(** A candidate of the header within tolerance whose value is the hex digest. *)
Lemma verify_candidate_within (h tstr : string) (ts : Z) (v : string) (digest : list byte) :
  In (mkEntry tstr v) (parseStripeSignatureHeader h) ->
  Js.parseInt tstr = Int ts ->
  Z.abs (currentTimestamp pf - ts) <= 300 ->
  createHmac_sha256 pf (Buffer.from_utf8 secret) (signed_payload (Int ts) rawBody)
  = Normal digest ->
  v = Buffer.to_hex digest ->
  verifyStripeSignature pf rawBody h secret = Normal (mkOutcome true (Some (Int ts))).
Proof.
  intros Hin Hparse Htol Hmac ->.
  pose proof (parse_timestamp _ _ Hin) as Hts. cbn [entry_timestamp] in Hts.
  rewrite (verify_shared pf rawBody secret h tstr digest Hts).
  - destruct (find (decodes_to digest) (parseStripeSignatureHeader h)) eqn:F.
    + now rewrite Hparse.
    + exfalso. revert F. apply find_decodes_to.
      eexists. split; [exact Hin|]. cbn [entry_signature]. apply from_hex_to_hex.
  - rewrite Hparse. now apply abs_diff_gt_within.
  - rewrite Hparse. exact Hmac.
Qed.

(** A header all of whose candidates are out of tolerance. *)
Lemma verify_all_outside (h : string) :
  (forall e, In e (parseStripeSignatureHeader h) ->
     exists ts, Js.parseInt (entry_timestamp e) = Int ts
                /\ Z.abs (currentTimestamp pf - ts) > 300) ->
  verifyStripeSignature pf rawBody h secret = Normal (mkOutcome false None).
Proof.
  intros Hall. rewrite verify_unfold.
  rewrite verify_entries_out_of_tolerance; [reflexivity|].
  intros e He. destruct (Hall e He) as (ts & Hparse & Htol).
  rewrite Hparse. now apply abs_diff_gt_outside.
Qed.

(** The header a sender builds with the hex digest among its values. *)
Lemma verify_built_within (ts : Z) (signatures : list string) (digest : list byte) :
  Z.abs (currentTimestamp pf - ts) <= 300 ->
  createHmac_sha256 pf (Buffer.from_utf8 secret) (signed_payload (Int ts) rawBody)
  = Normal digest ->
  digest <> [] ->
  In (Buffer.to_hex digest) signatures ->
  verifyStripeSignature pf rawBody (stripe_header ts signatures) secret
  = Normal (mkOutcome true (Some (Int ts))).
Proof.
  intros Htol Hmac Hne Hin.
  apply verify_candidate_within
    with (tstr := Js.Number_toString (Int ts)) (v := Buffer.to_hex digest) (digest := digest);
    try assumption; try reflexivity.
  - apply built_header_candidate.
    + apply toString_plain.
    + apply toString_nonempty.
    + exact Hin.
    + apply to_hex_plain.
    + now apply to_hex_nonempty.
  - apply parseInt_toString.
Qed.

Lemma verify_built_outside (ts : Z) (signatures : list string) :
  Z.abs (currentTimestamp pf - ts) > 300 ->
  verifyStripeSignature pf rawBody (stripe_header ts signatures) secret
  = Normal (mkOutcome false None).
Proof.
  intros Htol. apply verify_all_outside. intros e He. exists ts.
  split; [|exact Htol].
  apply parse_timestamp in He. unfold stripe_header in He.
  rewrite built_header_timestamp in He
    by (apply toString_plain || apply toString_nonempty).
  injection He as <-. apply parseInt_toString.
Qed.

End VerifierOnHeaders.

(** C1.  For every payload and secret: the header [t=<ts>,v1=...] with [ts]
    within 300 s of the clock and, among its values, the hex of the HMAC-SHA256
    of ["<ts>." + payload] under the secret verifies as valid, and so does any
    header with such a candidate; with [ts] more than 300 s away the header is
    invalid whatever its values are: a candidate whose numeric timestamp is out
    of tolerance is skipped without contributing a match, and a header with
    only such candidates is invalid. *)
Theorem verify_tolerance_window (pf : Platform) (rawBody secret : jsstring) :
  (forall ts signatures digest,
      Z.abs (currentTimestamp pf - ts) <= 300 ->
      createHmac_sha256 pf (Buffer.from_utf8 secret)
        (Buffer.from_utf8 (code_units (Js.Number_toString (Int ts) ++ ".") ++ rawBody))
      = Normal digest ->
      digest <> [] ->
      In (Buffer.to_hex digest) signatures ->
      verifyStripeSignature pf rawBody (stripe_header ts signatures) secret
      = Normal (mkOutcome true (Some (Int ts))))
  /\ (forall ts signatures,
        Z.abs (currentTimestamp pf - ts) > 300 ->
        verifyStripeSignature pf rawBody (stripe_header ts signatures) secret
        = Normal (mkOutcome false None))
  /\ (forall h tstr ts v digest,
        In (mkEntry tstr v) (parseStripeSignatureHeader h) ->
        Js.parseInt tstr = Int ts ->
        Z.abs (currentTimestamp pf - ts) <= 300 ->
        createHmac_sha256 pf (Buffer.from_utf8 secret)
          (Buffer.from_utf8 (code_units (Js.Number_toString (Int ts) ++ ".") ++ rawBody))
        = Normal digest ->
        v = Buffer.to_hex digest ->
        verifyStripeSignature pf rawBody h secret
        = Normal (mkOutcome true (Some (Int ts))))
  /\ (forall e rest ts,
        Js.parseInt (entry_timestamp e) = Int ts ->
        Z.abs (currentTimestamp pf - ts) > 300 ->
        verify_entries pf rawBody secret (e :: rest)
        = verify_entries pf rawBody secret rest)
  /\ (forall h,
        (forall e, In e (parseStripeSignatureHeader h) ->
           exists ts, Js.parseInt (entry_timestamp e) = Int ts
                      /\ Z.abs (currentTimestamp pf - ts) > 300) ->
        verifyStripeSignature pf rawBody h secret = Normal (mkOutcome false None)).
Proof.
  repeat split.
  - intros ts signatures digest. apply verify_built_within.
  - intros ts signatures. apply verify_built_outside.
  - intros h tstr ts v digest. apply verify_candidate_within.
  - intros e rest ts Hparse Htol. rewrite verify_entries_step. cbv zeta.
    rewrite Hparse. now rewrite abs_diff_gt_outside.
  - intros h. apply verify_all_outside.
Qed.

Lemma verify_tolerance_window_witness :
  verifyStripeSignature (Sample.node Sample.uuid_ok (Sample.answers 200)) Sample.body
    (stripe_header 1700000300 [Sample.sign 1700000300]) Sample.secret
  = Normal (mkOutcome true (Some (Int 1700000300)))
  /\ verifyStripeSignature (Sample.node Sample.uuid_ok (Sample.answers 200)) Sample.body
       (stripe_header 1700000301 [Sample.sign 1700000301]) Sample.secret
     = Normal (mkOutcome false None).
Proof.
  pose proof (verify_tolerance_window (Sample.node Sample.uuid_ok (Sample.answers 200))
                Sample.body Sample.secret) as (Hin & Hout & _).
  assert (Hnear : Z.abs (currentTimestamp (Sample.node Sample.uuid_ok (Sample.answers 200))
                         - 1700000300) <= 300) by (vm_compute; discriminate).
  assert (Hfar : Z.abs (currentTimestamp (Sample.node Sample.uuid_ok (Sample.answers 200))
                        - 1700000301) > 300) by (vm_compute; reflexivity).
  assert (Hdigest : Sample.digest 1700000300 <> []) by (vm_compute; discriminate).
  assert (Hsig : In (Buffer.to_hex (Sample.digest 1700000300)) [Sample.sign 1700000300])
    by (left; unfold Sample.sign; reflexivity).
  split.
  - exact (Hin 1700000300 [Sample.sign 1700000300] (Sample.digest 1700000300)
             Hnear (sample_hmac _ _ _) Hdigest Hsig).
  - exact (Hout 1700000301 [Sample.sign 1700000301] Hfar).
Defined.

(** C7.  The loop answers with the first candidate, in the order of the header,
    that passes the time check and the comparison; so a header with one
    timestamp within tolerance and two [v1] values, one of them the expected
    HMAC hex and the other anything else, verifies as valid, in either
    order. *)
Theorem verify_first_passing_candidate (pf : Platform) (rawBody secret : jsstring) :
  (hmac_completes pf ->
   forall entries,
     verify_entries pf rawBody secret entries
     = Normal (match find (candidate_passes pf rawBody secret) entries with
               | Some e => mkOutcome true (Some (Js.parseInt (entry_timestamp e)))
               | None => mkOutcome false None
               end))
  /\ (forall ts wrong digest,
        Z.abs (currentTimestamp pf - ts) <= 300 ->
        createHmac_sha256 pf (Buffer.from_utf8 secret)
          (Buffer.from_utf8 (code_units (Js.Number_toString (Int ts) ++ ".") ++ rawBody))
        = Normal digest ->
        digest <> [] ->
        verifyStripeSignature pf rawBody
          (stripe_header ts [wrong; Buffer.to_hex digest]) secret
        = Normal (mkOutcome true (Some (Int ts)))
        /\ verifyStripeSignature pf rawBody
             (stripe_header ts [Buffer.to_hex digest; wrong]) secret
           = Normal (mkOutcome true (Some (Int ts))))
  /\ (forall h tstr ts a b digest,
        parseStripeSignatureHeader h = [mkEntry tstr a; mkEntry tstr b] ->
        Js.parseInt tstr = Int ts ->
        Z.abs (currentTimestamp pf - ts) <= 300 ->
        createHmac_sha256 pf (Buffer.from_utf8 secret)
          (Buffer.from_utf8 (code_units (Js.Number_toString (Int ts) ++ ".") ++ rawBody))
        = Normal digest ->
        a = Buffer.to_hex digest \/ b = Buffer.to_hex digest ->
        verifyStripeSignature pf rawBody h secret
        = Normal (mkOutcome true (Some (Int ts)))).
Proof.
  split; [|split].
  - intros Hmac entries. induction entries as [|e rest IH]; [reflexivity|].
    rewrite verify_entries_step. cbv zeta. cbn [find].
    unfold candidate_passes at 1. cbv zeta.
    destruct (Js.abs_diff_gt _ _ _); cbn [negb andb]; [exact IH|].
    destruct (Hmac (Buffer.from_utf8 secret)
                (signed_payload (Js.parseInt (entry_timestamp e)) rawBody)) as [d ->].
    cbn [bindC]. destruct (decodes_to d e); [reflexivity | exact IH].
  - intros ts wrong digest Htol Hmac Hne.
    split; apply verify_built_within with (digest := digest);
      try assumption; cbn [In]; tauto.
  - intros h tstr ts a b digest Hparse Hts Htol Hmac Hab.
    destruct Hab as [-> | ->].
    + apply verify_candidate_within
        with (tstr := tstr) (v := Buffer.to_hex digest) (digest := digest);
        try assumption; try reflexivity.
      rewrite Hparse. now left.
    + apply verify_candidate_within
        with (tstr := tstr) (v := Buffer.to_hex digest) (digest := digest);
        try assumption; try reflexivity.
      rewrite Hparse. right. now left.
Qed.

Lemma verify_first_passing_candidate_witness :
  verifyStripeSignature (Sample.node Sample.uuid_ok (Sample.answers 200)) Sample.body
    (stripe_header 1700000000 [Sample.wrong_signature; Sample.sign 1700000000])
    Sample.secret
  = Normal (mkOutcome true (Some (Int 1700000000)))
  /\ verify_entries (Sample.node Sample.uuid_ok (Sample.answers 200)) Sample.body
       Sample.secret
       [mkEntry "1600000000" Sample.wrong_signature;
        mkEntry "1700000005" Sample.signature_5;
        mkEntry "1700000000" Sample.wrong_signature]
     = Normal (mkOutcome true (Some (Int 1700000005))).
Proof.
  pose proof (verify_first_passing_candidate
                (Sample.node Sample.uuid_ok (Sample.answers 200))
                Sample.body Sample.secret) as (Hfirst & Hrotated & _).
  assert (Hnear : Z.abs (currentTimestamp (Sample.node Sample.uuid_ok (Sample.answers 200))
                         - 1700000000) <= 300) by (vm_compute; discriminate).
  assert (Hdigest : Sample.digest 1700000000 <> []) by (vm_compute; discriminate).
  assert (Hcompletes : hmac_completes (Sample.node Sample.uuid_ok (Sample.answers 200)))
    by (intros key msg; eexists; reflexivity).
  split.
  - exact (proj1 (Hrotated 1700000000 Sample.wrong_signature (Sample.digest 1700000000)
                    Hnear (sample_hmac _ _ _) Hdigest)).
  - rewrite (Hfirst Hcompletes). vm_compute. reflexivity.
Defined.

Lemma no_segment (prefix h : string) :
  ~ has_segment prefix h ->
  forall part, In part (Js.split "," h) -> Js.startsWith (Js.trim part) prefix = false.
Proof.
  intros Hno part Hin.
  destruct (Js.startsWith (Js.trim part) prefix) eqn:E; [|reflexivity].
  exfalso. apply Hno. now exists part.
Qed.

(** C8.  A header without a [t=] segment parses to no candidate, however many
    [v1=] segments it has; so does a header with a timestamp and no [v1=]
    segment; and a header that parses to no candidate is invalid. *)
Theorem parse_empty_candidates (h : string) :
  (~ has_segment "t=" h -> parseStripeSignatureHeader h = [])
  /\ (forall ts, header_timestamp h = Some ts -> ~ has_segment "v1=" h ->
        parseStripeSignatureHeader h = [])
  /\ (parseStripeSignatureHeader h = [] ->
      forall pf rawBody secret,
        verifyStripeSignature pf rawBody h secret = Normal (mkOutcome false None)).
Proof.
  split; [|split].
  - intros Hno. rewrite parse_unfold. unfold header_timestamp.
    now rewrite (find_timestamp_none _ (no_segment _ _ Hno)).
  - intros ts Hts Hno. rewrite parse_unfold, Hts.
    apply collect_v1_nil, no_segment, Hno.
  - intros Hnil pf rawBody secret. unfold verifyStripeSignature.
    now rewrite Hnil.
Qed.

Lemma parse_empty_candidates_witness :
  parseStripeSignatureHeader "v1=0a1b2c,v1=abcd" = []
  /\ parseStripeSignatureHeader "t=1700000000,v0=abcd" = []
  /\ verifyStripeSignature (Sample.node Sample.uuid_ok (Sample.answers 200)) Sample.body
       "v1=0a1b2c,v1=abcd" Sample.secret
     = Normal (mkOutcome false None).
Proof.
  assert (Hno : ~ has_segment "t=" "v1=0a1b2c,v1=abcd").
  { intros (part & Hin & Hpre). vm_compute in Hin.
    destruct Hin as [<-|[<-|[]]]; vm_compute in Hpre; discriminate. }
  assert (Hv0 : ~ has_segment "v1=" "t=1700000000,v0=abcd").
  { intros (part & Hin & Hpre). vm_compute in Hin.
    destruct Hin as [<-|[<-|[]]]; vm_compute in Hpre; discriminate. }
  split; [|split].
  - exact (proj1 (parse_empty_candidates _) Hno).
  - exact (proj1 (proj2 (parse_empty_candidates "t=1700000000,v0=abcd"))
             "1700000000" eq_refl Hv0).
  - exact (proj2 (proj2 (parse_empty_candidates _))
             (proj1 (parse_empty_candidates _) Hno) _ _ _).
Defined.

(** With a keyed hash that completes, nothing in the loop raises: a timestamp
    that is not a number and a value that is not hex are read without a
    throw. *)
Lemma verify_entries_completes (pf : Platform) (rawBody secret : jsstring)
    (entries : list SignatureEntry) :
  hmac_completes pf ->
  exists outcome, verify_entries pf rawBody secret entries = Normal outcome.
Proof.
  intros Hmac. induction entries as [|e rest IH]; [now eexists|].
  rewrite verify_entries_step. cbv zeta.
  destruct (Js.abs_diff_gt _ _ _); [exact IH|].
  destruct (Hmac (Buffer.from_utf8 secret)
              (signed_payload (Js.parseInt (entry_timestamp e)) rawBody)) as [d ->].
  cbn [bindC]. destruct (decodes_to d e); [now eexists | exact IH].
Qed.

(** C9.  [verifyStripeSignature] is total: for every payload, header and secret
    it returns an outcome and never raises, whatever the platform's calls do;
    when the body of its [try] raises, the outcome is invalid.  The body raises
    only if the keyed hash does. *)
Theorem verify_total (pf : Platform) (rawBody : jsstring) (h : string) (secret : jsstring) :
  (exists outcome,
     verifyStripeSignature pf rawBody h secret = Normal outcome
     /\ (forall err,
           verify_entries pf rawBody secret (parseStripeSignatureHeader h) = Throw err ->
           outcome = mkOutcome false None))
  /\ (hmac_completes pf ->
      exists outcome,
        verify_entries pf rawBody secret (parseStripeSignatureHeader h) = Normal outcome).
Proof.
  split; [|apply verify_entries_completes].
  rewrite verify_unfold.
  destruct (verify_entries pf rawBody secret (parseStripeSignatureHeader h)) as [o|e].
  - exists o. split; [reflexivity | discriminate].
  - exists invalid_outcome. split; [reflexivity | reflexivity].
Qed.

Lemma verify_total_witness :
  verify_entries Sample.faulty Sample.body Sample.secret
    (parseStripeSignatureHeader "t=1700000000,v1=0a1b2c")
  = Throw (mkError "Error" "Unsupported state or unable to authenticate data" None)
  /\ verifyStripeSignature Sample.faulty Sample.body "t=1700000000,v1=0a1b2c"
       Sample.secret
     = Normal (mkOutcome false None).
Proof.
  assert (Hthrows : verify_entries Sample.faulty Sample.body Sample.secret
                      (parseStripeSignatureHeader "t=1700000000,v1=0a1b2c")
                    = Throw (mkError "Error"
                               "Unsupported state or unable to authenticate data" None))
    by (vm_compute; reflexivity).
  split; [exact Hthrows|].
  destruct (proj1 (verify_total Sample.faulty Sample.body "t=1700000000,v1=0a1b2c"
                     Sample.secret)) as (outcome & Hret & Hinvalid).
  rewrite Hret. f_equal. exact (Hinvalid _ Hthrows).
Defined.

(** C10.  When the timestamp of the header does not parse to a number, the
    tolerance test is false at every clock value and rejects nothing: the
    verifier answers valid exactly when some [v1] candidate's hex decoding is
    the HMAC-SHA256 of ["NaN." + payload] under the secret. *)
Theorem verify_nan_timestamp (pf : Platform) (rawBody secret : jsstring)
    (h tstr : string) (digest : list byte) :
  header_timestamp h = Some tstr ->
  Js.parseInt tstr = NaN ->
  createHmac_sha256 pf (Buffer.from_utf8 secret)
    (Buffer.from_utf8 (code_units "NaN." ++ rawBody)) = Normal digest ->
  Js.abs_diff_gt (currentTimestamp pf) (Js.parseInt tstr) TOLERANCE = false
  /\ exists outcome,
       verifyStripeSignature pf rawBody h secret = Normal outcome
       /\ (valid outcome = true <->
           exists e, In e (parseStripeSignatureHeader h)
                     /\ Buffer.from_hex (entry_signature e) = digest).
Proof.
  intros Hts Hnan Hmac.
  assert (Htol : Js.abs_diff_gt (currentTimestamp pf) (Js.parseInt tstr) TOLERANCE = false)
    by now rewrite Hnan.
  split; [exact Htol|].
  rewrite (verify_shared pf rawBody secret h tstr digest Hts Htol)
    by (rewrite Hnan; exact Hmac).
  eexists. split; [reflexivity|].
  rewrite find_decodes_to.
  destruct (find (decodes_to digest) (parseStripeSignatureHeader h)); cbn; split; congruence.
Qed.

Lemma verify_nan_timestamp_witness :
  exists outcome,
    verifyStripeSignature (Sample.node Sample.uuid_ok (Sample.answers 200)) Sample.body
      Sample.nan_header Sample.secret = Normal outcome
    /\ valid outcome = true.
Proof.
  assert (Hplain : string_forall plain "soon" = true) by reflexivity.
  assert (Hsoon : "soon" <> EmptyString) by discriminate.
  assert (Hdigest : Sample.nan_digest <> []) by (vm_compute; discriminate).
  assert (Hmac : createHmac_sha256 (Sample.node Sample.uuid_ok (Sample.answers 200))
                   (Buffer.from_utf8 Sample.secret)
                   (Buffer.from_utf8 (code_units "NaN." ++ Sample.body))
                 = Normal Sample.nan_digest).
  { unfold Sample.nan_digest, signed_payload, Sample.node.
    cbn [createHmac_sha256 Js.Number_toString]. reflexivity. }
  destruct (verify_nan_timestamp (Sample.node Sample.uuid_ok (Sample.answers 200))
              Sample.body Sample.secret Sample.nan_header "soon" Sample.nan_digest
              (built_header_timestamp "soon" _ Hplain Hsoon) eq_refl Hmac)
    as (_ & outcome & Hret & Hiff).
  exists outcome. split; [exact Hret|]. apply Hiff.
  exists (mkEntry "soon" (Buffer.to_hex Sample.nan_digest)).
  split; [|apply from_hex_to_hex].
  exact (built_header_candidate "soon" [Buffer.to_hex Sample.nan_digest] Hplain Hsoon
           (Buffer.to_hex Sample.nan_digest) (or_introl eq_refl)
           (to_hex_plain _) (to_hex_nonempty _ Hdigest)).
Defined.

(** ** The forwarder *)

Lemma V1_forward_run (pf : Platform) (env : ProcessEnv) (rawBody : jsstring) (sig : string) :
  V1.forwardToSupabase pf env rawBody sig
  = if negb (truthy (SUPABASE_INTERNAL_WEBHOOK_URL env))
       || negb (truthy (SUPABASE_SERVICE_ROLE_KEY env))
    then (Normal (mkForwardResult false None None None), [])
    else (Normal (match fetch pf (V1_outbound env rawBody sig) with
                  | Normal answer => classify answer
                  | Throw _ => mkForwardResult false None None None
                  end),
          [V1_outbound env rawBody sig]).
Proof.
  unfold V1.forwardToSupabase.
  destruct (negb (truthy (SUPABASE_INTERNAL_WEBHOOK_URL env))
            || negb (truthy (SUPABASE_SERVICE_ROLE_KEY env))); [reflexivity|].
  fold (V1_outbound env rawBody sig).
  unfold try_catchE, bindE, do_fetch, ret, classify.
  destruct (fetch pf (V1_outbound env rawBody sig)) as [answer|err]; [|reflexivity].
  now destruct (response_ok answer).
Qed.

Lemma V2_forward_run (pf : Platform) (env : ProcessEnv) (rawBody : jsstring)
    (sig contentType : string) (pingMode : bool) :
  let url := Js.trim (the (SUPABASE_INTERNAL_WEBHOOK_URL env)) in
  let init := V2_outbound pf env rawBody sig contentType pingMode in
  V2.forwardToSupabase pf env rawBody sig contentType pingMode
  = if negb (truthy (option_map Js.trim (INTERNAL_EDGE_AUTH_TOKEN env))) then
      (Normal (mkForwardResult false None (Some "INTERNAL_EDGE_AUTH_TOKEN missing") None), [])
    else if negb (truthy (Some url)) then
      (Normal (mkForwardResult false None (Some "Server configuration error") None), [])
    else match URL_new pf url with
         | Throw _ =>
             (Normal (mkForwardResult false None
                        (Some "Invalid SUPABASE_INTERNAL_WEBHOOK_URL") None), [])
         | Normal parsedUrl =>
             if negb (String.eqb (url_protocol parsedUrl) "https:") then
               (Normal (mkForwardResult false None
                          (Some "SUPABASE_INTERNAL_WEBHOOK_URL must use https protocol")
                          None), [])
             else
               (Normal (match fetch pf init with
                        | Normal answer => classify answer
                        | Throw err =>
                            mkForwardResult false (Some 502) None (Some (V2_gateway err))
                        end),
                [init])
         end.
Proof.
  cbv zeta. unfold V2.forwardToSupabase.
  replace (match SUPABASE_INTERNAL_WEBHOOK_URL env with
           | Some s => Js.trim s
           | None => EmptyString
           end) with (Js.trim (the (SUPABASE_INTERNAL_WEBHOOK_URL env)))
    by now destruct (SUPABASE_INTERNAL_WEBHOOK_URL env).
  destruct (negb (truthy (option_map Js.trim (INTERNAL_EDGE_AUTH_TOKEN env)))); [reflexivity|].
  destruct (negb (truthy (Some (Js.trim (the (SUPABASE_INTERNAL_WEBHOOK_URL env))))));
    [reflexivity|].
  destruct (URL_new pf _) as [parsedUrl|e]; [|reflexivity].
  destruct (negb (String.eqb (url_protocol parsedUrl) "https:")); [reflexivity|].
  fold (V2_outbound pf env rawBody sig contentType pingMode).
  unfold try_catchE, bindE, do_fetch, ret, classify.
  destruct (fetch pf (V2_outbound pf env rawBody sig contentType pingMode)) as [answer|err];
    [|reflexivity].
  now destruct (response_ok answer).
Qed.

(** ** The handler *)

Lemma safeJsonParseForLog_returns (pf : Platform) (rawBody : jsstring) :
  exists info, safeJsonParseForLog pf rawBody = Normal info.
Proof.
  unfold safeJsonParseForLog, try_catch.
  destruct (JSON_parse_event pf rawBody); now eexists.
Qed.

Lemma bindE_normal {A B} (a : A) (k : A -> Eff B) : bindE (liftC (Normal a)) k = k a.
Proof. unfold bindE, liftC. now destruct (k a). Qed.

Lemma bindE_throw {A B} (e : JsError) (k : A -> Eff B) :
  bindE (liftC (Throw e)) k = (Throw e, []).
Proof. reflexivity. Qed.

(** What the handler does once the forwarder has run. *)
Lemma after_forward (run : Eff ForwardResult) (answer : ForwardResult -> Response)
    (k : ForwardResult -> Eff Response) :
  (forall forwardResult, k forwardResult = ret (answer forwardResult)) ->
  try_catchE (bindE run k) (fun _ => ret internal_error)
  = (match result run with
     | Normal forwardResult => Normal (answer forwardResult)
     | Throw _ => Normal internal_error
     end, network_calls run).
Proof.
  intros Hk. destruct run as [[fr|e] calls]; cbn [bindE result network_calls fst snd].
  - rewrite Hk. cbn. now rewrite app_nil_r.
  - cbn. now rewrite app_nil_r.
Qed.

Ltac enter_handler :=
  match goal with
  | |- context [request_text ?r] => destruct (request_text r) as [rawBody|e]
  end;
  [rewrite bindE_normal | rewrite bindE_throw].

Lemma V1_POST_verified (pf : Platform) (env : ProcessEnv) (request : Request) :
  verified pf env request = true ->
  V1.POST pf env request
  = let run := V1_forwarding pf env request in
    (match result run with
     | Normal forwardResult => Normal (V1_answer forwardResult)
     | Throw _ => Normal internal_error
     end, network_calls run).
Proof.
  unfold verified, V1.POST, V1_forwarding, V1_logged, request_body. cbv zeta.
  enter_handler; [|discriminate].
  destruct (truthy (request_headers_get request "stripe-signature")); [|discriminate].
  destruct (truthy_js (STRIPE_WEBHOOK_SECRET env)); [|discriminate].
  destruct (verify_returns pf rawBody (the_js (STRIPE_WEBHOOK_SECRET env))
              (the (request_headers_get request "stripe-signature"))) as [outcome Hv].
  rewrite Hv, bindE_normal. cbn [andb negb]. intros ->. cbn [negb].
  destruct (safeJsonParseForLog_returns pf rawBody) as [info ->].
  rewrite bindE_normal. cbn [bindC].
  destruct (V1.received_log info) as [line|e].
  - rewrite !bindE_normal. apply after_forward.
    intros fr. unfold V1_answer. now destruct (success fr).
  - rewrite !bindE_throw. reflexivity.
Qed.

(** The two ways the first variant goes on with a verified request: the log
    line raises and nothing is forwarded, or the forwarder runs. *)
Lemma V1_forwarding_cases (pf : Platform) (env : ProcessEnv) (request : Request) :
  (exists e, V1_logged pf request = Throw e
             /\ V1_forwarding pf env request = (Throw e, []))
  \/ (exists line, V1_logged pf request = Normal line
                   /\ V1_forwarding pf env request
                      = V1.forwardToSupabase pf env (request_body request)
                          (the (request_headers_get request "stripe-signature"))).
Proof.
  unfold V1_forwarding. destruct (V1_logged pf request) as [line|e].
  - right. exists line. split; [reflexivity|]. now rewrite bindE_normal.
  - left. exists e. split; [reflexivity|]. now rewrite bindE_throw.
Qed.

Lemma V1_forwarding_calls (pf : Platform) (env : ProcessEnv) (request : Request)
    (init : FetchInit) :
  In init (network_calls (V1_forwarding pf env request)) ->
  V1_forwarding pf env request
  = V1.forwardToSupabase pf env (request_body request)
      (the (request_headers_get request "stripe-signature")).
Proof.
  destruct (V1_forwarding_cases pf env request) as [(e & _ & ->) | (line & _ & ->)];
    [intros [] | reflexivity].
Qed.

Lemma V1_POST_unverified (pf : Platform) (env : ProcessEnv) (request : Request) :
  verified pf env request = false ->
  exists code message,
    V1.POST pf env request = (Normal (json_response code (Body_error message)), [])
    /\ (code = 400 \/ code = 500).
Proof.
  unfold verified, V1.POST. cbv zeta.
  enter_handler.
  2:{ intros _. do 2 eexists. split; [reflexivity | now right]. }
  destruct (truthy (request_headers_get request "stripe-signature")).
  2:{ intros _. do 2 eexists. split; [reflexivity | now left]. }
  destruct (truthy_js (STRIPE_WEBHOOK_SECRET env)).
  2:{ intros _. do 2 eexists. split; [reflexivity | now right]. }
  destruct (verify_returns pf rawBody (the_js (STRIPE_WEBHOOK_SECRET env))
              (the (request_headers_get request "stripe-signature"))) as [outcome Hv].
  rewrite Hv, bindE_normal. cbn [andb negb]. intros ->.
  do 2 eexists. split; [reflexivity | now left].
Qed.

Lemma V2_POST_prologue (pf : Platform) (env : ProcessEnv) (request : Request)
    (e : JsError) :
  randomUUID pf = Throw e -> V2.POST pf env request = (Throw e, []).
Proof. unfold V2.POST. intros ->. now rewrite bindE_throw. Qed.

Lemma V2_POST_verified (pf : Platform) (env : ProcessEnv) (request : Request)
    (requestId : string) :
  randomUUID pf = Normal requestId ->
  verified pf env request = true ->
  V2.POST pf env request
  = let run := V2.forwardToSupabase pf env (request_body request)
                 (the (request_headers_get request "stripe-signature"))
                 (inbound_content_type request) (ping_mode env) in
    (match result run with
     | Normal forwardResult => Normal (V2_answer forwardResult)
     | Throw _ => Normal internal_error
     end, network_calls run).
Proof.
  unfold verified, V2.POST, request_body. cbv zeta. intros ->. rewrite bindE_normal.
  enter_handler; [|discriminate].
  destruct (truthy (request_headers_get request "stripe-signature")); [|discriminate].
  destruct (truthy_js (STRIPE_WEBHOOK_SECRET env)); [|discriminate].
  destruct (verify_returns pf rawBody (the_js (STRIPE_WEBHOOK_SECRET env))
              (the (request_headers_get request "stripe-signature"))) as [outcome Hv].
  rewrite Hv, bindE_normal. cbn [andb negb]. intros ->. cbn [negb].
  destruct (safeJsonParseForLog_returns pf rawBody) as [info ->].
  rewrite bindE_normal. apply after_forward.
  intros fr. unfold V2_answer. destruct (success fr); [reflexivity|]. cbn [negb].
  destruct (gatewayError fr); [reflexivity|].
  now destruct (truthy (forwardError fr)).
Qed.

Lemma V2_POST_unverified (pf : Platform) (env : ProcessEnv) (request : Request)
    (requestId : string) :
  randomUUID pf = Normal requestId ->
  verified pf env request = false ->
  exists code message,
    V2.POST pf env request = (Normal (json_response code (Body_error message)), [])
    /\ (code = 400 \/ code = 500).
Proof.
  unfold verified, V2.POST. cbv zeta. intros ->. rewrite bindE_normal.
  enter_handler.
  2:{ intros _. do 2 eexists. split; [reflexivity | now right]. }
  destruct (truthy (request_headers_get request "stripe-signature")).
  2:{ intros _. do 2 eexists. split; [reflexivity | now left]. }
  destruct (truthy_js (STRIPE_WEBHOOK_SECRET env)).
  2:{ intros _. do 2 eexists. split; [reflexivity | now right]. }
  destruct (verify_returns pf rawBody (the_js (STRIPE_WEBHOOK_SECRET env))
              (the (request_headers_get request "stripe-signature"))) as [outcome Hv].
  rewrite Hv, bindE_normal. cbn [andb negb]. intros ->.
  do 2 eexists. split; [reflexivity | now left].
Qed.

Lemma response_ok_2xx (answer : FetchResponse) :
  response_ok answer = true <-> is_2xx (response_status answer).
Proof. unfold response_ok, is_2xx. rewrite andb_true_iff, !Z.leb_le. tauto. Qed.

Lemma V1_forward_shape (pf : Platform) (env : ProcessEnv) (rawBody : jsstring) (sig : string) :
  forward_run pf (V1.forwardToSupabase pf env rawBody sig).
Proof.
  rewrite V1_forward_run.
  destruct (negb _ || negb _).
  - now apply not_attempted.
  - now apply (attempted pf _ (fun _ => mkForwardResult false None None None)).
Qed.

Lemma V2_forward_shape (pf : Platform) (env : ProcessEnv) (rawBody : jsstring)
    (sig contentType : string) (pingMode : bool) :
  forward_run pf (V2.forwardToSupabase pf env rawBody sig contentType pingMode).
Proof.
  rewrite V2_forward_run. cbv zeta.
  destruct (negb _); [now apply not_attempted|].
  destruct (negb _); [now apply not_attempted|].
  destruct (URL_new pf _) as [u|e]; [|now apply not_attempted].
  destruct (negb _); [now apply not_attempted|].
  now apply (attempted pf _
               (fun err => mkForwardResult false (Some 502) None (Some (V2_gateway err)))).
Qed.

Lemma V1_answer_ok (fr : ForwardResult) :
  V1_answer fr = json_response 200 Body_ok <-> success fr = true.
Proof. unfold V1_answer, json_response. destruct (success fr); split; congruence. Qed.

Lemma V2_answer_ok (fr : ForwardResult) :
  V2_answer fr = json_response 200 Body_ok <-> success fr = true.
Proof.
  unfold V2_answer, json_response. destruct (success fr); [split; congruence|].
  destruct (gatewayError fr); [split; discriminate|].
  destruct (truthy (forwardError fr)); split; discriminate.
Qed.

Lemma V1_answer_code (fr : ForwardResult) :
  success fr = false -> ~ is_2xx (response_code (V1_answer fr)).
Proof. unfold V1_answer, is_2xx. intros ->. cbn. lia. Qed.

Lemma V2_answer_code (fr : ForwardResult) :
  success fr = false -> ~ is_2xx (response_code (V2_answer fr)).
Proof.
  unfold V2_answer, is_2xx. intros ->.
  destruct (gatewayError fr); [cbn; lia|].
  destruct (truthy (forwardError fr)); cbn; lia.
Qed.

(** A handler that, on a verified request, runs the forwarder and answers its
    result, and otherwise answers an error without a call, relays the
    downstream status. *)
Lemma relay_from_shape (pf : Platform) (env : ProcessEnv) (request : Request)
    (run : Eff ForwardResult) (answer : ForwardResult -> Response) (post : Eff Response) :
  forward_run pf run \/ (exists e, run = (Throw e, [])) ->
  (forall fr, answer fr = json_response 200 Body_ok <-> success fr = true) ->
  (forall fr, success fr = false -> ~ is_2xx (response_code (answer fr))) ->
  (verified pf env request = true ->
   post = (match result run with
           | Normal fr => Normal (answer fr)
           | Throw _ => Normal internal_error
           end, network_calls run)) ->
  (verified pf env request = false ->
   network_calls post = []
   /\ result post <> Normal (json_response 200 Body_ok)) ->
  (result post = Normal (json_response 200 Body_ok)
   <-> verified pf env request = true
       /\ exists init a, forwarded pf post init (Normal a) /\ is_2xx (response_status a))
  /\ (forall init a,
        forwarded pf post init (Normal a) -> ~ is_2xx (response_status a) ->
        exists response, result post = Normal response /\ ~ is_2xx (response_code response)).
Proof.
  intros Hrun Hok Hcode Hyes Hno. unfold forwarded.
  destruct (verified pf env request) eqn:V.
  - rewrite (Hyes eq_refl). clear Hyes Hno.
    destruct Hrun as [[failure Hfail | init on_throw Hthrow] | [e ->]];
      cbn [result network_calls fst snd].
    + split.
      * split.
        -- intros [= H]. apply Hok in H. congruence.
        -- intros (_ & i & a & [[=] _] & _).
      * intros i a [[=] _].
    + split.
      * split.
        -- intros [= H]. apply Hok in H. split; [reflexivity|].
           destruct (fetch pf init) as [a|e] eqn:F.
           ++ exists init, a. split; [split; [reflexivity | exact F]|].
              now apply response_ok_2xx.
           ++ rewrite Hthrow in H. discriminate.
        -- intros (_ & i & a & [[= <-] F] & H2). rewrite F. f_equal.
           apply Hok. now apply response_ok_2xx.
      * intros i a [[= <-] F] Hn. rewrite F. eexists. split; [reflexivity|].
        apply Hcode. cbn. destruct (response_ok a) eqn:E; [|reflexivity].
        now apply response_ok_2xx in E.
    + split.
      * split; [discriminate | intros (_ & i & a & [[=] _] & _)].
      * intros i a [[=] _].
  - destruct (Hno eq_refl) as [Hcalls Hres]. split.
    + split; [intros H; now elim Hres | intros [[=] _]].
    + intros i a [H _]. rewrite Hcalls in H. discriminate.
Qed.

(** The sample request verifies on the sample platform. *)
Example signed_header_built :
  Sample.signed_header = stripe_header 1700000000 [Sample.sign 1700000000].
Proof. vm_compute. reflexivity. Qed.

Lemma sample_verified (uuid : Completion string)
    (downstream : FetchInit -> Completion FetchResponse)
    (destination : string) (ping contentType : option string) :
  verified (Sample.node uuid downstream) (Sample.env destination ping)
    (Sample.request (Some Sample.signed_header) contentType) = true.
Proof. vm_compute. reflexivity. Qed.

(** On the sample platform the parse for the log gives two strings, and the log
    line completes. *)
Lemma sample_logged (uuid : Completion string)
    (downstream : FetchInit -> Completion FetchResponse) (request : Request) :
  V1_logged (Sample.node uuid downstream) request
  = Normal (Some (code_units "Stripe webhook: x (evt_1)")).
Proof. reflexivity. Qed.

Lemma sample_forwarding (uuid : Completion string)
    (downstream : FetchInit -> Completion FetchResponse) (env : ProcessEnv)
    (signature contentType : option string) :
  V1_forwarding (Sample.node uuid downstream) env (Sample.request signature contentType)
  = V1.forwardToSupabase (Sample.node uuid downstream) env Sample.body (the signature).
Proof. unfold V1_forwarding. rewrite sample_logged, bindE_normal. reflexivity. Qed.

(** The sample request on the sample platform: both variants reach the
    forwarder. *)
Lemma sample_V1_POST (downstream : FetchInit -> Completion FetchResponse)
    (destination : string) (ping contentType : option string) :
  V1.POST (Sample.node Sample.uuid_ok downstream) (Sample.env destination ping)
    (Sample.request (Some Sample.signed_header) contentType)
  = (match result (V1.forwardToSupabase (Sample.node Sample.uuid_ok downstream)
                     (Sample.env destination ping) Sample.body Sample.signed_header) with
     | Normal forwardResult => Normal (V1_answer forwardResult)
     | Throw _ => Normal internal_error
     end,
     network_calls (V1.forwardToSupabase (Sample.node Sample.uuid_ok downstream)
                      (Sample.env destination ping) Sample.body Sample.signed_header)).
Proof.
  rewrite (V1_POST_verified (Sample.node Sample.uuid_ok downstream)
             (Sample.env destination ping)
             (Sample.request (Some Sample.signed_header) contentType)
             (sample_verified Sample.uuid_ok downstream destination ping contentType)).
  cbv zeta.
  rewrite (sample_forwarding Sample.uuid_ok downstream (Sample.env destination ping)
             (Some Sample.signed_header) contentType).
  reflexivity.
Qed.

Lemma sample_V2_POST (downstream : FetchInit -> Completion FetchResponse)
    (destination : string) (ping contentType : option string) :
  V2.POST (Sample.node Sample.uuid_ok downstream) (Sample.env destination ping)
    (Sample.request (Some Sample.signed_header) contentType)
  = (match result (V2.forwardToSupabase (Sample.node Sample.uuid_ok downstream)
                     (Sample.env destination ping) Sample.body Sample.signed_header
                     (inbound_content_type
                        (Sample.request (Some Sample.signed_header) contentType))
                     (ping_mode (Sample.env destination ping))) with
     | Normal forwardResult => Normal (V2_answer forwardResult)
     | Throw _ => Normal internal_error
     end,
     network_calls (V2.forwardToSupabase (Sample.node Sample.uuid_ok downstream)
                      (Sample.env destination ping) Sample.body Sample.signed_header
                      (inbound_content_type
                         (Sample.request (Some Sample.signed_header) contentType))
                      (ping_mode (Sample.env destination ping)))).
Proof.
  exact (V2_POST_verified (Sample.node Sample.uuid_ok downstream)
           (Sample.env destination ping)
           (Sample.request (Some Sample.signed_header) contentType)
           "3f0c2b1e-8a4d-4c57-9e21-6b7f5a0d9c11" eq_refl
           (sample_verified Sample.uuid_ok downstream destination ping contentType)).
Qed.

Lemma destination_defect_checks (pf : Platform) (env : ProcessEnv) :
  let url := Js.trim (the (SUPABASE_INTERNAL_WEBHOOK_URL env)) in
  destination_defect pf env
  <-> negb (truthy (Some url)) = true
      \/ match URL_new pf url with
         | Throw _ => True
         | Normal u => negb (String.eqb (url_protocol u) "https:") = true
         end.
Proof.
  cbv zeta. unfold destination_defect. cbv zeta.
  set (url := Js.trim (the (SUPABASE_INTERNAL_WEBHOOK_URL env))).
  split.
  - intros [H | [[e H] | (u & H & Hp)]].
    + left. now rewrite H.
    + right. now rewrite H.
    + right. rewrite H. apply negb_true_iff, String.eqb_neq, Hp.
  - intros [H | H].
    + left. destruct url; [reflexivity | discriminate].
    + right. destruct (URL_new pf url) as [u|e] eqn:E.
      * right. exists u. split; [reflexivity|].
        now apply String.eqb_neq, negb_true_iff.
      * left. now exists e.
Qed.

(** The runs of a forwarder, or a run that raised before the forwarder. *)
Lemma V1_forwarding_shape (pf : Platform) (env : ProcessEnv) (request : Request) :
  forward_run pf (V1_forwarding pf env request)
  \/ (exists e, V1_forwarding pf env request = (Throw e, [])).
Proof.
  destruct (V1_forwarding_cases pf env request) as [(e & _ & ->) | (line & _ & ->)].
  - right. now exists e.
  - left. apply V1_forward_shape.
Qed.

Lemma V1_POST_forwards (pf : Platform) (env : ProcessEnv) (request : Request) :
  forwards_and_answers (V1.POST pf env request) pf (V1_reaches_forwarder pf env request)
    (V1_outbound env (request_body request)
       (the (request_headers_get request "stripe-signature"))).
Proof.
  unfold forwards_and_answers, V1_reaches_forwarder.
  destruct (verified pf env request) eqn:V.
  2:{ destruct (V1_POST_unverified pf env request V) as (c & m & -> & _).
      split; [split; [intros [[=] _] | discriminate] | intros [[=] _]]. }
  rewrite (V1_POST_verified pf env request V). cbv zeta.
  destruct (V1_forwarding_cases pf env request) as [(e & L & ->) | (line & L & ->)];
    rewrite L.
  - cbn [result network_calls fst snd].
    split; [split; [intros (_ & [l [=]] & _) | discriminate] | intros (_ & [l [=]] & _)].
  - rewrite V1_forward_run.
    destruct (truthy (SUPABASE_INTERNAL_WEBHOOK_URL env));
      destruct (truthy (SUPABASE_SERVICE_ROLE_KEY env));
      cbn [negb orb result network_calls fst snd];
      try (split; [split; [intros (_ & _ & H1 & H2); discriminate | discriminate]
                  | intros (_ & _ & H1 & H2); discriminate]).
    split.
    + split; [reflexivity | intros _; repeat split; now exists line].
    + intros _ answer F. rewrite F. unfold V1_answer, classify. cbn [success].
      now destruct (response_ok answer).
Qed.

Lemma V2_POST_forwards (pf : Platform) (env : ProcessEnv) (request : Request) :
  forwards_and_answers (V2.POST pf env request) pf (V2_reaches_forwarder pf env request)
    (V2_outbound pf env (request_body request)
       (the (request_headers_get request "stripe-signature"))
       (inbound_content_type request) (ping_mode env)).
Proof.
  unfold forwards_and_answers, V2_reaches_forwarder.
  destruct (randomUUID pf) as [requestId|e] eqn:U.
  2:{ rewrite (V2_POST_prologue pf env request e U).
      split; [split; [intros [[r [=]] _] | discriminate] | intros [[r [=]] _]]. }
  destruct (verified pf env request) eqn:V.
  2:{ destruct (V2_POST_unverified pf env request requestId U V) as (c & m & -> & _).
      split; [split; [intros (_ & [=] & _) | discriminate] | intros (_ & [=] & _)]. }
  rewrite (V2_POST_verified pf env request requestId U V). cbv zeta.
  rewrite V2_forward_run. cbv zeta.
  pose proof (destination_defect_checks pf env) as D. cbv zeta in D.
  destruct (truthy (option_map Js.trim (INTERNAL_EDGE_AUTH_TOKEN env))); cbn [negb].
  2:{ cbn [result network_calls fst snd].
      split; [split; [intros (_ & _ & [=] & _) | discriminate] | intros (_ & _ & [=] & _)]. }
  destruct (negb (truthy (Some (Js.trim (the (SUPABASE_INTERNAL_WEBHOOK_URL env)))))).
  { assert (Hd : destination_defect pf env) by (apply D; now left).
    cbn [result network_calls fst snd].
    split; [split; [intros (_ & _ & _ & H); now elim H | discriminate]
           | intros (_ & _ & _ & H); now elim H]. }
  destruct (URL_new pf _) as [u|e].
  2:{ assert (Hd : destination_defect pf env) by (apply D; now right).
      cbn [result network_calls fst snd].
      split; [split; [intros (_ & _ & _ & H); now elim H | discriminate]
             | intros (_ & _ & _ & H); now elim H]. }
  destruct (negb (String.eqb (url_protocol u) "https:")).
  { assert (Hd : destination_defect pf env) by (apply D; now right).
    cbn [result network_calls fst snd].
    split; [split; [intros (_ & _ & _ & H); now elim H | discriminate]
           | intros (_ & _ & _ & H); now elim H]. }
  assert (Hn : ~ destination_defect pf env).
  { intros Hd. apply D in Hd. destruct Hd as [[=] | [=]]. }
  cbn [result network_calls fst snd]. split.
  - split; [reflexivity | intros _; repeat split; [now exists requestId | exact Hn]].
  - intros _ answer F. rewrite F. unfold V2_answer, classify.
    cbn [success gatewayError forwardError truthy].
    now destruct (response_ok answer).
Qed.

(** C6.  In both variants the handler answers 200 with [{ ok: true }] if and
    only if the signature verified and the outbound call returned a status in
    200-299; a returned status outside 200-299 gives the sender a response
    outside 2xx.  The call is made, once, exactly for a verified request that
    reaches the forwarder with its configuration in place, and the handler
    then answers 200 with [{ ok: true }] when the downstream returns a status
    in 200-299 and 500 when it returns another. *)
Theorem POST_ok_iff_verified_and_2xx :
  (relays_downstream_status V1.POST /\ relays_downstream_status V2.POST)
  /\ (forall pf env request,
        forwards_and_answers (V1.POST pf env request) pf
          (V1_reaches_forwarder pf env request)
          (V1_outbound env (request_body request)
             (the (request_headers_get request "stripe-signature"))))
  /\ (forall pf env request,
        forwards_and_answers (V2.POST pf env request) pf
          (V2_reaches_forwarder pf env request)
          (V2_outbound pf env (request_body request)
             (the (request_headers_get request "stripe-signature"))
             (inbound_content_type request) (ping_mode env))).
Proof.
  split; [|split; [exact V1_POST_forwards | exact V2_POST_forwards]].
  split; intros pf env request.
  - apply relay_from_shape with (run := V1_forwarding pf env request)
                                (answer := V1_answer).
    + apply V1_forwarding_shape.
    + apply V1_answer_ok.
    + apply V1_answer_code.
    + apply V1_POST_verified.
    + intros V. destruct (V1_POST_unverified pf env request V) as (c & m & -> & _).
      split; [reflexivity | discriminate].
  - destruct (randomUUID pf) as [requestId|e] eqn:U.
    + apply relay_from_shape
        with (run := V2.forwardToSupabase pf env (request_body request)
                       (the (request_headers_get request "stripe-signature"))
                       (inbound_content_type request) (ping_mode env))
             (answer := V2_answer).
      * left. apply V2_forward_shape.
      * apply V2_answer_ok.
      * apply V2_answer_code.
      * apply (V2_POST_verified pf env request requestId U).
      * intros V.
        destruct (V2_POST_unverified pf env request requestId U V) as (c & m & -> & _).
        split; [reflexivity | discriminate].
    + rewrite (V2_POST_prologue pf env request e U). unfold forwarded. cbn. split.
      * split; [discriminate | intros (_ & i & a & [[=] _] & _)].
      * intros i a [[=] _].
Qed.

Lemma POST_ok_iff_verified_and_2xx_witness :
  result (V1.POST (Sample.node Sample.uuid_ok (Sample.answers 204))
            (Sample.env Sample.url None)
            (Sample.request (Some Sample.signed_header) None))
  = Normal (json_response 200 Body_ok)
  /\ result (V2.POST (Sample.node Sample.uuid_ok (Sample.answers 204))
               (Sample.env Sample.url None)
               (Sample.request (Some Sample.signed_header) None))
     = Normal (json_response 200 Body_ok).
Proof.
  assert (V : verified (Sample.node Sample.uuid_ok (Sample.answers 204))
                (Sample.env Sample.url None)
                (Sample.request (Some Sample.signed_header) None) = true)
    by exact (sample_verified Sample.uuid_ok (Sample.answers 204) Sample.url None None).
  assert (R1 : V1_reaches_forwarder (Sample.node Sample.uuid_ok (Sample.answers 204))
                 (Sample.env Sample.url None)
                 (Sample.request (Some Sample.signed_header) None)).
  { split; [exact V|]. split; [|split; reflexivity].
    exists (Some (code_units "Stripe webhook: x (evt_1)")). reflexivity. }
  assert (R2 : V2_reaches_forwarder (Sample.node Sample.uuid_ok (Sample.answers 204))
                 (Sample.env Sample.url None)
                 (Sample.request (Some Sample.signed_header) None)).
  { split; [now eexists|]. split; [exact V|]. split; [reflexivity|].
    intros [H | [[e H] | (u & H & Hp)]].
    - revert H. vm_compute. discriminate.
    - revert H. vm_compute. discriminate.
    - revert H Hp. vm_compute. intros [= <-] Hp. now apply Hp. }
  split.
  - exact (proj2 (proj1 (proj2 POST_ok_iff_verified_and_2xx)
                    (Sample.node Sample.uuid_ok (Sample.answers 204))
                    (Sample.env Sample.url None)
                    (Sample.request (Some Sample.signed_header) None))
             R1 (mkFetchResponse 204) eq_refl).
  - exact (proj2 (proj2 (proj2 POST_ok_iff_verified_and_2xx)
                    (Sample.node Sample.uuid_ok (Sample.answers 204))
                    (Sample.env Sample.url None)
                    (Sample.request (Some Sample.signed_header) None))
             R2 (mkFetchResponse 204) eq_refl).
Defined.

(** C2.  In the first variant no exception leaves the handler, and a failed
    read of the body is answered with 500 and the generic message.  In the
    second variant the call of [randomUUID] precedes the [try]: when it raises,
    the exception leaves the handler; when it returns, the handler behaves as
    the first. *)
Theorem POST_fault_containment :
  never_throws V1.POST
  /\ (forall pf env request e,
        request_text request = Throw e ->
        V1.POST pf env request = (Normal internal_error, []))
  /\ (forall pf env request e,
        randomUUID pf = Throw e -> V2.POST pf env request = (Throw e, []))
  /\ (forall pf env request requestId,
        randomUUID pf = Normal requestId ->
        (exists response, result (V2.POST pf env request) = Normal response)
        /\ (forall e, request_text request = Throw e ->
                      V2.POST pf env request = (Normal internal_error, []))).
Proof.
  split; [|split; [|split]].
  - intros pf env request. destruct (verified pf env request) eqn:V.
    + rewrite (V1_POST_verified pf env request V). cbv zeta. cbn [result fst].
      destruct (result _); now eexists.
    + destruct (V1_POST_unverified pf env request V) as (c & m & -> & _). now eexists.
  - intros pf env request e H. unfold V1.POST. rewrite H, bindE_throw. reflexivity.
  - intros pf env request e. apply V2_POST_prologue.
  - intros pf env request requestId U. split.
    + destruct (verified pf env request) eqn:V.
      * rewrite (V2_POST_verified pf env request requestId U V). cbv zeta. cbn [result fst].
        destruct (result _); now eexists.
      * destruct (V2_POST_unverified pf env request requestId U V) as (c & m & -> & _).
        now eexists.
    + intros e H. unfold V2.POST. rewrite U, bindE_normal, H, bindE_throw. reflexivity.
Qed.

Lemma POST_fault_containment_witness :
  V2.POST (Sample.node Sample.uuid_unbound (Sample.answers 200))
    (Sample.env Sample.url None)
    (Sample.request (Some Sample.signed_header) None)
  = (Throw (mkError "ReferenceError" "randomUUID is not defined" None), []).
Proof.
  exact (proj1 (proj2 (proj2 POST_fault_containment))
           (Sample.node Sample.uuid_unbound (Sample.answers 200))
           (Sample.env Sample.url None)
           (Sample.request (Some Sample.signed_header) None) _ eq_refl).
Defined.

(** C3, as stated, fails on the first variant: a verified request whose
    outbound call raised is answered 500. *)
Lemma V1_unreachable_answers_500 : ~ answers_502_when_unreachable V1.POST.
Proof.
  intros H.
  assert (Hrun : V1.POST (Sample.node Sample.uuid_ok Sample.unreachable)
                   (Sample.env Sample.url None)
                   (Sample.request (Some Sample.signed_header) None)
                 = (Normal (json_response 500 (Body_error "Failed to forward webhook")),
                    [V1_outbound (Sample.env Sample.url None) Sample.body
                       Sample.signed_header])).
  { rewrite (sample_V1_POST Sample.unreachable Sample.url None None).
    vm_compute. reflexivity. }
  destruct (H (Sample.node Sample.uuid_ok Sample.unreachable)
              (Sample.env Sample.url None)
              (Sample.request (Some Sample.signed_header) None)
              (V1_outbound (Sample.env Sample.url None) Sample.body Sample.signed_header)
              Sample.connection_refused (sample_verified _ _ _ _ _))
    as (response & Hres & Hcode).
  - rewrite Hrun. split; reflexivity.
  - rewrite Hrun in Hres. injection Hres as <-. discriminate Hcode.
Qed.

(** C3, amended.  When the one outbound call of a verified request raises, the
    second variant answers 502 with the gateway error's name, message and
    cause code; the first variant answers 500. *)
Theorem POST_unreachable_downstream :
  answers_502_when_unreachable V2.POST
  /\ (forall pf env request init e,
        forwarded pf (V2.POST pf env request) init (Throw e) ->
        result (V2.POST pf env request)
        = Normal (json_response 502
                    (Body_error_details "Failed to forward to Supabase" (V2_gateway e))))
  /\ (forall pf env request init e,
        forwarded pf (V1.POST pf env request) init (Throw e) ->
        result (V1.POST pf env request)
        = Normal (json_response 500 (Body_error "Failed to forward webhook"))).
Proof.
  assert (H2 : forall pf env request init e,
             forwarded pf (V2.POST pf env request) init (Throw e) ->
             result (V2.POST pf env request)
             = Normal (json_response 502
                         (Body_error_details "Failed to forward to Supabase"
                            (V2_gateway e)))).
  { intros pf env request init e [Hcalls Hfetch].
    destruct (randomUUID pf) as [requestId|err] eqn:U.
    2:{ rewrite (V2_POST_prologue pf env request err U) in Hcalls. discriminate. }
    destruct (verified pf env request) eqn:V.
    2:{ destruct (V2_POST_unverified pf env request requestId U V) as (c & m & Hp & _).
        rewrite Hp in Hcalls. discriminate. }
    rewrite (V2_POST_verified pf env request requestId U V) in *.
    cbv zeta in *. cbn [result network_calls fst snd] in *.
    rewrite V2_forward_run in *. cbv zeta in *.
    destruct (negb (truthy (option_map Js.trim (INTERNAL_EDGE_AUTH_TOKEN env))));
      [discriminate|].
    destruct (negb (truthy (Some (Js.trim (the (SUPABASE_INTERNAL_WEBHOOK_URL env))))));
      [discriminate|].
    destruct (URL_new pf _) as [u|err]; [|discriminate].
    destruct (negb (String.eqb (url_protocol u) "https:")); [discriminate|].
    cbn [fst snd] in *. injection Hcalls as Hinit. rewrite Hinit, Hfetch. reflexivity. }
  split; [|split].
  - intros pf env request init e _ Hf. eexists. split; [apply (H2 _ _ _ _ _ Hf) | reflexivity].
  - exact H2.
  - intros pf env request init e [Hcalls Hfetch].
    destruct (verified pf env request) eqn:V.
    2:{ destruct (V1_POST_unverified pf env request V) as (c & m & Hp & _).
        rewrite Hp in Hcalls. discriminate. }
    rewrite (V1_POST_verified pf env request V) in *.
    cbv zeta in *.
    destruct (V1_forwarding_cases pf env request) as [(err & _ & E) | (line & _ & E)];
      rewrite E in *; cbn [result network_calls fst snd] in *; [discriminate|].
    rewrite V1_forward_run in *.
    destruct (negb _ || negb _); [discriminate|].
    cbn [fst snd] in *. injection Hcalls as Hinit. rewrite Hinit, Hfetch. reflexivity.
Qed.

Lemma POST_unreachable_downstream_witness :
  exists response,
    result (V2.POST (Sample.node Sample.uuid_ok Sample.unreachable)
              (Sample.env Sample.url None)
              (Sample.request (Some Sample.signed_header) None))
    = Normal response
    /\ response_code response = 502.
Proof.
  refine (proj1 POST_unreachable_downstream
            (Sample.node Sample.uuid_ok Sample.unreachable)
            (Sample.env Sample.url None)
            (Sample.request (Some Sample.signed_header) None)
            (V2_outbound (Sample.node Sample.uuid_ok Sample.unreachable)
               (Sample.env Sample.url None) Sample.body Sample.signed_header
               "application/json" false)
            Sample.connection_refused (sample_verified _ _ _ _ _) _).
  split; [|reflexivity].
  rewrite (sample_V2_POST Sample.unreachable Sample.url None None).
  vm_compute. reflexivity.
Defined.

(** C4, as stated, fails on the first variant: with a destination URL whose
    scheme is [http] the forwarder issues the outbound call. *)
Lemma V1_calls_insecure_destination :
  ~ (forall rawBody sig,
       no_call_on_defect
         (fun pf env => network_calls (V1.forwardToSupabase pf env rawBody sig))).
Proof.
  intros H.
  specialize (H Sample.body Sample.signed_header
                (Sample.node Sample.uuid_ok (Sample.answers 200))
                (Sample.env Sample.insecure_url None)).
  cbv beta in H.
  assert (D : destination_defect (Sample.node Sample.uuid_ok (Sample.answers 200))
                (Sample.env Sample.insecure_url None)).
  { right. right. eexists. split; [vm_compute; reflexivity | vm_compute; discriminate]. }
  specialize (H D).
  assert (Hcalls : network_calls
                     (V1.forwardToSupabase (Sample.node Sample.uuid_ok (Sample.answers 200))
                        (Sample.env Sample.insecure_url None)
                        Sample.body Sample.signed_header) <> [])
    by (vm_compute; discriminate).
  contradiction.
Qed.

(** C4, amended.  The second variant makes no network call exactly when the
    destination URL is absent, does not parse or is not https, or the bearer
    token is absent, and then returns a failure that names the configuration
    error.  The first variant returns a failure without a call when the URL or
    the service-role key is absent, and only then: with both set it makes the
    call, whatever the URL parser says of the URL and whatever its scheme. *)
Theorem forward_configuration_checks :
  (forall pf env rawBody sig contentType pingMode,
      (destination_defect pf env
       \/ truthy (option_map Js.trim (INTERNAL_EDGE_AUTH_TOKEN env)) = false)
      <-> network_calls (V2.forwardToSupabase pf env rawBody sig contentType pingMode) = [])
  /\ (forall pf env rawBody sig contentType pingMode,
        network_calls (V2.forwardToSupabase pf env rawBody sig contentType pingMode) = [] ->
        exists reason,
          V2.forwardToSupabase pf env rawBody sig contentType pingMode
          = (Normal (mkForwardResult false None (Some reason) None), []))
  /\ (forall pf env rawBody sig,
        truthy (SUPABASE_INTERNAL_WEBHOOK_URL env) = false
        \/ truthy (SUPABASE_SERVICE_ROLE_KEY env) = false ->
        V1.forwardToSupabase pf env rawBody sig
        = (Normal (mkForwardResult false None None None), []))
  /\ (forall pf env rawBody sig,
        truthy (SUPABASE_INTERNAL_WEBHOOK_URL env) = true ->
        truthy (SUPABASE_SERVICE_ROLE_KEY env) = true ->
        network_calls (V1.forwardToSupabase pf env rawBody sig)
        = [V1_outbound env rawBody sig]
        /\ fetch_url (V1_outbound env rawBody sig)
           = the (SUPABASE_INTERNAL_WEBHOOK_URL env)).
Proof.
  split; [|split; [|split]].
  - intros pf env rawBody sig contentType pingMode.
    rewrite V2_forward_run. cbv zeta.
    pose proof (destination_defect_checks pf env) as D. cbv zeta in D. rewrite D. clear D.
    destruct (truthy (option_map Js.trim (INTERNAL_EDGE_AUTH_TOKEN env)));
      cbn [negb]; [|split; [reflexivity | now right]].
    destruct (negb (truthy (Some (Js.trim (the (SUPABASE_INTERNAL_WEBHOOK_URL env))))));
      [split; [reflexivity | left; now left]|].
    destruct (URL_new pf _) as [u|e]; [|split; [reflexivity | left; now right]].
    destruct (negb (String.eqb (url_protocol u) "https:"));
      [split; [reflexivity | left; now right]|].
    cbn [network_calls snd]. split; [|discriminate].
    intros [[H|H]|H]; discriminate.
  - intros pf env rawBody sig contentType pingMode.
    rewrite V2_forward_run. cbv zeta.
    destruct (negb (truthy (option_map _ _))); [intros _; now eexists|].
    destruct (negb (truthy (Some _))); [intros _; now eexists|].
    destruct (URL_new pf _) as [u|e]; [|intros _; now eexists].
    destruct (negb (String.eqb _ _)); [intros _; now eexists|].
    discriminate.
  - intros pf env rawBody sig H. rewrite V1_forward_run.
    destruct H as [-> | ->]; cbn [negb orb]; [reflexivity|].
    now rewrite orb_true_r.
  - intros pf env rawBody sig Hu Hk. rewrite V1_forward_run, Hu, Hk.
    split; reflexivity.
Qed.

Lemma forward_configuration_checks_witness :
  network_calls
    (V2.forwardToSupabase (Sample.node Sample.uuid_ok (Sample.answers 200))
       (Sample.env Sample.insecure_url None)
       Sample.body Sample.signed_header "application/json" false) = []
  /\ network_calls
       (V1.forwardToSupabase (Sample.node Sample.uuid_ok (Sample.answers 200))
          (Sample.env Sample.insecure_url None) Sample.body Sample.signed_header)
     = [V1_outbound (Sample.env Sample.insecure_url None) Sample.body
          Sample.signed_header].
Proof.
  split.
  - apply (proj1 forward_configuration_checks).
    left. right. right. eexists.
    split; [vm_compute; reflexivity | vm_compute; discriminate].
  - exact (proj1 (proj2 (proj2 (proj2 forward_configuration_checks))
                    (Sample.node Sample.uuid_ok (Sample.answers 200))
                    (Sample.env Sample.insecure_url None)
                    Sample.body Sample.signed_header eq_refl eq_refl)).
Defined.

(** ** Decoding what was encoded

    The decoder of [request.text()] gives back every well-formed string from
    its UTF-8 encoding. *)

Local Open Scope N_scope.

Lemma to_N_byte_of_N (n : N) : n < 256 -> Byte.to_N (Buffer.byte_of_N n) = n.
Proof.
  intros H. unfold Buffer.byte_of_N. rewrite N.mod_small by exact H.
  destruct (Byte.of_N n) as [b|] eqn:E.
  - now apply Byte.to_of_N.
  - apply Byte.of_N_None_iff in E. lia.
Qed.

Lemma below_spec (n : nat) (P : N -> bool) :
  below n P = true -> forall x, x < N.of_nat n -> P x = true.
Proof.
  induction n as [|k IH]; cbn [below]; intros H x Hx; [lia|].
  apply andb_true_iff in H as [Hk Hrest].
  destruct (N.eq_dec x (N.of_nat k)) as [-> | Hne]; [exact Hk|].
  apply IH; [exact Hrest | lia].
Qed.

Lemma tag_bits (tag width : N) (n : nat) :
  below n (fun x => (N.lor tag x =? tag + x) && (N.land (tag + x) (N.ones width) =? x)) = true ->
  forall x, x < N.of_nat n ->
    N.lor tag x = tag + x /\ N.land (tag + x) (N.ones width) = x.
Proof.
  intros H x Hx. pose proof (below_spec n _ H x Hx) as P. cbv beta in P.
  apply andb_true_iff in P as [P1 P2]. now apply N.eqb_eq in P1, P2.
Qed.

Lemma continuation_bits (x : N) :
  x < 64 -> N.lor 0x80 x = 0x80 + x /\ N.land (0x80 + x) 0x3F = x.
Proof. exact (tag_bits 0x80 6 64 eq_refl x). Qed.

Lemma lead2_bits (x : N) :
  x < 32 -> N.lor 0xC0 x = 0xC0 + x /\ N.land (0xC0 + x) 0x1F = x.
Proof. exact (tag_bits 0xC0 5 32 eq_refl x). Qed.

Lemma lead3_bits (x : N) :
  x < 16 -> N.lor 0xE0 x = 0xE0 + x /\ N.land (0xE0 + x) 0xF = x.
Proof. exact (tag_bits 0xE0 4 16 eq_refl x). Qed.

Lemma lead4_bits (x : N) :
  x < 8 -> N.lor 0xF0 x = 0xF0 + x /\ N.land (0xF0 + x) 0x7 = x.
Proof. exact (tag_bits 0xF0 3 8 eq_refl x). Qed.

Lemma append_bits (acc x : N) : x < 64 -> N.lor (N.shiftl acc 6) x = acc * 64 + x.
Proof.
  intros Hx. rewrite N.shiftl_mul_pow2. change (2 ^ 6) with 64.
  rewrite <- N.lxor_lor, <- N.add_nocarry_lxor; try reflexivity.
  all: apply N.bits_inj; intros k; rewrite N.land_spec, N.bits_0.
  all: destruct (N.lt_ge_cases k 6) as [Hk | Hk].
  all: try (change 64 with (2 ^ 6); rewrite N.mul_pow2_bits_low by exact Hk; reflexivity).
  all: replace (N.testbit x k) with false; [apply andb_false_r|].
  all: symmetry; destruct (N.eq_dec x 0) as [-> | Hz]; [apply N.bits_0|].
  all: apply N.bits_above_log2; apply N.lt_le_trans with 6; [|exact Hk].
  all: apply N.log2_lt_pow2; [lia | exact Hx].
Qed.

Lemma low6 (n : N) : N.land n 0x3F = n mod 64.
Proof. change 0x3F with (N.ones 6). now rewrite N.land_ones. Qed.

Lemma shift6 (n : N) : N.shiftr n 6 = n / 64.
Proof. now rewrite N.shiftr_div_pow2. Qed.

Lemma shift12 (n : N) : N.shiftr n 12 = n / 64 / 64.
Proof. change 12 with (6 + 6). now rewrite <- N.shiftr_shiftr, !shift6. Qed.

Lemma shift18 (n : N) : N.shiftr n 18 = n / 64 / 64 / 64.
Proof. change 18 with (6 + 12). now rewrite <- N.shiftr_shiftr, shift12, shift6. Qed.

Lemma split6 (n : N) : n = n / 64 * 64 + n mod 64 /\ n mod 64 < 64.
Proof.
  split; [|now apply N.mod_lt].
  rewrite N.mul_comm. now apply N.div_mod.
Qed.

Ltac fields cp :=
  let q1 := fresh "q" in let q2 := fresh "q" in let q3 := fresh "q" in
  let q4 := fresh "q" in
  let r1 := fresh "r" in let r2 := fresh "r" in let r3 := fresh "r" in
  let r4 := fresh "r" in
  pose proof (split6 cp); pose proof (split6 (cp / 64));
  pose proof (split6 (cp / 64 / 64)); pose proof (split6 (cp / 64 / 64 / 64));
  set (r1 := cp mod 64) in *; set (q1 := cp / 64) in *;
  set (r2 := q1 mod 64) in *; set (q2 := q1 / 64) in *;
  set (r3 := q2 mod 64) in *; set (q3 := q2 / 64) in *;
  set (r4 := q3 mod 64) in *; set (q4 := q3 / 64) in *;
  clearbody q4 r4; clearbody q3 r3; clearbody q2 r2; clearbody q1 r1.

Ltac compare_N :=
  repeat match goal with
         | |- context [N.leb ?a ?b] => destruct (N.leb_spec a b); try lia
         | |- context [N.ltb ?a ?b] => destruct (N.ltb_spec a b); try lia
         | |- context [N.eqb ?a ?b] => destruct (N.eqb_spec a b); try lia
         end.

Lemma step_ascii (n : N) : n < 0x80 -> TextDecoder.step TextDecoder.start (Buffer.byte_of_N n) = ([n], TextDecoder.start).
Proof.
  intros H. unfold TextDecoder.step. cbn [TextDecoder.bytes_needed TextDecoder.start].
  rewrite to_N_byte_of_N by lia. unfold TextDecoder.lead. now compare_N.
Qed.

Lemma step_lead2 (a : N) :
  2 <= a < 32 ->
  TextDecoder.step TextDecoder.start (Buffer.byte_of_N (N.lor 0xC0 a)) = ([], TextDecoder.mkState a 0 1 0x80 0xBF).
Proof.
  intros H. destruct (lead2_bits a) as [E L]; [lia|].
  unfold TextDecoder.step. cbn [TextDecoder.bytes_needed TextDecoder.start]. rewrite E, to_N_byte_of_N by lia.
  unfold TextDecoder.lead. compare_N. cbn [andb]. now rewrite L.
Qed.

Lemma step_lead3 (a : N) :
  a < 16 ->
  TextDecoder.step TextDecoder.start (Buffer.byte_of_N (N.lor 0xE0 a))
  = ([], TextDecoder.mkState a 0 2 (if a =? 0 then 0xA0 else 0x80) (if a =? 13 then 0x9F else 0xBF)).
Proof.
  intros H. destruct (lead3_bits a) as [E L]; [lia|].
  unfold TextDecoder.step. cbn [TextDecoder.bytes_needed TextDecoder.start]. rewrite E, to_N_byte_of_N by lia.
  unfold TextDecoder.lead. rewrite L. compare_N; reflexivity.
Qed.

Lemma step_lead4 (a : N) :
  a < 5 ->
  TextDecoder.step TextDecoder.start (Buffer.byte_of_N (N.lor 0xF0 a))
  = ([], TextDecoder.mkState a 0 3 (if a =? 0 then 0x90 else 0x80) (if a =? 4 then 0x8F else 0xBF)).
Proof.
  intros H. destruct (lead4_bits a) as [E L]; [lia|].
  unfold TextDecoder.step. cbn [TextDecoder.bytes_needed TextDecoder.start]. rewrite E, to_N_byte_of_N by lia.
  unfold TextDecoder.lead. rewrite L. compare_N; reflexivity.
Qed.

Lemma step_continuation (cp : N) (seen needed : nat) (lo hi x : N) :
  x < 64 -> lo <= 0x80 + x <= hi ->
  TextDecoder.step (TextDecoder.mkState cp seen (S needed) lo hi) (Buffer.byte_of_N (N.lor 0x80 x))
  = if Nat.eqb seen needed then ([cp * 64 + x], TextDecoder.start)
    else ([], TextDecoder.mkState (cp * 64 + x) (S seen) (S needed) 0x80 0xBF).
Proof.
  intros Hx Hb. destruct (continuation_bits x Hx) as [E L].
  unfold TextDecoder.step. cbn [TextDecoder.bytes_needed TextDecoder.bytes_seen TextDecoder.code_point TextDecoder.lower_boundary TextDecoder.upper_boundary].
  rewrite E, to_N_byte_of_N by lia. rewrite L, (append_bits cp x Hx).
  compare_N. reflexivity.
Qed.

Lemma run_code_point (cp : N) (bs : list byte) :
  cp < 0x110000 -> (cp < 0xD800 \/ 0xDFFF < cp) ->
  TextDecoder.run TextDecoder.start (Buffer.utf8_of_code_point cp ++ bs) = cp :: TextDecoder.run TextDecoder.start bs.
Proof.
  intros Hmax Hscalar. unfold Buffer.utf8_of_code_point.
  rewrite !low6, shift6, shift12, shift18. fields cp.
  destruct (N.ltb_spec cp 0x80); [|destruct (N.ltb_spec cp 0x800);
                                    [|destruct (N.ltb_spec cp 0x10000)]];
    cbn [app TextDecoder.run].
  - now rewrite step_ascii.
  - rewrite step_lead2 by lia. cbn [app].
    rewrite step_continuation by lia. cbn [Nat.eqb app]. f_equal. lia.
  - rewrite step_lead3 by lia. cbn [app].
    rewrite step_continuation by (compare_N; lia). cbn [Nat.eqb app].
    rewrite step_continuation by lia. cbn [Nat.eqb app]. f_equal. lia.
  - rewrite step_lead4 by lia. cbn [app].
    rewrite step_continuation by (compare_N; lia). cbn [Nat.eqb app].
    rewrite step_continuation by lia. cbn [Nat.eqb app].
    rewrite step_continuation by lia. cbn [Nat.eqb app]. f_equal. lia.
Qed.

Lemma utf16_pair (c d : N) :
  Buffer.is_lead_surrogate c = true -> Buffer.is_trail_surrogate d = true ->
  let cp := 0x10000 + (c - 0xD800) * 0x400 + (d - 0xDC00) in
  cp < 0x110000 /\ 0xDFFF < cp /\ TextDecoder.utf16_of_code_point cp = [c; d].
Proof.
  unfold Buffer.is_lead_surrogate, Buffer.is_trail_surrogate.
  rewrite !andb_true_iff, !N.leb_le. intros [Hc1 Hc2] [Hd1 Hd2]. cbv zeta.
  split; [lia|]. split; [lia|].
  unfold TextDecoder.utf16_of_code_point.
  destruct (N.ltb_spec (0x10000 + (c - 0xD800) * 0x400 + (d - 0xDC00)) 0x10000); [lia|].
  replace (0x10000 + (c - 0xD800) * 0x400 + (d - 0xDC00) - 0x10000)
    with (0x400 * (c - 0xD800) + (d - 0xDC00)) by lia.
  rewrite <- (N.div_unique _ 0x400 (c - 0xD800) (d - 0xDC00)) by (lia || reflexivity).
  rewrite <- (N.mod_unique _ 0x400 (c - 0xD800) (d - 0xDC00)) by (lia || reflexivity).
  f_equal; [lia | f_equal; lia].
Qed.

Lemma run_from_utf8 (n : nat) (s : jsstring) :
  (List.length s <= n)%nat -> well_formed s = true ->
  flat_map TextDecoder.utf16_of_code_point (TextDecoder.run TextDecoder.start (Buffer.from_utf8 s)) = s.
Proof.
  revert s. induction n as [|n IH]; intros s Hlen Hwf.
  - destruct s; [reflexivity | cbn in Hlen; lia].
  - destruct s as [|c rest]; [reflexivity|].
    cbn [well_formed Buffer.from_utf8] in *.
    destruct (Buffer.is_lead_surrogate c) eqn:Lc.
    + destruct rest as [|d rest']; [discriminate|].
      apply andb_true_iff in Hwf as [Td Hwf]. rewrite Td.
      destruct (utf16_pair c d Lc Td) as (H1 & H2 & H3).
      rewrite run_code_point by (assumption || now right).
      cbn [flat_map]. rewrite H3. cbn [app]. do 2 f_equal.
      apply IH; [cbn in Hlen; lia | exact Hwf].
    + apply andb_true_iff in Hwf as [Hc Hwf]. apply andb_true_iff in Hc as [Tc Hc].
      apply negb_true_iff in Tc. rewrite Tc. apply N.ltb_lt in Hc.
      assert (Hs : c < 0xD800 \/ 0xDFFF < c).
      { unfold Buffer.is_lead_surrogate, Buffer.is_trail_surrogate in Lc, Tc.
        revert Lc Tc. compare_N; cbn; intros; try discriminate; lia. }
      rewrite run_code_point by (assumption || lia).
      cbn [flat_map]. unfold TextDecoder.utf16_of_code_point at 1.
      destruct (N.ltb_spec c 0x10000); [|lia]. cbn [app]. f_equal.
      apply IH; [cbn in Hlen; lia | exact Hwf].
Qed.

Lemma decode_from_utf8 (s : jsstring) :
  well_formed s = true ->
  TextDecoder.strip_BOM (Buffer.from_utf8 s) = Buffer.from_utf8 s ->
  TextDecoder.decode (Buffer.from_utf8 s) = s.
Proof.
  intros Hwf Hbom. unfold TextDecoder.decode. rewrite Hbom.
  now apply (run_from_utf8 (List.length s)).
Qed.

Local Close Scope N_scope.

(** C5, as stated, fails on both variants.  The first sends
    [application/json] whatever the inbound content type is; the second sends
    a ping document in place of the body when ping mode is on.  In both the
    body sent is the encoding of the text that was decoded from the payload,
    not the payload: a payload that starts with a byte order mark is forwarded
    without it.  The receiver of the second variant's request does not read
    the inbound signature header either. *)
Lemma outbound_not_always_verbatim :
  ~ forwards_verbatim V1.POST
  /\ ~ forwards_verbatim V2.POST
  /\ (exists raw init,
        request_text (Sample.request (Some Sample.signed_header) None)
        = Normal (TextDecoder.decode raw)
        /\ In init (network_calls
                      (V1.POST (Sample.node Sample.uuid_ok (Sample.answers 200))
                         (Sample.env Sample.url None)
                         (Sample.request (Some Sample.signed_header) None)))
        /\ wire_body init <> raw)
  /\ (exists init,
        In init (network_calls
                   (V2.POST (Sample.node Sample.uuid_ok (Sample.answers 200))
                      (Sample.env Sample.url None)
                      (Sample.request (Some Sample.signed_header) None)))
        /\ Headers.get (fetch_headers init) "stripe-signature"
           <> request_headers_get (Sample.request (Some Sample.signed_header) None)
                "stripe-signature").
Proof.
  split; [|split; [|split]].
  - intros H.
    destruct (H (Sample.node Sample.uuid_ok (Sample.answers 200))
                (Sample.env Sample.url None)
                (Sample.request (Some Sample.signed_header) (Some "text/plain"))
                Sample.body_bytes
                (V1_outbound (Sample.env Sample.url None) Sample.body
                   Sample.signed_header)) as (_ & _ & Hct).
    + vm_compute. reflexivity.
    + rewrite (sample_V1_POST (Sample.answers 200) Sample.url None (Some "text/plain")).
      vm_compute. left. reflexivity.
    + revert Hct. vm_compute. discriminate.
  - intros H.
    destruct (H (Sample.node Sample.uuid_ok (Sample.answers 200))
                (Sample.env Sample.url (Some "true"))
                (Sample.request (Some Sample.signed_header) (Some "text/plain"))
                Sample.body_bytes
                (V2_outbound (Sample.node Sample.uuid_ok (Sample.answers 200))
                   (Sample.env Sample.url (Some "true"))
                   Sample.body Sample.signed_header "text/plain" true))
      as (Hbody & _ & _).
    + vm_compute. reflexivity.
    + rewrite (sample_V2_POST (Sample.answers 200) Sample.url (Some "true")
                 (Some "text/plain")).
      vm_compute. left. reflexivity.
    + revert Hbody. vm_compute. discriminate.
  - exists Sample.marked_bytes,
      (V1_outbound (Sample.env Sample.url None) Sample.body Sample.signed_header).
    split; [vm_compute; reflexivity|]. split.
    + rewrite (sample_V1_POST (Sample.answers 200) Sample.url None None).
      vm_compute. left. reflexivity.
    + vm_compute. discriminate.
  - exists (V2_outbound (Sample.node Sample.uuid_ok (Sample.answers 200))
              (Sample.env Sample.url None) Sample.body Sample.signed_header
              "application/json" false).
    split.
    + rewrite (sample_V2_POST (Sample.answers 200) Sample.url None None).
      vm_compute. left. reflexivity.
    + vm_compute. discriminate.
Qed.

Lemma truthy_the (x : option string) : truthy x = true -> Some (the x) = x.
Proof. now destruct x as [[|c s]|]. Qed.

Lemma verified_signature (pf : Platform) (env : ProcessEnv) (request : Request) :
  verified pf env request = true ->
  truthy (request_headers_get request "stripe-signature") = true.
Proof.
  unfold verified. destruct (request_text request); [|discriminate].
  now destruct (truthy (request_headers_get request "stripe-signature")).
Qed.

Lemma V1_POST_calls (pf : Platform) (env : ProcessEnv) (request : Request) (init : FetchInit) :
  In init (network_calls (V1.POST pf env request)) ->
  verified pf env request = true
  /\ init = V1_outbound env (request_body request)
              (the (request_headers_get request "stripe-signature")).
Proof.
  destruct (verified pf env request) eqn:V.
  - rewrite (V1_POST_verified pf env request V). cbv zeta. cbn [network_calls snd].
    intros Hin. rewrite (V1_forwarding_calls pf env request init Hin) in Hin.
    revert Hin.
    rewrite V1_forward_run. destruct (negb _ || negb _); cbn [snd In]; [easy|].
    intros [<-|[]]. now split.
  - destruct (V1_POST_unverified pf env request V) as (c & m & -> & _). easy.
Qed.

Lemma V2_POST_calls (pf : Platform) (env : ProcessEnv) (request : Request) (init : FetchInit) :
  In init (network_calls (V2.POST pf env request)) ->
  verified pf env request = true
  /\ init = V2_outbound pf env (request_body request)
              (the (request_headers_get request "stripe-signature"))
              (inbound_content_type request) (ping_mode env).
Proof.
  destruct (randomUUID pf) as [requestId|e] eqn:U.
  2:{ now rewrite (V2_POST_prologue pf env request e U). }
  destruct (verified pf env request) eqn:V.
  - rewrite (V2_POST_verified pf env request requestId U V). cbv zeta.
    cbn [network_calls snd]. rewrite V2_forward_run. cbv zeta.
    destruct (negb (truthy (option_map _ _))); [easy|].
    destruct (negb (truthy (Some _))); [easy|].
    destruct (URL_new pf _) as [u|e]; [|easy].
    destruct (negb (String.eqb _ _)); [easy|].
    cbn [snd In]. intros [<-|[]]. now split.
  - destruct (V2_POST_unverified pf env request requestId U V) as (c & m & -> & _). easy.
Qed.

Lemma request_body_decoded (request : Request) (raw : list byte) :
  request_text request = Normal (TextDecoder.decode raw) ->
  request_body request = TextDecoder.decode raw.
Proof. unfold request_body. now intros ->. Qed.

Lemma well_formed_utf8_decoded (raw : list byte) :
  well_formed_utf8 raw -> Buffer.from_utf8 (TextDecoder.decode raw) = raw.
Proof. intros [Hbom (s & Hwf & ->)]. now rewrite decode_from_utf8. Qed.

(** C5, amended.  The body of every outbound request is the UTF-8 encoding of
    the text the handler decoded from the inbound payload, in the second
    variant unless [SUPABASE_PING_MODE] is ["true"], when it is the ping
    document; it equals the payload byte for byte when the payload is
    well-formed UTF-8 without a byte order mark.  The receiver of the first
    variant's request reads the inbound signature header, unchanged when it
    has no white space at its ends, as a header value has none, and the
    content type [application/json]; the receiver of the second variant's
    reads the inbound content type when that is present and not empty, else
    [application/json]. *)
Theorem outbound_request_contents :
  (forall pf env request raw init,
      request_text request = Normal (TextDecoder.decode raw) ->
      In init (network_calls (V1.POST pf env request)) ->
      wire_body init = Buffer.from_utf8 (TextDecoder.decode raw)
      /\ (well_formed_utf8 raw -> wire_body init = raw)
      /\ Headers.get (fetch_headers init) "stripe-signature"
         = option_map Headers.normalize (request_headers_get request "stripe-signature")
      /\ (forall sig,
            request_headers_get request "stripe-signature" = Some sig ->
            Headers.normalize sig = sig ->
            Headers.get (fetch_headers init) "stripe-signature" = Some sig)
      /\ Headers.get (fetch_headers init) "content-type" = Some "application/json")
  /\ (forall pf env request raw init,
        request_text request = Normal (TextDecoder.decode raw) ->
        In init (network_calls (V2.POST pf env request)) ->
        wire_body init
        = (if ping_mode env
           then Buffer.from_utf8 (code_units (V2.ping_body (Date_toISOString pf)))
           else Buffer.from_utf8 (TextDecoder.decode raw))
        /\ (ping_mode env = false -> well_formed_utf8 raw -> wire_body init = raw)
        /\ Headers.get (fetch_headers init) "content-type"
           = Some (Headers.normalize
                     (if truthy (request_headers_get request "content-type")
                      then the (request_headers_get request "content-type")
                      else "application/json"))).
Proof.
  split; intros pf env request raw init Htext Hin.
  - destruct (V1_POST_calls pf env request init Hin) as [V ->].
    apply verified_signature, truthy_the in V.
    unfold wire_body, V1_outbound. cbn [fetch_body fetch_headers].
    rewrite (request_body_decoded request raw Htext).
    split; [reflexivity|]. split; [apply well_formed_utf8_decoded|].
    assert (Hsig : Headers.get
                     (obj_set
                        (if truthy (INTERNAL_WEBHOOK_SHARED_SECRET env)
                         then obj_set
                                [("Content-Type", "application/json");
                                 ("Authorization",
                                  ("Bearer " ++ the (SUPABASE_SERVICE_ROLE_KEY env))%string)]
                                "x-internal-webhook-secret"
                                (the (INTERNAL_WEBHOOK_SHARED_SECRET env))
                         else [("Content-Type", "application/json");
                               ("Authorization",
                                ("Bearer " ++ the (SUPABASE_SERVICE_ROLE_KEY env))%string)])
                        "stripe-signature"
                        (the (request_headers_get request "stripe-signature")))
                     "stripe-signature"
                   = option_map Headers.normalize
                       (request_headers_get request "stripe-signature")).
    { rewrite <- V. now destruct (truthy (INTERNAL_WEBHOOK_SHARED_SECRET env)). }
    split; [exact Hsig|]. split.
    + intros sig Hs Hn. rewrite Hsig, Hs. cbn [option_map]. now rewrite Hn.
    + now destruct (truthy (INTERNAL_WEBHOOK_SHARED_SECRET env)).
  - destruct (V2_POST_calls pf env request init Hin) as [V ->].
    unfold wire_body, V2_outbound, inbound_content_type. cbn [fetch_body fetch_headers].
    rewrite (request_body_decoded request raw Htext).
    split; [now destruct (ping_mode env)|].
    split; [intros ->; apply well_formed_utf8_decoded|].
    destruct (truthy (INTERNAL_WEBHOOK_SHARED_SECRET env));
      destruct (truthy (request_headers_get request "content-type")) eqn:T;
      try reflexivity;
      destruct (request_headers_get request "content-type") as [[|c s]|];
      try discriminate T; reflexivity.
Qed.

Lemma outbound_request_contents_witness :
  (wire_body (V1_outbound (Sample.env Sample.url None) Sample.body Sample.signed_header)
   = Sample.body_bytes
   /\ Headers.get
        (fetch_headers
           (V1_outbound (Sample.env Sample.url None) Sample.body Sample.signed_header))
        "stripe-signature"
      = Some Sample.signed_header)
  /\ (wire_body
        (V2_outbound (Sample.node Sample.uuid_ok (Sample.answers 200))
           (Sample.env Sample.url None)
           Sample.body Sample.signed_header "text/plain" false)
      = Sample.body_bytes
      /\ Headers.get
           (fetch_headers
              (V2_outbound (Sample.node Sample.uuid_ok (Sample.answers 200))
                 (Sample.env Sample.url None)
                 Sample.body Sample.signed_header "text/plain" false))
           "content-type"
         = Some "text/plain").
Proof.
  assert (Htext : forall contentType,
             request_text (Sample.request (Some Sample.signed_header) contentType)
             = Normal (TextDecoder.decode Sample.body_bytes))
    by (intros contentType; vm_compute; reflexivity).
  assert (Hwf : well_formed_utf8 Sample.body_bytes).
  { split; [vm_compute; reflexivity|]. exists Sample.body. split; reflexivity. }
  assert (Hn : Headers.normalize Sample.signed_header = Sample.signed_header)
    by (vm_compute; reflexivity).
  split.
  - destruct (proj1 outbound_request_contents
                (Sample.node Sample.uuid_ok (Sample.answers 200))
                (Sample.env Sample.url None)
                (Sample.request (Some Sample.signed_header) None)
                Sample.body_bytes
                (V1_outbound (Sample.env Sample.url None) Sample.body
                   Sample.signed_header) (Htext None))
      as (_ & Hbody & _ & Hsig & _).
    + rewrite (sample_V1_POST (Sample.answers 200) Sample.url None None).
      vm_compute. left. reflexivity.
    + split; [exact (Hbody Hwf) | exact (Hsig Sample.signed_header eq_refl Hn)].
  - destruct (proj2 outbound_request_contents
                (Sample.node Sample.uuid_ok (Sample.answers 200))
                (Sample.env Sample.url None)
                (Sample.request (Some Sample.signed_header) (Some "text/plain"))
                Sample.body_bytes
                (V2_outbound (Sample.node Sample.uuid_ok (Sample.answers 200))
                   (Sample.env Sample.url None)
                   Sample.body Sample.signed_header "text/plain" false)
                (Htext (Some "text/plain")))
      as (_ & Hbody & Hct).
    + rewrite (sample_V2_POST (Sample.answers 200) Sample.url None (Some "text/plain")).
      vm_compute. left. reflexivity.
    + split; [exact (Hbody eq_refl Hwf) | exact Hct].
Defined.

(** * Further properties of the route *)

(** ** The verifier accepts only what carries the keyed hash *)

Lemma verify_entries_sound (pf : Platform) (rawBody secret : jsstring)
    (entries : list SignatureEntry) (outcome : VerificationOutcome) :
  verify_entries pf rawBody secret entries = Normal outcome ->
  (valid outcome = true ->
   exists e digest,
     In e entries
     /\ Js.abs_diff_gt (currentTimestamp pf) (Js.parseInt (entry_timestamp e)) TOLERANCE
        = false
     /\ createHmac_sha256 pf (Buffer.from_utf8 secret)
          (signed_payload (Js.parseInt (entry_timestamp e)) rawBody) = Normal digest
     /\ Buffer.from_hex (entry_signature e) = digest
     /\ timestamp outcome = Some (Js.parseInt (entry_timestamp e)))
  /\ (valid outcome = false -> timestamp outcome = None).
Proof.
  induction entries as [|e rest IH].
  - intros [= <-]. split; [discriminate | reflexivity].
  - rewrite verify_entries_step. cbv zeta.
    destruct (Js.abs_diff_gt _ _ _) eqn:Htol.
    + intros H. destruct (IH H) as [Hv Hi]. split; [|exact Hi].
      intros V. destruct (Hv V) as (x & d & Hin & Hrest). exists x, d. split; [now right | exact Hrest].
    + destruct (createHmac_sha256 pf _ _) as [d|err] eqn:Hmac; cbn [bindC]; [|discriminate].
      destruct (decodes_to d e) eqn:Hd.
      * intros [= <-]. split; [|discriminate]. intros _. exists e, d.
        repeat split; try assumption; try now left.
        unfold decodes_to in Hd. apply bytes_eqb_eq in Hd. now symmetry.
      * intros H. destruct (IH H) as [Hv Hi]. split; [|exact Hi].
        intros V. destruct (Hv V) as (x & d' & Hin & Hrest). exists x, d'.
        split; [now right | exact Hrest].
Qed.

Lemma abs_diff_gt_false_int (now ts : Z) :
  Js.abs_diff_gt now (Int ts) TOLERANCE = false -> Z.abs (now - ts) <= 300.
Proof.
  unfold Js.abs_diff_gt, TOLERANCE.
  destruct (Z.gtb_spec (Z.abs (now - ts)) 300); [discriminate | lia].
Qed.

(** X1.  Whenever [verifyStripeSignature] answers valid, a candidate of the
    header hex-decodes to the HMAC the platform computed over the parsed
    timestamp, a dot and the body; that timestamp is the header's, it is the
    one returned, and when it is a number it lies within 300 s of the clock.
    An invalid outcome carries no timestamp. *)
Theorem verify_sound (pf : Platform) (rawBody : jsstring) (h : string) (secret : jsstring)
    (outcome : VerificationOutcome) :
  verifyStripeSignature pf rawBody h secret = Normal outcome ->
  (valid outcome = true ->
   exists e digest,
     In e (parseStripeSignatureHeader h)
     /\ header_timestamp h = Some (entry_timestamp e)
     /\ createHmac_sha256 pf (Buffer.from_utf8 secret)
          (Buffer.from_utf8
             (code_units (Js.Number_toString (Js.parseInt (entry_timestamp e)) ++ ".")
              ++ rawBody)) = Normal digest
     /\ Buffer.from_hex (entry_signature e) = digest
     /\ timestamp outcome = Some (Js.parseInt (entry_timestamp e))
     /\ (forall ts, Js.parseInt (entry_timestamp e) = Int ts ->
                    Z.abs (currentTimestamp pf - ts) <= 300))
  /\ (valid outcome = false -> timestamp outcome = None).
Proof.
  rewrite verify_unfold.
  destruct (verify_entries pf rawBody secret (parseStripeSignatureHeader h)) as [o|err] eqn:E.
  - intros [= <-]. destruct (verify_entries_sound _ _ _ _ _ E) as [Hv Hi].
    split; [|exact Hi]. intros V.
    destruct (Hv V) as (e & d & Hin & Htol & Hmac & Hhex & Hts).
    exists e, d. repeat split; try assumption.
    + now apply parse_timestamp.
    + intros ts Hparse. rewrite Hparse in Htol. now apply abs_diff_gt_false_int.
  - intros [= <-]. split; [discriminate | reflexivity].
Qed.

(** ** Invariants of the parsed candidates *)

Lemma split_parts_forall (test : ascii -> bool) (sep : ascii) (s : string) :
  string_forall test s = true ->
  forall p, In p (Js.split sep s) -> string_forall test p = true.
Proof.
  induction s as [|c s IH]; cbn [string_forall Js.split].
  - intros _ p [<-|[]]. reflexivity.
  - rewrite andb_true_iff. intros [Hc Hs].
    destruct (Ascii.eqb c sep).
    + intros p [<-|Hp]; [reflexivity | now apply IH].
    + pose proof (IH Hs) as IH'. destruct (Js.split sep s) as [|q qs].
      * intros p [<-|[]]. cbn. now rewrite Hc.
      * intros p [<-|Hp].
        -- cbn [string_forall]. rewrite Hc. apply IH'. now left.
        -- apply IH'. now right.
Qed.

Lemma split_parts_without (sep : ascii) (s : string) :
  forall p, In p (Js.split sep s) ->
            string_forall (fun c => negb (Ascii.eqb c sep)) p = true.
Proof.
  induction s as [|c s IH]; cbn [Js.split].
  - intros p [<-|[]]. reflexivity.
  - destruct (Ascii.eqb c sep) eqn:E.
    + intros p [<-|Hp]; [reflexivity | now apply IH].
    + destruct (Js.split sep s) as [|q qs].
      * intros p [<-|[]]. cbn. now rewrite E.
      * intros p [<-|Hp].
        -- cbn [string_forall]. rewrite E. apply IH. now left.
        -- apply IH. now right.
Qed.

Lemma trimStart_forall (test : ascii -> bool) (s : string) :
  string_forall test s = true -> string_forall test (Js.trimStart s) = true.
Proof.
  induction s as [|c s IH]; cbn [Js.trimStart string_forall]; [reflexivity|].
  rewrite andb_true_iff. intros [Hc Hs].
  destruct (Js.isWhiteSpace c); [now apply IH|]. cbn [string_forall]. now rewrite Hc.
Qed.

Lemma trimEnd_forall (test : ascii -> bool) (s : string) :
  string_forall test s = true -> string_forall test (Js.trimEnd s) = true.
Proof.
  induction s as [|c s IH]; cbn [Js.trimEnd string_forall]; [reflexivity|].
  rewrite andb_true_iff. intros [Hc Hs]. specialize (IH Hs).
  destruct (Js.trimEnd s).
  - destruct (Js.isWhiteSpace c); [reflexivity|]. cbn. now rewrite Hc.
  - cbn [string_forall] in *. now rewrite Hc.
Qed.

Lemma trim_forall (test : ascii -> bool) (s : string) :
  string_forall test s = true -> string_forall test (Js.trim s) = true.
Proof. intros H. unfold Js.trim. now apply trimEnd_forall, trimStart_forall. Qed.

(** The second field of a segment of the header has no comma and no equals
    sign. *)
Lemma second_field_clean (h part v : string) :
  In part (Js.split "," h) ->
  second_field (Js.trim part) = Some v ->
  string_forall (fun c => negb (Ascii.eqb c ",")) v = true
  /\ string_forall (fun c => negb (Ascii.eqb c "=")) v = true.
Proof.
  intros Hpart Hv. unfold second_field in Hv. apply nth_error_In in Hv. split.
  - apply (split_parts_forall _ "=" (Js.trim part)); [|exact Hv].
    apply trim_forall. now apply (split_parts_without "," h).
  - now apply (split_parts_without "=" (Js.trim part)).
Qed.

Lemma find_timestamp_some (parts : list string) (ts : string) :
  find_timestamp parts = Some ts ->
  ts <> EmptyString
  /\ exists part, In part parts /\ second_field (Js.trim part) = Some ts.
Proof.
  induction parts as [|p parts IH]; cbn [find_timestamp]; [discriminate|].
  destruct (Js.startsWith (Js.trim p) "t=").
  - destruct (second_field (Js.trim p)) as [[|c v]|] eqn:F.
    + intros H. destruct (IH H) as (Hne & q & Hq & Hf).
      split; [exact Hne|]. exists q. split; [now right | exact Hf].
    + intros [= <-]. split; [discriminate|]. exists p. split; [now left | exact F].
    + intros H. destruct (IH H) as (Hne & q & Hq & Hf).
      split; [exact Hne|]. exists q. split; [now right | exact Hf].
  - intros H. destruct (IH H) as (Hne & q & Hq & Hf).
    split; [exact Hne|]. exists q. split; [now right | exact Hf].
Qed.

Lemma collect_v1_signature (ts : string) (parts : list string) (e : SignatureEntry) :
  In e (collect_v1 ts parts) ->
  entry_signature e <> EmptyString
  /\ exists part, In part parts /\ second_field (Js.trim part) = Some (entry_signature e).
Proof.
  induction parts as [|p parts IH]; cbn [collect_v1]; [easy|].
  assert (Hrest : In e (collect_v1 ts parts) ->
                  entry_signature e <> EmptyString
                  /\ exists part, In part (p :: parts)
                                  /\ second_field (Js.trim part) = Some (entry_signature e)).
  { intros H. destruct (IH H) as (Hne & q & Hq & Hf).
    split; [exact Hne|]. exists q. split; [now right | exact Hf]. }
  destruct (Js.startsWith (Js.trim p) "v1="); [|exact Hrest].
  destruct (second_field (Js.trim p)) as [[|c v]|] eqn:F; try exact Hrest.
  intros [<-|H]; [|now apply Hrest].
  cbn [entry_signature]. split; [discriminate|]. exists p. split; [now left | exact F].
Qed.

(** X2.  Every candidate the parser returns carries the one timestamp extracted
    from the header; its timestamp and its signature are not empty and contain
    neither a comma nor an equals sign. *)
Theorem parse_candidates_invariant (h : string) (e : SignatureEntry) :
  In e (parseStripeSignatureHeader h) ->
  header_timestamp h = Some (entry_timestamp e)
  /\ entry_timestamp e <> EmptyString
  /\ entry_signature e <> EmptyString
  /\ string_forall (fun c => negb (Ascii.eqb c "," || Ascii.eqb c "="))
       (entry_timestamp e ++ entry_signature e) = true.
Proof.
  intros Hin. pose proof (parse_timestamp h e Hin) as Hts.
  rewrite parse_unfold, Hts in Hin.
  destruct (find_timestamp_some _ _ Hts) as (Hne & pt & Hpt & Hft).
  destruct (collect_v1_signature _ _ _ Hin) as (Hse & ps & Hps & Hfs).
  destruct (second_field_clean h pt _ Hpt Hft) as [Ht1 Ht2].
  destruct (second_field_clean h ps _ Hps Hfs) as [Hs1 Hs2].
  repeat split; try assumption.
  rewrite string_forall_app.
  assert (Hboth : forall s,
             string_forall (fun c => negb (Ascii.eqb c ",")) s = true ->
             string_forall (fun c => negb (Ascii.eqb c "=")) s = true ->
             string_forall (fun c => negb (Ascii.eqb c "," || Ascii.eqb c "=")) s = true).
  { induction s as [|c s IH]; cbn [string_forall]; [reflexivity|].
    rewrite !andb_true_iff, !negb_true_iff. intros [-> H1] [-> H2]. split; [reflexivity|].
    now apply IH. }
  now rewrite !Hboth.
Qed.

Lemma parse_candidates_invariant_witness :
  header_timestamp " v1=0a1b2c , t=1700000000 ,v1=ff" = Some "1700000000"
  /\ "1700000000" <> EmptyString.
Proof.
  destruct (parse_candidates_invariant " v1=0a1b2c , t=1700000000 ,v1=ff"
              (mkEntry "1700000000" "ff")) as (Hts & Hne & _).
  - vm_compute. right. left. reflexivity.
  - split; [exact Hts | exact Hne].
Defined.

(** X3.  Parsing the header built from a timestamp and signature values gives
    back exactly these values, in order, each with the timestamp. *)
Theorem parse_built_header (t : string) (signatures : list string) :
  plain_value t ->
  Forall plain_value signatures ->
  parseStripeSignatureHeader (built_header t signatures) = map (mkEntry t) signatures.
Proof.
  intros [Ht Hne] Hall.
  rewrite (built_header_candidates t signatures Ht Hne).
  induction Hall as [|v rest [Hv Hvne] _ IH]; [reflexivity|].
  cbn [map List.concat]. rewrite (collect_v1_plain t v Hv Hvne), IH. reflexivity.
Qed.

Lemma parse_built_header_witness :
  parseStripeSignatureHeader (built_header "1700000000" ["0a1b2c"; "ff"])
  = [mkEntry "1700000000" "0a1b2c"; mkEntry "1700000000" "ff"].
Proof.
  apply (parse_built_header "1700000000" ["0a1b2c"; "ff"]).
  - split; [reflexivity | discriminate].
  - repeat constructor; discriminate.
Defined.

Lemma verify_sound_witness :
  exists e digest,
    In e (parseStripeSignatureHeader "t=soon,v1=0a1b2c")
    /\ createHmac_sha256
         (mkPlatform (fun _ _ => Normal [Byte.x0a; Byte.x1b; Byte.x2c]) 0 "" (Normal "")
            Sample.URL_basic (fun _ => Normal (mkEventInfo JsUndefined JsUndefined)) (Sample.answers 200))
         (Buffer.from_utf8 Sample.secret)
         (Buffer.from_utf8
            (code_units (Js.Number_toString (Js.parseInt (entry_timestamp e)) ++ ".")
             ++ Sample.body)) = Normal digest
    /\ Buffer.from_hex (entry_signature e) = digest.
Proof.
  destruct (verify_sound
              (mkPlatform (fun _ _ => Normal [Byte.x0a; Byte.x1b; Byte.x2c]) 0 ""
                 (Normal "") Sample.URL_basic (fun _ => Normal (mkEventInfo JsUndefined JsUndefined))
                 (Sample.answers 200))
              Sample.body "t=soon,v1=0a1b2c" Sample.secret
              (mkOutcome true (Some NaN))) as [Hvalid _].
  - vm_compute. reflexivity.
  - destruct (Hvalid eq_refl) as (e & d & Hin & _ & Hmac & Hhex & _).
    exists e, d. repeat split; assumption.
Defined.

(** ** White space, repeated timestamps, timestamp spelling *)

Lemma find_timestamp_trim (ps qs : list string) :
  map Js.trim ps = map Js.trim qs -> find_timestamp ps = find_timestamp qs.
Proof.
  revert qs. induction ps as [|p ps IH]; intros [|q qs]; cbn [map]; try discriminate;
    [reflexivity|].
  intros [= Hpq Hrest]. cbn [find_timestamp]. rewrite Hpq, (IH qs Hrest). reflexivity.
Qed.

Lemma collect_v1_trim (ts : string) (ps qs : list string) :
  map Js.trim ps = map Js.trim qs -> collect_v1 ts ps = collect_v1 ts qs.
Proof.
  revert qs. induction ps as [|p ps IH]; intros [|q qs]; cbn [map]; try discriminate;
    [reflexivity|].
  intros [= Hpq Hrest]. cbn [collect_v1]. rewrite Hpq, (IH qs Hrest). reflexivity.
Qed.

(** X4.  White space around the segments of the header is not significant: two
    headers whose segments agree once trimmed parse to the same candidates and
    verify alike. *)
Theorem parse_ignores_outer_space (h1 h2 : string) :
  map Js.trim (Js.split "," h1) = map Js.trim (Js.split "," h2) ->
  parseStripeSignatureHeader h1 = parseStripeSignatureHeader h2
  /\ forall pf rawBody secret,
       verifyStripeSignature pf rawBody h1 secret
       = verifyStripeSignature pf rawBody h2 secret.
Proof.
  intros H.
  assert (Hp : parseStripeSignatureHeader h1 = parseStripeSignatureHeader h2).
  { rewrite !parse_unfold. unfold header_timestamp.
    rewrite (find_timestamp_trim _ _ H).
    destruct (find_timestamp (Js.split "," h2)); [|reflexivity].
    now apply collect_v1_trim. }
  split; [exact Hp|]. intros pf rawBody secret. now rewrite !verify_unfold, Hp.
Qed.

Lemma parse_ignores_outer_space_witness :
  parseStripeSignatureHeader " t=1700000000 ,  v1=0a1b2c "
  = parseStripeSignatureHeader "t=1700000000,v1=0a1b2c".
Proof.
  apply (parse_ignores_outer_space " t=1700000000 ,  v1=0a1b2c " "t=1700000000,v1=0a1b2c").
  reflexivity.
Defined.

(** X5.  The first [t=] segment with a value decides the timestamp: whatever
    follows it in the header, also further [t=] segments, does not change it;
    a [t=] segment without a value is passed over. *)
Theorem first_timestamp_wins (t rest : string) :
  plain_value t ->
  header_timestamp ("t=" ++ t ++ String "," rest) = Some t
  /\ header_timestamp ("t=," ++ rest) = header_timestamp rest.
Proof.
  intros [Ht Hne]. split.
  - unfold header_timestamp.
    change ("t=" ++ t ++ String "," rest)%string
      with (("t" ++ String "=" t) ++ String "," rest)%string.
    rewrite split_app.
    assert (Hseg : string_forall (fun c => negb (Ascii.eqb c ",")) ("t" ++ String "=" t) = true)
      by (cbn; now apply plain_not_comma).
    rewrite (split_without _ _ Hseg). cbn [app find_timestamp].
    rewrite trim_segment, second_field_segment by (exact Ht || reflexivity).
    replace (Js.startsWith ("t" ++ String "=" t) "t=") with true
      by (symmetry; exact (startsWith_segment "t" t)).
    destruct t; [contradiction | reflexivity].
  - unfold header_timestamp.
    change ("t=," ++ rest)%string with ("t=" ++ String "," rest)%string.
    rewrite split_app. reflexivity.
Qed.

Lemma first_timestamp_wins_witness :
  header_timestamp "t=1700000000,v1=0a1b2c,t=1" = Some "1700000000".
Proof.
  apply (first_timestamp_wins "1700000000" "v1=0a1b2c,t=1").
  split; [reflexivity | discriminate].
Defined.

Lemma decodes_to_signature (digest : list byte) (e e' : SignatureEntry) :
  entry_signature e = entry_signature e' -> decodes_to digest e = decodes_to digest e'.
Proof. unfold decodes_to. now intros ->. Qed.

(** The loop reads a candidate's timestamp only through [parseInt]. *)
Lemma verify_entries_retime (pf : Platform) (rawBody secret : jsstring)
    (f : SignatureEntry -> SignatureEntry) (entries : list SignatureEntry) :
  (forall e, In e entries ->
             Js.parseInt (entry_timestamp (f e)) = Js.parseInt (entry_timestamp e)
             /\ entry_signature (f e) = entry_signature e) ->
  verify_entries pf rawBody secret (map f entries)
  = verify_entries pf rawBody secret entries.
Proof.
  induction entries as [|e rest IH]; intros Hf; [reflexivity|].
  cbn [map]. rewrite !verify_entries_step. cbv zeta.
  destruct (Hf e (or_introl eq_refl)) as [-> Hsig].
  rewrite IH by (intros x Hx; apply Hf; now right).
  destruct (Js.abs_diff_gt _ _ _); [reflexivity|].
  destruct (createHmac_sha256 pf _ _) as [d|err]; [|reflexivity].
  cbn [bindC]. now rewrite (decodes_to_signature d (f e) e Hsig).
Qed.

Lemma collect_v1_retime (t1 t2 : string) (parts : list string) :
  collect_v1 t2 parts
  = map (fun e => mkEntry t2 (entry_signature e)) (collect_v1 t1 parts).
Proof.
  induction parts as [|p parts IH]; cbn [collect_v1]; [reflexivity|].
  destruct (Js.startsWith (Js.trim p) "v1="); [|exact IH].
  destruct (second_field (Js.trim p)) as [[|c v]|]; try exact IH.
  cbn [map entry_signature]. now rewrite IH.
Qed.

Lemma built_header_entries (t : string) (signatures : list string) :
  plain_value t ->
  parseStripeSignatureHeader (built_header t signatures)
  = collect_v1 t
      (List.concat (map (fun v => Js.split "," ("v1=" ++ v)%string) signatures)).
Proof.
  intros [Ht Hne].
  rewrite parse_unfold, (built_header_timestamp t signatures Ht Hne),
    (built_header_parts t signatures Ht).
  cbn [collect_v1].
  change ("t=" ++ t)%string with ("t" ++ String "=" t)%string.
  rewrite trim_segment by (exact Ht || reflexivity).
  change (Js.startsWith ("t" ++ String "=" t) "v1=") with false. reflexivity.
Qed.

(** X6.  The verifier reads the timestamp of the header only through
    [parseInt]: two headers with the same values whose timestamps are spelled
    differently but parse to the same number (leading zeros, a plus sign,
    trailing letters) have the same outcome, the signed text being the
    canonical decimal in both. *)
Theorem verify_timestamp_spelling (pf : Platform) (rawBody secret : jsstring)
    (t1 t2 : string) (signatures : list string) :
  plain_value t1 -> plain_value t2 ->
  Js.parseInt t1 = Js.parseInt t2 ->
  verifyStripeSignature pf rawBody (built_header t1 signatures) secret
  = verifyStripeSignature pf rawBody (built_header t2 signatures) secret.
Proof.
  intros H1 H2 Hparse.
  rewrite !verify_unfold, (built_header_entries t1 signatures H1),
    (built_header_entries t2 signatures H2).
  rewrite (collect_v1_retime t1 t2).
  rewrite (verify_entries_retime pf rawBody secret
             (fun e => mkEntry t2 (entry_signature e))); [reflexivity|].
  intros e He. cbn [entry_timestamp entry_signature]. split; [|reflexivity].
  now rewrite (collect_v1_timestamp _ _ _ He).
Qed.

Lemma verify_timestamp_spelling_witness :
  verifyStripeSignature (Sample.node Sample.uuid_ok (Sample.answers 200)) Sample.body
    (built_header "+01700000000" [Sample.sign 1700000000]) Sample.secret
  = verifyStripeSignature (Sample.node Sample.uuid_ok (Sample.answers 200)) Sample.body
      (built_header "1700000000" [Sample.sign 1700000000]) Sample.secret.
Proof.
  refine (verify_timestamp_spelling (Sample.node Sample.uuid_ok (Sample.answers 200))
            Sample.body Sample.secret "+01700000000" "1700000000"
            [Sample.sign 1700000000] _ _ eq_refl);
    (split; [reflexivity | discriminate]).
Defined.

(** ** The digest has thirty-two bytes *)

Lemma round_length (st : list Z) (kw : Z * Z) :
  List.length st = 8%nat -> List.length (Crypto.round st kw) = 8%nat.
Proof.
  intros H.
  destruct st as [|a [|b [|c [|d [|e [|f [|g [|h [|i st]]]]]]]]]; try discriminate H.
  reflexivity.
Qed.

Lemma rounds_length (kws : list (Z * Z)) (st : list Z) :
  List.length st = 8%nat -> List.length (fold_left Crypto.round kws st) = 8%nat.
Proof.
  revert st. induction kws as [|kw kws IH]; intros st H; [exact H|].
  cbn [fold_left]. apply IH. now apply round_length.
Qed.

Lemma compress_length (st block : list Z) :
  List.length st = 8%nat -> List.length (Crypto.compress st block) = 8%nat.
Proof.
  intros H. unfold Crypto.compress. cbv zeta.
  rewrite length_map, length_combine, rounds_length by exact H. rewrite H. reflexivity.
Qed.

Lemma blocks_length (fuel : nat) (ws st : list Z) :
  List.length st = 8%nat -> List.length (Crypto.blocks fuel ws st) = 8%nat.
Proof.
  revert ws st. induction fuel as [|f IH]; intros ws st H; [exact H|].
  cbn [Crypto.blocks]. destruct ws; [exact H|]. apply IH. now apply compress_length.
Qed.

Lemma SHA256_length (msg : list byte) : List.length (Crypto.SHA256 msg) = 32%nat.
Proof.
  unfold Crypto.SHA256. cbv zeta.
  pose proof (blocks_length (List.length (Crypto.words (Crypto.pad msg)))
                (Crypto.words (Crypto.pad msg)) Crypto.initial_state eq_refl) as H.
  destruct (Crypto.blocks _ _ _)
    as [|a [|b [|c [|d [|e [|f [|g [|h [|i st]]]]]]]]]; try discriminate H.
  reflexivity.
Qed.

Lemma HMAC_SHA256_nonempty (key msg : list byte) : Crypto.HMAC_SHA256 key msg <> [].
Proof.
  unfold Crypto.HMAC_SHA256. cbv zeta. intros H.
  pose proof (SHA256_length
                (Crypto.xor_bytes
                   ((if Nat.ltb 64 (List.length key) then Crypto.SHA256 key else key)
                    ++ repeat Byte.x00
                         (64 - List.length
                                 (if Nat.ltb 64 (List.length key)
                                  then Crypto.SHA256 key else key))) 0x5c
                 ++ Crypto.SHA256
                      (Crypto.xor_bytes
                         ((if Nat.ltb 64 (List.length key) then Crypto.SHA256 key else key)
                          ++ repeat Byte.x00
                               (64 - List.length
                                       (if Nat.ltb 64 (List.length key)
                                        then Crypto.SHA256 key else key))) 0x36
                       ++ msg))) as L.
  rewrite H in L. discriminate L.
Qed.

(** ** What the hex decoder lets through *)

Lemma from_hex_tail (bs : list byte) (tail : string) :
  stops_hex tail = true -> Buffer.from_hex (Buffer.to_hex bs ++ tail) = bs.
Proof.
  intros Hstop. induction bs as [|b bs IH].
  - cbn [Buffer.to_hex append].
    destruct tail as [|a [|c t]]; try reflexivity.
    cbn [stops_hex Buffer.from_hex] in *.
    destruct (Buffer.unhex a); [|reflexivity].
    destruct (Buffer.unhex c); [discriminate | reflexivity].
  - cbn [Buffer.to_hex append Buffer.from_hex].
    destruct (hex_pair_roundtrip b) as (Hhi & Hlo & Hb).
    cbv zeta in Hhi, Hlo, Hb. rewrite Hhi, Hlo, Hb, IH. reflexivity.
Qed.

Lemma verify_candidate_decodes (pf : Platform) (rawBody secret : jsstring)
    (h tstr : string) (ts : Z) (v : string) (digest : list byte) :
  In (mkEntry tstr v) (parseStripeSignatureHeader h) ->
  Js.parseInt tstr = Int ts ->
  Z.abs (currentTimestamp pf - ts) <= 300 ->
  createHmac_sha256 pf (Buffer.from_utf8 secret) (signed_payload (Int ts) rawBody)
  = Normal digest ->
  Buffer.from_hex v = digest ->
  verifyStripeSignature pf rawBody h secret = Normal (mkOutcome true (Some (Int ts))).
Proof.
  intros Hin Hparse Htol Hmac Hhex.
  pose proof (parse_timestamp _ _ Hin) as Hts. cbn [entry_timestamp] in Hts.
  rewrite (verify_shared pf rawBody secret h tstr digest Hts).
  - destruct (find (decodes_to digest) (parseStripeSignatureHeader h)) eqn:F.
    + now rewrite Hparse.
    + exfalso. revert F. apply find_decodes_to.
      eexists. split; [exact Hin | exact Hhex].
  - rewrite Hparse. now apply abs_diff_gt_within.
  - rewrite Hparse. exact Hmac.
Qed.

(** X7.  The comparison is made on decoded bytes, and the decoder stops at the
    first pair of characters that is not two hex digits: a candidate that is
    the expected hex followed by such a tail (without comma, equals sign or
    white space) verifies, as the expected hex itself does. *)
Theorem verify_accepts_hex_with_tail (pf : Platform) (rawBody secret : jsstring)
    (ts : Z) (digest : list byte) (tail : string) :
  Z.abs (currentTimestamp pf - ts) <= 300 ->
  createHmac_sha256 pf (Buffer.from_utf8 secret)
    (Buffer.from_utf8 (code_units (Js.Number_toString (Int ts) ++ ".") ++ rawBody))
  = Normal digest ->
  digest <> [] ->
  string_forall plain tail = true ->
  stops_hex tail = true ->
  verifyStripeSignature pf rawBody
    (stripe_header ts [(Buffer.to_hex digest ++ tail)%string]) secret
  = Normal (mkOutcome true (Some (Int ts))).
Proof.
  intros Htol Hmac Hne Hplain Hstop.
  apply verify_candidate_decodes
    with (tstr := Js.Number_toString (Int ts)) (v := (Buffer.to_hex digest ++ tail)%string)
         (digest := digest); try assumption.
  - apply built_header_candidate.
    + apply toString_plain.
    + apply toString_nonempty.
    + now left.
    + rewrite string_forall_app, to_hex_plain. exact Hplain.
    + pose proof (to_hex_nonempty digest Hne) as H.
      destruct (Buffer.to_hex digest); [contradiction | discriminate].
  - apply parseInt_toString.
  - now apply from_hex_tail.
Qed.

Lemma verify_accepts_hex_with_tail_witness :
  verifyStripeSignature (Sample.node Sample.uuid_ok (Sample.answers 200)) Sample.body
    (stripe_header 1700000000 [(Sample.sign 1700000000 ++ "zz")%string]) Sample.secret
  = Normal (mkOutcome true (Some (Int 1700000000))).
Proof.
  assert (Hnear : Z.abs (currentTimestamp (Sample.node Sample.uuid_ok (Sample.answers 200))
                         - 1700000000) <= 300) by (vm_compute; discriminate).
  exact (verify_accepts_hex_with_tail (Sample.node Sample.uuid_ok (Sample.answers 200))
           Sample.body Sample.secret 1700000000 (Sample.digest 1700000000) "zz"
           Hnear (sample_hmac _ _ _) (HMAC_SHA256_nonempty _ _) eq_refl eq_refl).
Defined.

(** ** The tolerance window in milliseconds *)

(** X8.  The clock is floored to whole seconds before the test: a numeric
    timestamp [ts] passes the tolerance test exactly while the clock, in
    milliseconds, is from [(ts - 300) * 1000] up to, not including,
    [(ts + 301) * 1000]. *)
Theorem tolerance_window_ms (pf : Platform) (ts : Z) :
  Js.abs_diff_gt (currentTimestamp pf) (Int ts) TOLERANCE = false
  <-> (ts - 300) * 1000 <= Date_now pf < (ts + 301) * 1000.
Proof.
  unfold Js.abs_diff_gt, currentTimestamp, TOLERANCE.
  pose proof (Z.div_mod (Date_now pf) 1000 ltac:(lia)) as Hdm.
  pose proof (Z.mod_pos_bound (Date_now pf) 1000 ltac:(lia)) as Hm.
  destruct (Z.gtb_spec (Z.abs (Date_now pf / 1000 - ts)) 300) as [Hgt | Hle].
  - split; [discriminate | intros H; exfalso; lia].
  - split; [intros _; lia | reflexivity].
Qed.


Lemma tolerance_window_ms_witness :
  Js.abs_diff_gt (currentTimestamp (Sample.node Sample.uuid_ok (Sample.answers 200)))
    (Int 1700000300) TOLERANCE = false.
Proof.
  apply (proj2 (tolerance_window_ms (Sample.node Sample.uuid_ok (Sample.answers 200))
                  1700000300)).
  cbn [Date_now Sample.node]. lia.
Defined.

(** ** The bytes that are signed *)

Lemma digit_char_ascii (n : Z) : is_ascii (Js.digit_char (n mod 10)) = true.
Proof.
  pose proof (Z.mod_pos_bound n 10 ltac:(lia)) as H.
  assert (E : n mod 10 = 0 \/ n mod 10 = 1 \/ n mod 10 = 2 \/ n mod 10 = 3
              \/ n mod 10 = 4 \/ n mod 10 = 5 \/ n mod 10 = 6 \/ n mod 10 = 7
              \/ n mod 10 = 8 \/ n mod 10 = 9) by lia.
  repeat (destruct E as [E | E]; [rewrite E; reflexivity|]).
  rewrite E. reflexivity.
Qed.

Lemma digits_of_ascii (fuel : nat) (n : Z) (acc : string) :
  string_forall is_ascii acc = true ->
  string_forall is_ascii (Js.digits_of fuel n acc) = true.
Proof.
  revert n acc. induction fuel as [|f IH]; intros n acc Hacc; cbn [Js.digits_of];
    cbv zeta.
  - cbn [string_forall]. now rewrite digit_char_ascii.
  - destruct (n <? 10).
    + cbn [string_forall]. now rewrite digit_char_ascii.
    + apply IH. cbn [string_forall]. now rewrite digit_char_ascii.
Qed.

Lemma toString_ascii (t : number) : string_forall is_ascii (Js.Number_toString t) = true.
Proof.
  destruct t as [|z]; [reflexivity|].
  unfold Js.Number_toString, Js.decimal.
  destruct (z <? 0); [cbn [string_forall]|]; now rewrite digits_of_ascii.
Qed.

Lemma from_utf8_ascii (s : string) (rest : jsstring) :
  string_forall is_ascii s = true ->
  Buffer.from_utf8 (code_units s ++ rest)
  = map (fun c => Buffer.byte_of_N (N_of_ascii c)) (list_ascii_of_string s)
    ++ Buffer.from_utf8 rest.
Proof.
  induction s as [|c s IH]; cbn [string_forall]; intros H; [reflexivity|].
  apply andb_true_iff in H as [Hc Hs].
  unfold code_units in *. cbn [list_ascii_of_string map app].
  unfold is_ascii in Hc. apply N.ltb_lt in Hc.
  assert (L : Buffer.is_lead_surrogate (N_of_ascii c) = false).
  { unfold Buffer.is_lead_surrogate. apply andb_false_iff. left. apply N.leb_gt. lia. }
  assert (T : Buffer.is_trail_surrogate (N_of_ascii c) = false).
  { unfold Buffer.is_trail_surrogate. apply andb_false_iff. left. apply N.leb_gt. lia. }
  assert (U : Buffer.utf8_of_code_point (N_of_ascii c)
              = [Buffer.byte_of_N (N_of_ascii c)]).
  { unfold Buffer.utf8_of_code_point.
    now replace (N_of_ascii c <? 128)%N with true by (symmetry; apply N.ltb_lt; lia). }
  cbn [Buffer.from_utf8]. rewrite L, T, U. cbn [app]. now rewrite (IH Hs).
Qed.

Lemma list_ascii_of_string_app (a b : string) :
  list_ascii_of_string (a ++ b) = list_ascii_of_string a ++ list_ascii_of_string b.
Proof. induction a as [|c a IH]; cbn; [reflexivity | now rewrite IH]. Qed.

(** X9.  The message that is signed is the text of the parsed timestamp (its
    decimal digits, or [NaN]), one byte per character, then a full stop, then
    the UTF-8 encoding of the body: the prefix is encoded apart from the body,
    whatever code unit the body starts with. *)
Theorem signed_message_layout (t : number) (rawBody : jsstring) :
  Buffer.from_utf8 (code_units (Js.Number_toString t ++ ".") ++ rawBody)
  = map (fun c => Buffer.byte_of_N (N_of_ascii c))
        (list_ascii_of_string (Js.Number_toString t))
    ++ Byte.x2e :: Buffer.from_utf8 rawBody.
Proof.
  rewrite from_utf8_ascii
    by (rewrite string_forall_app, toString_ascii; reflexivity).
  rewrite list_ascii_of_string_app, map_app, <- app_assoc. reflexivity.
Qed.

(** ** Segments of other schemes *)

Lemma find_timestamp_app (a b : list string) :
  find_timestamp (a ++ b)
  = match find_timestamp a with
    | Some t => Some t
    | None => find_timestamp b
    end.
Proof.
  induction a as [|p a IH]; cbn [app find_timestamp]; [reflexivity|].
  destruct (Js.startsWith (Js.trim p) "t="); [|exact IH].
  destruct (second_field (Js.trim p)) as [[|c v]|]; try exact IH.
  reflexivity.
Qed.

(** X10.  A segment that, once trimmed, starts with neither [t=] nor [v1=]
    (a [v0=] signature, an unknown scheme, an empty segment) is ignored
    wherever it stands: the header parses and verifies as without it. *)
Theorem parse_ignores_other_segments (h seg : string) :
  string_forall (fun c => negb (Ascii.eqb c ",")) seg = true ->
  Js.startsWith (Js.trim seg) "t=" = false ->
  Js.startsWith (Js.trim seg) "v1=" = false ->
  parseStripeSignatureHeader (h ++ String "," seg) = parseStripeSignatureHeader h
  /\ parseStripeSignatureHeader (seg ++ String "," h) = parseStripeSignatureHeader h
  /\ forall pf rawBody secret,
       verifyStripeSignature pf rawBody (h ++ String "," seg) secret
       = verifyStripeSignature pf rawBody h secret
       /\ verifyStripeSignature pf rawBody (seg ++ String "," h) secret
          = verifyStripeSignature pf rawBody h secret.
Proof.
  intros Hc Ht Hv.
  assert (F : find_timestamp [seg] = None) by (cbn [find_timestamp]; now rewrite Ht).
  assert (C : forall ts, collect_v1 ts [seg] = [])
    by (intros ts; cbn [collect_v1]; now rewrite Hv).
  assert (P1 : parseStripeSignatureHeader (h ++ String "," seg)
               = parseStripeSignatureHeader h).
  { rewrite !parse_unfold. unfold header_timestamp.
    rewrite split_app, (split_without _ _ Hc), find_timestamp_app, F.
    destruct (find_timestamp (Js.split "," h)); [|reflexivity].
    now rewrite collect_v1_app, C, app_nil_r. }
  assert (P2 : parseStripeSignatureHeader (seg ++ String "," h)
               = parseStripeSignatureHeader h).
  { rewrite !parse_unfold. unfold header_timestamp.
    rewrite split_app, (split_without _ _ Hc), find_timestamp_app, F.
    destruct (find_timestamp (Js.split "," h)); [|reflexivity].
    now rewrite collect_v1_app, C. }
  split; [exact P1 | split; [exact P2|]].
  intros pf rawBody secret. unfold verifyStripeSignature. now rewrite P1, P2.
Qed.

Lemma parse_ignores_other_segments_witness :
  parseStripeSignatureHeader "t=1700000000,v1=ab,v0=ff"
  = parseStripeSignatureHeader "t=1700000000,v1=ab".
Proof.
  exact (proj1 (parse_ignores_other_segments "t=1700000000,v1=ab" "v0=ff"
                  eq_refl eq_refl eq_refl)).
Defined.

(** ** The preview of a rejected downstream body *)

(** X11.  The preview written to the log never exceeds 303 code units: a body
    of at most 300 code units is logged whole, a longer one as its first 300
    code units followed by three full stops, and a body that cannot be read as
    a fixed text. *)
Theorem errorBody_bounded (text : Completion jsstring) :
  (List.length (errorBody text) <= 303)%nat
  /\ (forall t, text = Normal t -> (List.length t <= 300)%nat -> errorBody text = t)
  /\ (forall t, text = Normal t -> (300 < List.length t)%nat ->
                firstn 300 (errorBody text) = firstn 300 t
                /\ skipn 300 (errorBody text) = code_units "...").
Proof.
  split; [|split].
  - destruct text as [t|e]; unfold errorBody; [|cbn; lia].
    destruct (Nat.ltb_spec 300 (List.length t)) as [H|H]; [|lia].
    rewrite length_app, length_firstn.
    change (List.length (code_units "...")) with 3%nat. lia.
  - intros t -> H. unfold errorBody.
    destruct (Nat.ltb_spec 300 (List.length t)); [lia | reflexivity].
  - intros t -> H. unfold errorBody.
    destruct (Nat.ltb_spec 300 (List.length t)); [|lia].
    assert (L : List.length (firstn 300 t) = 300%nat) by (rewrite length_firstn; lia).
    split.
    + rewrite firstn_app, L, Nat.sub_diag, firstn_firstn. cbn [firstn Nat.min].
      now rewrite app_nil_r.
    + rewrite skipn_app, L, Nat.sub_diag, skipn_all2 by lia. reflexivity.
Qed.

Lemma errorBody_bounded_witness :
  errorBody (Normal (code_units "not found")) = code_units "not found".
Proof.
  apply (proj1 (proj2 (errorBody_bounded (Normal (code_units "not found"))))).
  - reflexivity.
  - cbn. lia.
Defined.

(** ** The handler's rejections *)

Lemma V1_POST_rejected (pf : Platform) (env : ProcessEnv) (request : Request)
    (rawBody : jsstring) :
  request_text request = Normal rawBody ->
  verified pf env request = false ->
  V1.POST pf env request
  = (Normal (if negb (truthy (request_headers_get request "stripe-signature"))
             then json_response 400 (Body_error "Missing stripe-signature header")
             else if negb (truthy_js (STRIPE_WEBHOOK_SECRET env))
                  then json_response 500 (Body_error "Server configuration error")
                  else json_response 400 (Body_error "Invalid signature")), []).
Proof.
  unfold verified, V1.POST. cbv zeta. intros ->. rewrite bindE_normal.
  destruct (truthy (request_headers_get request "stripe-signature")); [|reflexivity].
  destruct (truthy_js (STRIPE_WEBHOOK_SECRET env)); [|reflexivity].
  destruct (verify_returns pf rawBody (the_js (STRIPE_WEBHOOK_SECRET env))
              (the (request_headers_get request "stripe-signature"))) as [outcome Hv].
  rewrite Hv, bindE_normal. cbn [andb negb]. intros ->. reflexivity.
Qed.

Lemma V2_POST_rejected (pf : Platform) (env : ProcessEnv) (request : Request)
    (rawBody : jsstring) (requestId : string) :
  randomUUID pf = Normal requestId ->
  request_text request = Normal rawBody ->
  verified pf env request = false ->
  V2.POST pf env request
  = (Normal (if negb (truthy (request_headers_get request "stripe-signature"))
             then json_response 400 (Body_error "Missing stripe-signature header")
             else if negb (truthy_js (STRIPE_WEBHOOK_SECRET env))
                  then json_response 500 (Body_error "Server configuration error")
                  else json_response 400 (Body_error "Invalid signature")), []).
Proof.
  unfold verified, V2.POST. cbv zeta. intros -> ->. rewrite !bindE_normal.
  destruct (truthy (request_headers_get request "stripe-signature")); [|reflexivity].
  destruct (truthy_js (STRIPE_WEBHOOK_SECRET env)); [|reflexivity].
  destruct (verify_returns pf rawBody (the_js (STRIPE_WEBHOOK_SECRET env))
              (the (request_headers_get request "stripe-signature"))) as [outcome Hv].
  rewrite Hv, bindE_normal. cbn [andb negb]. intros ->. reflexivity.
Qed.

Lemma verified_parts (pf : Platform) (env : ProcessEnv) (request : Request) :
  verified pf env request = true ->
  truthy (request_headers_get request "stripe-signature") = true
  /\ truthy_js (STRIPE_WEBHOOK_SECRET env) = true.
Proof.
  unfold verified. destruct (request_text request); [|discriminate].
  destruct (truthy _); [|discriminate]. destruct (truthy_js _); [|discriminate].
  now split.
Qed.

Lemma unverified_without_header (pf : Platform) (env : ProcessEnv) (request : Request) :
  truthy (request_headers_get request "stripe-signature") = false
  \/ truthy_js (STRIPE_WEBHOOK_SECRET env) = false ->
  verified pf env request = false.
Proof.
  intros H. destruct (verified pf env request) eqn:V; [|reflexivity].
  destruct (verified_parts pf env request V) as [H1 H2].
  destruct H as [H|H]; congruence.
Qed.

Lemma rejects_from_run (pf : Platform) (env : ProcessEnv) (request : Request)
    (post : Eff Response) (run : Eff ForwardResult) (answer : ForwardResult -> Response) :
  (verified pf env request = false ->
   post = (Normal (if negb (truthy (request_headers_get request "stripe-signature"))
                   then json_response 400 (Body_error "Missing stripe-signature header")
                   else if negb (truthy_js (STRIPE_WEBHOOK_SECRET env))
                        then json_response 500 (Body_error "Server configuration error")
                        else json_response 400 (Body_error "Invalid signature")), [])) ->
  (verified pf env request = true ->
   post = (match result run with
           | Normal fr => Normal (answer fr)
           | Throw _ => Normal internal_error
           end, network_calls run)) ->
  (forall fr, response_code (answer fr) <> 400) ->
  rejects_in_order post pf env request.
Proof.
  intros Hno Hyes Hcode. unfold rejects_in_order. repeat apply conj.
  - intros H. rewrite Hno by (apply unverified_without_header; now left).
    now rewrite H.
  - intros H1 H2. rewrite Hno by (apply unverified_without_header; now right).
    now rewrite H1, H2.
  - intros H1 H2 V. rewrite (Hno V). now rewrite H1, H2.
  - intros V response. rewrite (Hyes V). cbn [result fst].
    destruct (result run) as [fr|e]; intros [= <-]; [apply Hcode | discriminate].
Qed.

Lemma V1_answer_not_400 (fr : ForwardResult) : response_code (V1_answer fr) <> 400.
Proof. unfold V1_answer. now destruct (success fr). Qed.

Lemma V2_answer_codes (fr : ForwardResult) :
  (response_code (V2_answer fr) = 200 /\ success fr = true)
  \/ (response_code (V2_answer fr) = 502 /\ success fr = false
      /\ gatewayError fr <> None)
  \/ (response_code (V2_answer fr) = 500 /\ success fr = false
      /\ gatewayError fr = None).
Proof.
  unfold V2_answer. destruct (success fr); [now left | right].
  destruct (gatewayError fr); [now left | right].
  now destruct (truthy (forwardError fr)).
Qed.

Lemma V2_answer_not_400 (fr : ForwardResult) : response_code (V2_answer fr) <> 400.
Proof. destruct (V2_answer_codes fr) as [[-> _] | [[-> _] | [-> _]]]; discriminate. Qed.

(** X12.  Once the body is read the handler checks, in this order, the
    signature header (absent or empty: 400), the signing secret (absent or
    empty: 500) and the signature (400); none of these makes an outbound call,
    and a request that verified is never answered 400.  The second variant
    does so once [randomUUID] has returned. *)
Theorem POST_rejections :
  (forall pf env request rawBody,
      request_text request = Normal rawBody ->
      rejects_in_order (V1.POST pf env request) pf env request)
  /\ (forall pf env request rawBody requestId,
        randomUUID pf = Normal requestId ->
        request_text request = Normal rawBody ->
        rejects_in_order (V2.POST pf env request) pf env request).
Proof.
  split.
  - intros pf env request rawBody Hbody.
    apply rejects_from_run with (run := V1_forwarding pf env request)
                                (answer := V1_answer).
    + now apply V1_POST_rejected with (rawBody := rawBody).
    + apply V1_POST_verified.
    + apply V1_answer_not_400.
  - intros pf env request rawBody requestId U Hbody.
    apply rejects_from_run
      with (run := V2.forwardToSupabase pf env (request_body request)
                     (the (request_headers_get request "stripe-signature"))
                     (inbound_content_type request) (ping_mode env))
           (answer := V2_answer).
    + now apply V2_POST_rejected with (rawBody := rawBody) (requestId := requestId).
    + now apply V2_POST_verified with (requestId := requestId).
    + apply V2_answer_not_400.
Qed.

Lemma POST_rejections_witness :
  V1.POST Sample.faulty (mkEnv None None None None None None)
    (Sample.request None None)
  = (Normal (json_response 400 (Body_error "Missing stripe-signature header")), []).
Proof.
  exact (proj1 (proj1 POST_rejections Sample.faulty
                  (mkEnv None None None None None None)
                  (Sample.request None None) Sample.body eq_refl) eq_refl).
Defined.

(** ** No call without a verified signature *)

(** X13.  Both variants make at most one outbound call for a request, and none
    for a request that did not verify. *)
Theorem POST_calls_only_when_verified (pf : Platform) (env : ProcessEnv)
    (request : Request) :
  ((List.length (network_calls (V1.POST pf env request)) <= 1)%nat
   /\ (verified pf env request = false -> network_calls (V1.POST pf env request) = []))
  /\ ((List.length (network_calls (V2.POST pf env request)) <= 1)%nat
      /\ (verified pf env request = false -> network_calls (V2.POST pf env request) = [])).
Proof.
  split.
  - destruct (verified pf env request) eqn:V.
    + rewrite (V1_POST_verified pf env request V). cbv zeta. cbn [network_calls snd].
      split; [|discriminate].
      destruct (V1_forwarding_shape pf env request) as [[failure _ | init on_throw _] | [e ->]];
        cbn; lia.
    + destruct (V1_POST_unverified pf env request V) as (c & m & -> & _).
      cbn. split; [lia | reflexivity].
  - destruct (randomUUID pf) as [requestId|e] eqn:U.
    2:{ rewrite (V2_POST_prologue pf env request e U). cbn. split; [lia | reflexivity]. }
    destruct (verified pf env request) eqn:V.
    + rewrite (V2_POST_verified pf env request requestId U V). cbv zeta.
      cbn [network_calls snd]. split; [|discriminate].
      destruct (V2_forward_shape pf env (request_body request)
                  (the (request_headers_get request "stripe-signature"))
                  (inbound_content_type request) (ping_mode env)); cbn; lia.
    + destruct (V2_POST_unverified pf env request requestId U V) as (c & m & -> & _).
      cbn. split; [lia | reflexivity].
Qed.

Lemma POST_calls_only_when_verified_witness :
  network_calls
    (V2.POST (Sample.node Sample.uuid_ok (Sample.answers 200))
       (Sample.env Sample.url None) (Sample.request None None)) = [].
Proof.
  exact (proj2 (proj2 (POST_calls_only_when_verified
                         (Sample.node Sample.uuid_ok (Sample.answers 200))
                         (Sample.env Sample.url None) (Sample.request None None)))
           eq_refl).
Defined.

(** ** Status 502 *)

Lemma V2_forward_cases (pf : Platform) (env : ProcessEnv) (rawBody : jsstring)
    (sig contentType : string) (pingMode : bool) :
  (exists reason,
      V2.forwardToSupabase pf env rawBody sig contentType pingMode
      = (Normal (mkForwardResult false None (Some reason) None), [])
      /\ truthy (Some reason) = true)
  \/ (exists init,
        V2.forwardToSupabase pf env rawBody sig contentType pingMode
        = (Normal (match fetch pf init with
                   | Normal answer => classify answer
                   | Throw err =>
                       mkForwardResult false (Some 502) None (Some (V2_gateway err))
                   end), [init])).
Proof.
  rewrite V2_forward_run. cbv zeta.
  destruct (negb (truthy (option_map _ _))); [left; now eexists|].
  destruct (negb (truthy (Some _))); [left; now eexists|].
  destruct (URL_new pf _) as [u|e]; [|left; now eexists].
  destruct (negb (String.eqb _ _)); [left; now eexists|].
  right. now eexists.
Qed.

(** X14.  The second variant answers 502 only when the outbound call raised: a
    status the downstream returned outside 200-299, 502 included, is answered
    500 with the generic message.  The first variant never answers 502. *)
Theorem gateway_status_only_when_call_raised :
  (forall pf env request response,
      result (V2.POST pf env request) = Normal response ->
      response_code response = 502 ->
      exists init e, forwarded pf (V2.POST pf env request) init (Throw e))
  /\ (forall pf env request init answer,
        forwarded pf (V2.POST pf env request) init (Normal answer) ->
        ~ is_2xx (response_status answer) ->
        result (V2.POST pf env request)
        = Normal (json_response 500 (Body_error "Failed to forward webhook")))
  /\ (forall pf env request response,
        result (V1.POST pf env request) = Normal response ->
        response_code response <> 502).
Proof.
  split; [|split].
  - intros pf env request response.
    destruct (randomUUID pf) as [requestId|err] eqn:U.
    2:{ rewrite (V2_POST_prologue pf env request err U). discriminate. }
    destruct (verified pf env request) eqn:V.
    2:{ destruct (V2_POST_unverified pf env request requestId U V)
          as (c & m & -> & [-> | ->]); intros [= <-]; discriminate. }
    unfold forwarded.
    rewrite (V2_POST_verified pf env request requestId U V). cbv zeta.
    cbn [result network_calls fst snd].
    destruct (V2_forward_cases pf env (request_body request)
                (the (request_headers_get request "stripe-signature"))
                (inbound_content_type request) (ping_mode env))
      as [(reason & -> & T) | (init & ->)]; cbn [result network_calls fst snd].
    + unfold V2_answer. cbn [success gatewayError forwardError]. rewrite T.
      intros [= <-]. discriminate.
    + destruct (fetch pf init) as [answer|err] eqn:F.
      * unfold V2_answer, classify. cbn [success gatewayError forwardError truthy].
        destruct (response_ok answer); intros [= <-]; discriminate.
      * intros _ _. now exists init, err.
  - intros pf env request init answer [Hcalls Hfetch] Hn.
    destruct (randomUUID pf) as [requestId|err] eqn:U.
    2:{ rewrite (V2_POST_prologue pf env request err U) in Hcalls. discriminate. }
    destruct (verified pf env request) eqn:V.
    2:{ destruct (V2_POST_unverified pf env request requestId U V) as (c & m & Hp & _).
        rewrite Hp in Hcalls. discriminate. }
    rewrite (V2_POST_verified pf env request requestId U V) in *.
    cbv zeta in *. cbn [result network_calls fst snd] in *.
    destruct (V2_forward_cases pf env (request_body request)
                (the (request_headers_get request "stripe-signature"))
                (inbound_content_type request) (ping_mode env))
      as [(reason & E & T) | (init' & E)]; rewrite E in *;
      cbn [result network_calls fst snd] in *.
    + discriminate.
    + injection Hcalls as ->. rewrite Hfetch.
      unfold V2_answer, classify. cbn [success gatewayError forwardError truthy].
      destruct (response_ok answer) eqn:R; [|reflexivity].
      now apply response_ok_2xx in R.
  - intros pf env request response.
    destruct (verified pf env request) eqn:V.
    + rewrite (V1_POST_verified pf env request V). cbv zeta. cbn [result fst].
      destruct (result _) as [fr|e]; intros [= <-]; [|discriminate].
      unfold V1_answer. now destruct (success fr).
    + destruct (V1_POST_unverified pf env request V) as (c & m & -> & [-> | ->]);
        intros [= <-]; discriminate.
Qed.

Lemma gateway_status_only_when_call_raised_witness :
  result (V2.POST (Sample.node Sample.uuid_ok (Sample.answers 502))
            (Sample.env Sample.url None)
            (Sample.request (Some Sample.signed_header) None))
  = Normal (json_response 500 (Body_error "Failed to forward webhook")).
Proof.
  assert (Hrun : forwarded (Sample.node Sample.uuid_ok (Sample.answers 502))
                   (V2.POST (Sample.node Sample.uuid_ok (Sample.answers 502))
                      (Sample.env Sample.url None)
                      (Sample.request (Some Sample.signed_header) None))
                   (V2_outbound (Sample.node Sample.uuid_ok (Sample.answers 502))
                      (Sample.env Sample.url None) Sample.body Sample.signed_header
                      "application/json" false)
                   (Normal (mkFetchResponse 502))).
  { split; [|reflexivity].
    rewrite (sample_V2_POST (Sample.answers 502) Sample.url None None).
    vm_compute. reflexivity. }
  assert (Hn : ~ is_2xx (response_status (mkFetchResponse 502)))
    by (unfold is_2xx; cbn; lia).
  exact (proj1 (proj2 gateway_status_only_when_call_raised)
           (Sample.node Sample.uuid_ok (Sample.answers 502))
           (Sample.env Sample.url None)
           (Sample.request (Some Sample.signed_header) None)
           (V2_outbound (Sample.node Sample.uuid_ok (Sample.answers 502))
              (Sample.env Sample.url None) Sample.body Sample.signed_header
              "application/json" false)
           (mkFetchResponse 502) Hrun Hn).
Defined.

(** ** Configuration errors as the sender sees them *)

(** X15.  On a verified request the second variant tells the sender which
    check of the forwarder's configuration failed, in the order the checks are
    made (bearer token, URL present, URL parses, URL is https), with status 500
    and without a call; the first variant, when its log line did not raise,
    answers a missing URL or key with the generic forwarding failure. *)
Theorem POST_configuration_errors :
  (forall pf env request requestId,
      randomUUID pf = Normal requestId ->
      verified pf env request = true ->
      (truthy (option_map Js.trim (INTERNAL_EDGE_AUTH_TOKEN env)) = false ->
       V2.POST pf env request
       = (Normal (json_response 500 (Body_error "INTERNAL_EDGE_AUTH_TOKEN missing")), []))
      /\ (truthy (option_map Js.trim (INTERNAL_EDGE_AUTH_TOKEN env)) = true ->
          Js.trim (the (SUPABASE_INTERNAL_WEBHOOK_URL env)) = EmptyString ->
          V2.POST pf env request
          = (Normal (json_response 500 (Body_error "Server configuration error")), []))
      /\ (truthy (option_map Js.trim (INTERNAL_EDGE_AUTH_TOKEN env)) = true ->
          forall e,
            Js.trim (the (SUPABASE_INTERNAL_WEBHOOK_URL env)) <> EmptyString ->
            URL_new pf (Js.trim (the (SUPABASE_INTERNAL_WEBHOOK_URL env))) = Throw e ->
            V2.POST pf env request
            = (Normal (json_response 500
                         (Body_error "Invalid SUPABASE_INTERNAL_WEBHOOK_URL")), []))
      /\ (truthy (option_map Js.trim (INTERNAL_EDGE_AUTH_TOKEN env)) = true ->
          forall u,
            Js.trim (the (SUPABASE_INTERNAL_WEBHOOK_URL env)) <> EmptyString ->
            URL_new pf (Js.trim (the (SUPABASE_INTERNAL_WEBHOOK_URL env))) = Normal u ->
            url_protocol u <> "https:" ->
            V2.POST pf env request
            = (Normal (json_response 500
                         (Body_error
                            "SUPABASE_INTERNAL_WEBHOOK_URL must use https protocol")), [])))
  /\ (forall pf env request line,
        verified pf env request = true ->
        V1_logged pf request = Normal line ->
        truthy (SUPABASE_INTERNAL_WEBHOOK_URL env) = false
        \/ truthy (SUPABASE_SERVICE_ROLE_KEY env) = false ->
        V1.POST pf env request
        = (Normal (json_response 500 (Body_error "Failed to forward webhook")), [])).
Proof.
  split.
  - intros pf env request requestId U V.
    rewrite (V2_POST_verified pf env request requestId U V). cbv zeta.
    rewrite V2_forward_run. cbv zeta.
    assert (T : Js.trim (the (SUPABASE_INTERNAL_WEBHOOK_URL env)) <> EmptyString ->
                truthy (Some (Js.trim (the (SUPABASE_INTERNAL_WEBHOOK_URL env)))) = true).
    { destruct (Js.trim _); [contradiction | reflexivity]. }
    split; [|split; [|split]].
    + intros ->. reflexivity.
    + intros -> ->. reflexivity.
    + intros -> e Hne He. rewrite (T Hne), He. reflexivity.
    + intros -> u Hne Hu Hp. rewrite (T Hne), Hu.
      apply String.eqb_neq in Hp. rewrite Hp. reflexivity.
  - intros pf env request line V L H.
    rewrite (V1_POST_verified pf env request V). cbv zeta.
    unfold V1_forwarding. rewrite L, bindE_normal, V1_forward_run.
    destruct H as [-> | ->]; cbn [negb orb]; [reflexivity|].
    now rewrite orb_true_r.
Qed.

Lemma POST_configuration_errors_witness :
  V2.POST (Sample.node Sample.uuid_ok (Sample.answers 200))
    (Sample.env Sample.insecure_url None)
    (Sample.request (Some Sample.signed_header) None)
  = (Normal (json_response 500
               (Body_error "SUPABASE_INTERNAL_WEBHOOK_URL must use https protocol")), []).
Proof.
  assert (Hne : Js.trim (the (SUPABASE_INTERNAL_WEBHOOK_URL
                                (Sample.env Sample.insecure_url None))) <> EmptyString)
    by (vm_compute; discriminate).
  assert (Hu : URL_new (Sample.node Sample.uuid_ok (Sample.answers 200))
                 (Js.trim (the (SUPABASE_INTERNAL_WEBHOOK_URL
                                  (Sample.env Sample.insecure_url None))))
               = Normal (mkURL "http:" "proj.supabase.co" "/functions/v1/hook"))
    by (vm_compute; reflexivity).
  assert (Hp : url_protocol (mkURL "http:" "proj.supabase.co" "/functions/v1/hook")
               <> "https:") by discriminate.
  exact (proj2 (proj2 (proj2
           (proj1 POST_configuration_errors
              (Sample.node Sample.uuid_ok (Sample.answers 200))
              (Sample.env Sample.insecure_url None)
              (Sample.request (Some Sample.signed_header) None)
              "3f0c2b1e-8a4d-4c57-9e21-6b7f5a0d9c11" eq_refl
              (sample_verified Sample.uuid_ok (Sample.answers 200)
                 Sample.insecure_url None None))))
           eq_refl (mkURL "http:" "proj.supabase.co" "/functions/v1/hook") Hne Hu Hp).
Defined.

(** ** The body is parsed for the log alone *)

Lemma verify_entries_platform (pf pf' : Platform) (rawBody secret : jsstring)
    (entries : list SignatureEntry) :
  (forall key msg, createHmac_sha256 pf key msg = createHmac_sha256 pf' key msg) ->
  Date_now pf = Date_now pf' ->
  verify_entries pf rawBody secret entries = verify_entries pf' rawBody secret entries.
Proof.
  intros Hmac Hnow. induction entries as [|entry rest IH]; [reflexivity|].
  cbn [verify_entries]. cbv zeta. unfold currentTimestamp. rewrite <- Hnow, <- Hmac.
  destruct (Js.abs_diff_gt _ _ _); [exact IH|].
  destruct (createHmac_sha256 pf _ _) as [digest|e]; [|reflexivity].
  cbn [bindC]. destruct (negb _); [exact IH|].
  destruct (Buffer.timingSafeEqual _ _) as [[|]|e]; cbn [bindC];
    [reflexivity | exact IH | reflexivity].
Qed.

Lemma verify_with_JSON_parse (pf : Platform) (parse : jsstring -> Completion EventInfo)
    (rawBody : jsstring) (h : string) (secret : jsstring) :
  verifyStripeSignature (with_JSON_parse pf parse) rawBody h secret
  = verifyStripeSignature pf rawBody h secret.
Proof.
  unfold verifyStripeSignature.
  now rewrite (verify_entries_platform (with_JSON_parse pf parse) pf).
Qed.

Lemma V1_forward_with_JSON_parse (pf : Platform)
    (parse : jsstring -> Completion EventInfo) (env : ProcessEnv) (rawBody : jsstring)
    (sig : string) :
  V1.forwardToSupabase (with_JSON_parse pf parse) env rawBody sig
  = V1.forwardToSupabase pf env rawBody sig.
Proof. rewrite !V1_forward_run. reflexivity. Qed.

Lemma V2_forward_with_JSON_parse (pf : Platform)
    (parse : jsstring -> Completion EventInfo) (env : ProcessEnv) (rawBody : jsstring)
    (sig contentType : string) (pingMode : bool) :
  V2.forwardToSupabase (with_JSON_parse pf parse) env rawBody sig contentType pingMode
  = V2.forwardToSupabase pf env rawBody sig contentType pingMode.
Proof. rewrite !V2_forward_run. reflexivity. Qed.

Lemma sample_odd_verified (downstream : FetchInit -> Completion FetchResponse)
    (destination : string) (ping : option string) :
  verified (Sample.odd_node downstream) (Sample.env destination ping) Sample.odd_request
  = true.
Proof. vm_compute. reflexivity. Qed.

(** X16.  The handler parses the body only for the log.  In the second variant
    the parse changes nothing: whatever [JSON.parse] does with the body,
    raising included, the response and the outbound call are the same.  In
    the first variant the parsed [type] and [id] reach a template literal: the
    run is the same for any two parses under which the log line completes, and
    when the line raises (a [type] or [id] that cannot be converted to a
    string) a verified request is answered 500 with the generic message and
    is not forwarded. *)
Theorem POST_JSON_parse_dependence (pf : Platform)
    (parse : jsstring -> Completion EventInfo) (env : ProcessEnv) (request : Request) :
  V2.POST (with_JSON_parse pf parse) env request = V2.POST pf env request
  /\ ((exists line, V1_logged pf request = Normal line) ->
      (exists line, V1_logged (with_JSON_parse pf parse) request = Normal line) ->
      V1.POST (with_JSON_parse pf parse) env request = V1.POST pf env request)
  /\ (forall e,
        verified pf env request = true ->
        V1_logged pf request = Throw e ->
        V1.POST pf env request = (Normal internal_error, [])).
Proof.
  split; [|split].
  - unfold V2.POST.
    change (randomUUID (with_JSON_parse pf parse)) with (randomUUID pf).
    destruct (randomUUID pf) as [requestId|e]; [|reflexivity].
    rewrite !bindE_normal.
    destruct (request_text request) as [rawBody|e]; [|reflexivity].
    rewrite !bindE_normal.
    destruct (negb (truthy (request_headers_get request "stripe-signature")));
      [reflexivity|].
    destruct (negb (truthy_js (STRIPE_WEBHOOK_SECRET env))); [reflexivity|].
    rewrite verify_with_JSON_parse.
    destruct (verify_returns pf rawBody (the_js (STRIPE_WEBHOOK_SECRET env))
                (the (request_headers_get request "stripe-signature"))) as [outcome Hv].
    rewrite Hv, !bindE_normal. destruct (negb (valid outcome)); [reflexivity|].
    destruct (safeJsonParseForLog_returns pf rawBody) as [info ->].
    destruct (safeJsonParseForLog_returns (with_JSON_parse pf parse) rawBody)
      as [info' ->].
    rewrite !bindE_normal, V2_forward_with_JSON_parse. reflexivity.
  - intros [l1 L1] [l2 L2]. unfold V1_logged, request_body in L1, L2. unfold V1.POST.
    destruct (request_text request) as [rawBody|e]; [|reflexivity].
    rewrite !bindE_normal.
    destruct (negb (truthy (request_headers_get request "stripe-signature")));
      [reflexivity|].
    destruct (negb (truthy_js (STRIPE_WEBHOOK_SECRET env))); [reflexivity|].
    rewrite verify_with_JSON_parse.
    destruct (verify_returns pf rawBody (the_js (STRIPE_WEBHOOK_SECRET env))
                (the (request_headers_get request "stripe-signature"))) as [outcome Hv].
    rewrite Hv, !bindE_normal. destruct (negb (valid outcome)); [reflexivity|].
    destruct (safeJsonParseForLog pf rawBody) as [info|e1]; [|discriminate L1].
    destruct (safeJsonParseForLog (with_JSON_parse pf parse) rawBody) as [info'|e2];
      [|discriminate L2].
    cbn [bindC] in L1, L2.
    rewrite !bindE_normal, L1, L2, !bindE_normal, V1_forward_with_JSON_parse.
    reflexivity.
  - intros e V L. rewrite (V1_POST_verified pf env request V). cbv zeta.
    unfold V1_forwarding. rewrite L, bindE_throw. reflexivity.
Qed.

Lemma POST_JSON_parse_dependence_witness :
  V1.POST (Sample.odd_node (Sample.answers 200)) (Sample.env Sample.url None)
    Sample.odd_request
  = (Normal internal_error, []).
Proof.
  exact (proj2 (proj2 (POST_JSON_parse_dependence (Sample.odd_node (Sample.answers 200))
                         (fun _ => Normal Sample.odd_event)
                         (Sample.env Sample.url None) Sample.odd_request))
           (mkError "TypeError" "Cannot convert object to primitive value" None)
           (sample_odd_verified (Sample.answers 200) Sample.url None)
           eq_refl).
Defined.

(** ** Credentials of the outbound request *)

Lemma V1_POST_calls_configured (pf : Platform) (env : ProcessEnv) (request : Request)
    (init : FetchInit) :
  In init (network_calls (V1.POST pf env request)) ->
  truthy (SUPABASE_INTERNAL_WEBHOOK_URL env) = true
  /\ truthy (SUPABASE_SERVICE_ROLE_KEY env) = true.
Proof.
  destruct (verified pf env request) eqn:V.
  - rewrite (V1_POST_verified pf env request V). cbv zeta. cbn [network_calls snd].
    intros Hin. rewrite (V1_forwarding_calls pf env request init Hin) in Hin.
    revert Hin. rewrite V1_forward_run.
    destruct (truthy (SUPABASE_INTERNAL_WEBHOOK_URL env));
      destruct (truthy (SUPABASE_SERVICE_ROLE_KEY env)); cbn [negb orb snd In]; easy.
  - destruct (V1_POST_unverified pf env request V) as (c & m & -> & _). easy.
Qed.

Lemma V2_POST_calls_configured (pf : Platform) (env : ProcessEnv) (request : Request)
    (init : FetchInit) :
  In init (network_calls (V2.POST pf env request)) ->
  truthy (option_map Js.trim (INTERNAL_EDGE_AUTH_TOKEN env)) = true
  /\ exists u, URL_new pf (Js.trim (the (SUPABASE_INTERNAL_WEBHOOK_URL env))) = Normal u
               /\ url_protocol u = "https:".
Proof.
  destruct (randomUUID pf) as [requestId|e] eqn:U.
  2:{ now rewrite (V2_POST_prologue pf env request e U). }
  destruct (verified pf env request) eqn:V.
  - rewrite (V2_POST_verified pf env request requestId U V). cbv zeta.
    cbn [network_calls snd]. rewrite V2_forward_run. cbv zeta.
    destruct (truthy (option_map _ _)); cbn [negb]; [|easy].
    destruct (negb (truthy (Some _))); [easy|].
    destruct (URL_new pf _) as [u|e]; [|easy].
    destruct (String.eqb (url_protocol u) "https:") eqn:P; cbn [negb]; [|easy].
    intros _. split; [reflexivity|]. exists u. split; [reflexivity|].
    now apply String.eqb_eq.
  - destruct (V2_POST_unverified pf env request requestId U V) as (c & m & -> & _). easy.
Qed.

(** X17.  Every outbound request is a POST to the configured URL (the second
    variant trims it, and calls only a URL that parsed with the https scheme),
    carries the bearer credential (the service-role key in [Authorization] in
    the first variant, the trimmed edge token in [authorization] in the
    second), and carries [x-internal-webhook-secret] exactly when the shared
    secret is configured and not empty. *)
Theorem outbound_request_credentials :
  (forall pf env request init,
      In init (network_calls (V1.POST pf env request)) ->
      fetch_method init = "POST"
      /\ Some (fetch_url init) = SUPABASE_INTERNAL_WEBHOOK_URL env
      /\ truthy (SUPABASE_SERVICE_ROLE_KEY env) = true
      /\ obj_get (fetch_headers init) "Authorization"
         = Some ("Bearer " ++ the (SUPABASE_SERVICE_ROLE_KEY env))%string
      /\ obj_get (fetch_headers init) "x-internal-webhook-secret"
         = if truthy (INTERNAL_WEBHOOK_SHARED_SECRET env)
           then INTERNAL_WEBHOOK_SHARED_SECRET env else None)
  /\ (forall pf env request init,
        In init (network_calls (V2.POST pf env request)) ->
        fetch_method init = "POST"
        /\ fetch_url init = Js.trim (the (SUPABASE_INTERNAL_WEBHOOK_URL env))
        /\ (exists u, URL_new pf (fetch_url init) = Normal u /\ url_protocol u = "https:")
        /\ truthy (option_map Js.trim (INTERNAL_EDGE_AUTH_TOKEN env)) = true
        /\ obj_get (fetch_headers init) "authorization"
           = Some ("Bearer " ++ Js.trim (the (INTERNAL_EDGE_AUTH_TOKEN env)))%string
        /\ obj_get (fetch_headers init) "x-internal-webhook-secret"
           = if truthy (INTERNAL_WEBHOOK_SHARED_SECRET env)
             then INTERNAL_WEBHOOK_SHARED_SECRET env else None).
Proof.
  split; intros pf env request init Hin.
  - destruct (V1_POST_calls_configured pf env request init Hin) as [Hurl Hkey].
    destruct (V1_POST_calls pf env request init Hin) as [_ ->].
    unfold V1_outbound. cbn [fetch_method fetch_url fetch_headers].
    split; [reflexivity|]. split; [now apply truthy_the|]. split; [exact Hkey|].
    destruct (truthy (INTERNAL_WEBHOOK_SHARED_SECRET env)) eqn:S.
    + apply truthy_the in S. cbn. now rewrite S.
    + cbn. now split.
  - destruct (V2_POST_calls_configured pf env request init Hin) as [Htoken Hurl].
    destruct (V2_POST_calls pf env request init Hin) as [_ ->].
    unfold V2_outbound. cbn [fetch_method fetch_url fetch_headers].
    split; [reflexivity|]. split; [reflexivity|]. split; [exact Hurl|].
    split; [exact Htoken|].
    replace (the (option_map Js.trim (INTERNAL_EDGE_AUTH_TOKEN env)))
      with (Js.trim (the (INTERNAL_EDGE_AUTH_TOKEN env)))
      by now destruct (INTERNAL_EDGE_AUTH_TOKEN env).
    destruct (truthy (INTERNAL_WEBHOOK_SHARED_SECRET env)) eqn:S.
    + apply truthy_the in S. cbn. now rewrite S.
    + cbn. now split.
Qed.

Lemma outbound_request_credentials_witness :
  obj_get
    (fetch_headers
       (V2_outbound (Sample.node Sample.uuid_ok (Sample.answers 200))
          (Sample.env Sample.url None)
          Sample.body Sample.signed_header "application/json" false))
    "authorization"
  = Some "Bearer edge-token".
Proof.
  destruct (proj2 outbound_request_credentials
              (Sample.node Sample.uuid_ok (Sample.answers 200))
              (Sample.env Sample.url None)
              (Sample.request (Some Sample.signed_header) None)
              (V2_outbound (Sample.node Sample.uuid_ok (Sample.answers 200))
                 (Sample.env Sample.url None)
                 Sample.body Sample.signed_header "application/json" false))
    as (_ & _ & _ & _ & Hauth & _).
  - rewrite (sample_V2_POST (Sample.answers 200) Sample.url None None).
    vm_compute. left. reflexivity.
  - exact Hauth.
Defined.

(** ** The status codes of the handler *)

(** X18.  The first variant answers only 200, 400 or 500; the second only 200,
    400, 500 or 502. *)
Theorem POST_status_codes (pf : Platform) (env : ProcessEnv) (request : Request) :
  (forall response,
      result (V1.POST pf env request) = Normal response ->
      In (response_code response) [200; 400; 500])
  /\ (forall response,
        result (V2.POST pf env request) = Normal response ->
        In (response_code response) [200; 400; 500; 502]).
Proof.
  split; intros response.
  - destruct (verified pf env request) eqn:V.
    + rewrite (V1_POST_verified pf env request V). cbv zeta. cbn [result fst].
      destruct (result _) as [fr|e]; intros [= <-].
      * unfold V1_answer. destruct (success fr); cbn; tauto.
      * cbn. tauto.
    + destruct (V1_POST_unverified pf env request V) as (c & m & -> & [-> | ->]);
        intros [= <-]; cbn; tauto.
  - destruct (randomUUID pf) as [requestId|e] eqn:U.
    2:{ rewrite (V2_POST_prologue pf env request e U). discriminate. }
    destruct (verified pf env request) eqn:V.
    + rewrite (V2_POST_verified pf env request requestId U V). cbv zeta.
      cbn [result fst].
      destruct (result _) as [fr|e]; intros [= <-].
      * destruct (V2_answer_codes fr) as [[-> _] | [[-> _] | [-> _]]]; cbn; tauto.
      * cbn. tauto.
    + destruct (V2_POST_unverified pf env request requestId U V)
        as (c & m & -> & [-> | ->]); intros [= <-]; cbn; tauto.
Qed.

Lemma POST_status_codes_witness :
  In (response_code (json_response 400 (Body_error "Missing stripe-signature header")))
     [200; 400; 500].
Proof.
  exact (proj1 (POST_status_codes Sample.faulty (mkEnv None None None None None None)
                  (Sample.request None None))
           (json_response 400 (Body_error "Missing stripe-signature header")) eq_refl).
Defined.

(** ** The signature header as the receiver reads it *)

(** X19.  The second variant puts the signature in the record of outbound
    headers twice, under [stripe-signature] and [Stripe-Signature]; the two
    names differ only in case, so the receiver reads one [stripe-signature]
    header whose value is the signature, a comma and a space, and the
    signature again. *)
Theorem V2_signature_received_twice (pf : Platform) (env : ProcessEnv)
    (request : Request) (init : FetchInit) :
  In init (network_calls (V2.POST pf env request)) ->
  exists sig,
    request_headers_get request "stripe-signature" = Some sig
    /\ Headers.get (fetch_headers init) "stripe-signature"
       = Some (Headers.normalize sig ++ ", " ++ Headers.normalize sig)%string.
Proof.
  intros Hin. destruct (V2_POST_calls pf env request init Hin) as [V ->].
  apply verified_signature, truthy_the in V.
  exists (the (request_headers_get request "stripe-signature")).
  split; [now rewrite V|].
  unfold V2_outbound. cbn [fetch_headers].
  destruct (truthy (INTERNAL_WEBHOOK_SHARED_SECRET env)); reflexivity.
Qed.

Lemma V2_signature_received_twice_witness :
  exists sig,
    request_headers_get (Sample.request (Some Sample.signed_header) None)
      "stripe-signature" = Some sig
    /\ Headers.get
         (fetch_headers
            (V2_outbound (Sample.node Sample.uuid_ok (Sample.answers 200))
               (Sample.env Sample.url None) Sample.body Sample.signed_header
               "application/json" false))
         "stripe-signature"
       = Some (Headers.normalize sig ++ ", " ++ Headers.normalize sig)%string.
Proof.
  apply (V2_signature_received_twice (Sample.node Sample.uuid_ok (Sample.answers 200))
           (Sample.env Sample.url None)
           (Sample.request (Some Sample.signed_header) None)).
  rewrite (sample_V2_POST (Sample.answers 200) Sample.url None None).
  vm_compute. left. reflexivity.
Defined.
